(** * oo-editors: the conversion / caching pipeline and the save round trip

    A shallow embedding of the two route handlers of the local server
    ([app.get('/api/convert')] and [app.post('/api/save')]) together with
    the helpers they call, and the properties the specification states
    about them; then the other routes of the server that work on files
    (media, working-directory files, converted files, the Document Server
    compatibility endpoint, the injection of the desktop stub) and the
    font metadata script, with the properties their code shows.

    Layout:
    - [Str]      byte strings, ASCII lower-casing, substring search;
    - [Path]     the POSIX flavour of Node's [path] module;
    - [Md5]      the digest behind [generateFileHash];
    - [Utils]    the helpers the server imports from [server-utils];
    - [Fs]       a filesystem of files and directories with the failure
                 modes of Node's synchronous [fs] calls, and the
                 state-and-exception monad the handlers run in;
    - [Server]   the descriptors, the body parser, the two handlers and
                 the dispatch of the child-process events;
    - [Obs], [Inv], [Sample]   what the theorems observe, what every
                 request preserves, and concrete worlds;
    - [Norm], [Step]   normal forms of absolute paths, and relations that
                 every step of a request respects;
    - [Routes]   [res.sendFile], the media, doc-base, converted and
                 test-file routes and the HTML middleware;
    - [FontScript]   [scripts/generate_office_fonts.js];
    - [DocServer]    [app.post('/converter')];
    - [Sample2], [Sample3]   more concrete values;
    - the theorems, one block per property. *)

From Stdlib Require Import ZArith List String Ascii Lia Bool DecimalString.
From stdpp Require Import base strings gmap.
Import ListNotations.

Local Open Scope string_scope.
Local Open Scope list_scope.

(* ===================================================================== *)
(** ** Byte strings *)
(* ===================================================================== *)

Module Str.

(** JavaScript strings are modelled as Rocq byte strings.  Every character
    the code inspects ([/], [.], the letters of an extension) is ASCII, so
    the UTF-8 bytes of a path carry the same information as its UTF-16
    code units. *)

Definition chars (s : string) : list ascii := list_ascii_of_string s.
Definition str (l : list ascii) : string := string_of_list_ascii l.

Definition lower_char (c : ascii) : ascii :=
  let n := nat_of_ascii c in
  if (65 <=? n)%nat && (n <=? 90)%nat then ascii_of_nat (n + 32) else c.

(** [String.prototype.toLowerCase], on the ASCII range. *)
Definition toLowerCase (s : string) : string := str (map lower_char (chars s)).

Fixpoint drop_while {A} (f : A -> bool) (l : list A) : list A :=
  match l with
  | [] => []
  | x :: l' => if f x then drop_while f l' else l
  end.

Fixpoint take_while {A} (f : A -> bool) (l : list A) : list A :=
  match l with
  | [] => []
  | x :: l' => if f x then x :: take_while f l' else []
  end.

(** [s.split(sep)] for a one-character separator: always at least one
    piece, empty pieces kept. *)
Fixpoint split_on (sep : ascii) (l : list ascii) : list (list ascii) :=
  match l with
  | [] => [[]]
  | c :: l' =>
      if Ascii.eqb c sep then [] :: split_on sep l'
      else match split_on sep l' with
           | [] => [[c]]
           | w :: ws => (c :: w) :: ws
           end
  end.

Fixpoint join_with (sep : list ascii) (ws : list (list ascii)) : list ascii :=
  match ws with
  | [] => []
  | [w] => w
  | w :: ws' => w ++ sep ++ join_with sep ws'
  end.

(** [is_prefix n h]: the character list [h] starts with [n]. *)
Fixpoint is_prefix (n h : list ascii) : bool :=
  match n, h with
  | [], _ => true
  | _ :: _, [] => false
  | a :: n', b :: h' => Ascii.eqb a b && is_prefix n' h'
  end.

(** [occurs n h]: [n] occurs somewhere in [h]. *)
Fixpoint occurs (n h : list ascii) : bool :=
  is_prefix n h ||
  match h with
  | [] => false
  | _ :: h' => occurs n h'
  end.

(** [hay.includes(needle)]. *)
Definition includes (needle hay : string) : bool := occurs (chars needle) (chars hay).

End Str.

(* ===================================================================== *)
(** ** Node's [path] module, POSIX flavour *)
(* ===================================================================== *)

Module Path.
Import Str.

Definition slash : ascii := "/"%char.
Definition dot : ascii := "."%char.

Definition is_sep (c : ascii) : bool := Ascii.eqb c slash.
Definition not_sep (c : ascii) : bool := negb (is_sep c).

(** The last path component, trailing separators ignored; it is what both
    [basename] and [extname] scan from the right. *)
Definition last_component (p : list ascii) : list ascii :=
  rev (take_while not_sep (drop_while is_sep (rev p))).

(** [path.basename(p)]. *)
Definition basename (p : string) : string := str (last_component (chars p)).

(** [path.dirname(p)]: scanning from the right down to index 1, skip the
    trailing separators and the last component; the separator found next
    ends the result.  With none left the result is the root or [.]; a
    result that would be the single leading separator is [//]. *)
Definition dirname (p : string) : string :=
  match chars p with
  | [] => "."
  | c0 :: rest =>
      let hasRoot := is_sep c0 in
      match drop_while not_sep (drop_while is_sep (rev rest)) with
      | [] => if hasRoot then "/" else "."
      | _ :: before =>
          if hasRoot && Nat.eqb (length before) 0 then "//"
          else str (c0 :: rev before)
      end
  end.

(** Split a component at its right-most dot. *)
Fixpoint split_last_dot (l : list ascii) : option (list ascii * list ascii) :=
  match l with
  | [] => None
  | c :: l' =>
      match split_last_dot l' with
      | Some (pre, ext) => Some (c :: pre, ext)
      | None => if Ascii.eqb c dot then Some ([], l') else None
      end
  end.

(** [path.extname(p)]: from the right-most dot of the last component to
    its end; empty when there is no dot, when the dot is the first
    character of the component, or when the component is [..]. *)
Definition extname (p : string) : string :=
  let comp := last_component (chars p) in
  match split_last_dot comp with
  | None => ""
  | Some ([], _) => ""
  | Some (_, ext) =>
      if String.eqb (str comp) ".." then "" else str (dot :: ext)
  end.

Definition seg_is (s : list ascii) (t : string) : bool := String.eqb (str s) t.

(** [normalizeString]: resolve [.] and [..] segments and drop empty ones.
    [acc] is the stack of kept segments, last one first. *)
Definition normalize_step (allowAboveRoot : bool)
    (acc : list (list ascii)) (seg : list ascii) : list (list ascii) :=
  if seg_is seg "" || seg_is seg "." then acc
  else if seg_is seg ".." then
    match acc with
    | top :: below =>
        if seg_is top ".." then (if allowAboveRoot then seg :: acc else acc)
        else below
    | [] => if allowAboveRoot then [seg] else []
    end
  else seg :: acc.

Definition normalize_segments (allowAboveRoot : bool) (p : list ascii) : list ascii :=
  join_with [slash]
    (rev (fold_left (normalize_step allowAboveRoot) (split_on slash p) [])).

(** [path.normalize(p)]. *)
Definition normalize (p : string) : string :=
  match chars p with
  | [] => "."
  | c0 :: _ =>
      let isAbsolute := is_sep c0 in
      let trailingSeparator :=
        match rev (chars p) with c :: _ => is_sep c | [] => false end in
      let body := normalize_segments (negb isAbsolute) (chars p) in
      match body with
      | [] => if isAbsolute then "/" else if trailingSeparator then "./" else "."
      | _ =>
          let body' := if trailingSeparator then body ++ [slash] else body in
          str (if isAbsolute then slash :: body' else body')
      end
  end.

(** [path.join(...parts)]: the non-empty parts joined with [/], then
    normalised; [.] when nothing is left. *)
Definition join (parts : list string) : string :=
  match filter (fun s => negb (String.eqb s "")) parts with
  | [] => "."
  | ps => normalize (str (join_with [slash] (map chars ps)))
  end.

(** [p], [dirname p], [dirname (dirname p)], ... up to the fixed point
    ([/] or [.]). *)
Fixpoint ancestors_fuel (fuel : nat) (p : string) : list string :=
  match fuel with
  | O => [p]
  | S n =>
      let d := dirname p in
      if String.eqb d p then [p] else p :: ancestors_fuel n d
  end.

Definition ancestors (p : string) : list string :=
  ancestors_fuel (S (String.length p)) p.

End Path.

(* ===================================================================== *)
(** ** MD5, the digest behind the fingerprint *)
(* ===================================================================== *)

Module Md5.
Import Str.
Local Open Scope Z_scope.

(** 32-bit words are integers taken modulo 2^32. *)
Definition w32 (x : Z) : Z := x mod 2 ^ 32.
Definition add32 (a b : Z) : Z := w32 (a + b).
Definition not32 (x : Z) : Z := Z.lxor x 0xffffffff.
Definition rotl32 (x s : Z) : Z :=
  w32 (Z.lor (Z.shiftl x s) (Z.shiftr x (32 - s))).

(** [K i = floor (2^32 * |sin (i + 1)|)]. *)
Definition K : list Z :=
  [ 0xd76aa478; 0xe8c7b756; 0x242070db; 0xc1bdceee;
    0xf57c0faf; 0x4787c62a; 0xa8304613; 0xfd469501;
    0x698098d8; 0x8b44f7af; 0xffff5bb1; 0x895cd7be;
    0x6b901122; 0xfd987193; 0xa679438e; 0x49b40821;
    0xf61e2562; 0xc040b340; 0x265e5a51; 0xe9b6c7aa;
    0xd62f105d; 0x02441453; 0xd8a1e681; 0xe7d3fbc8;
    0x21e1cde6; 0xc33707d6; 0xf4d50d87; 0x455a14ed;
    0xa9e3e905; 0xfcefa3f8; 0x676f02d9; 0x8d2a4c8a;
    0xfffa3942; 0x8771f681; 0x6d9d6122; 0xfde5380c;
    0xa4beea44; 0x4bdecfa9; 0xf6bb4b60; 0xbebfbc70;
    0x289b7ec6; 0xeaa127fa; 0xd4ef3085; 0x04881d05;
    0xd9d4d039; 0xe6db99e5; 0x1fa27cf8; 0xc4ac5665;
    0xf4292244; 0x432aff97; 0xab9423a7; 0xfc93a039;
    0x655b59c3; 0x8f0ccc92; 0xffeff47d; 0x85845dd1;
    0x6fa87e4f; 0xfe2ce6e0; 0xa3014314; 0x4e0811a1;
    0xf7537e82; 0xbd3af235; 0x2ad7d2bb; 0xeb86d391 ].

(** Per-step left rotations. *)
Definition R : list Z :=
  [ 7; 12; 17; 22; 7; 12; 17; 22; 7; 12; 17; 22; 7; 12; 17; 22;
    5; 9; 14; 20; 5; 9; 14; 20; 5; 9; 14; 20; 5; 9; 14; 20;
    4; 11; 16; 23; 4; 11; 16; 23; 4; 11; 16; 23; 4; 11; 16; 23;
    6; 10; 15; 21; 6; 10; 15; 21; 6; 10; 15; 21; 6; 10; 15; 21 ].

Definition le_word (b0 b1 b2 b3 : Z) : Z :=
  b0 + 256 * b1 + 65536 * b2 + 16777216 * b3.

Fixpoint words (bs : list Z) : list Z :=
  match bs with
  | b0 :: b1 :: b2 :: b3 :: rest => le_word b0 b1 b2 b3 :: words rest
  | _ => []
  end.

Definition le_bytes4 (w : Z) : list Z :=
  [ w mod 256; (w / 256) mod 256; (w / 65536) mod 256; (w / 16777216) mod 256 ].

(** Padding: one [0x80] byte, zeros up to 56 modulo 64, then the bit
    length as a 64-bit little-endian integer. *)
Definition pad (msg : list Z) : list Z :=
  let len := Z.of_nat (length msg) in
  let bits := (8 * len) mod 2 ^ 64 in
  (msg ++ [0x80] ++ repeat 0 (Z.to_nat ((55 - len) mod 64))
     ++ le_bytes4 (bits mod 2 ^ 32) ++ le_bytes4 (bits / 2 ^ 32))%list.

Fixpoint chunks (fuel : nat) (n : nat) (l : list Z) : list (list Z) :=
  match fuel, l with
  | O, _ | _, [] => []
  | S fuel', _ => firstn n l :: chunks fuel' n (skipn n l)
  end.

Definition round_fn (i : nat) (b c d : Z) : Z * nat :=
  if Nat.ltb i 16 then (Z.lor (Z.land b c) (Z.land (not32 b) d), i)
  else if Nat.ltb i 32 then
    (Z.lor (Z.land d b) (Z.land (not32 d) c), Nat.modulo (5 * i + 1) 16)
  else if Nat.ltb i 48 then
    (Z.lxor (Z.lxor b c) d, Nat.modulo (3 * i + 5) 16)
  else (Z.lxor c (Z.lor b (not32 d)), Nat.modulo (7 * i) 16).

Definition state : Type := Z * Z * Z * Z.

Definition step (M : list Z) (st : state) (i : nat) : state :=
  let '(a, b, c, d) := st in
  let '(f, g) := round_fn i b c d in
  let f' := w32 (f + a + nth i K 0 + nth g M 0) in
  (d, add32 b (rotl32 f' (nth i R 0)), b, c).

Definition process_block (st : state) (block : list Z) : state :=
  let '(a, b, c, d) := st in
  let '(a', b', c', d') := fold_left (step (words block)) (seq 0 64) st in
  (add32 a a', add32 b b', add32 c c', add32 d d').

Definition init : state := (0x67452301, 0xefcdab89, 0x98badcfe, 0x10325476).

(** The 16 bytes of the digest. *)
Definition digest (msg : list Z) : list Z :=
  let padded := pad msg in
  let '(a, b, c, d) :=
    fold_left process_block (chunks (length padded) 64 padded) init in
  (le_bytes4 a ++ le_bytes4 b ++ le_bytes4 c ++ le_bytes4 d)%list.

Definition hex_digit (n : Z) : ascii :=
  nth (Z.to_nat (n mod 16)) (chars "0123456789abcdef") "0"%char.

Definition hex_byte (b : Z) : list ascii := [hex_digit (b / 16); hex_digit b].

(** [digest('hex')]. *)
Definition hex (bs : list Z) : string := str (flat_map hex_byte bs).

Definition bytes_of_string (s : string) : list Z :=
  map (fun c => Z.of_nat (nat_of_ascii c)) (chars s).

(** [crypto.createHash('md5').update(s).digest('hex')]. *)
Definition hexdigest (s : string) : string := hex (digest (bytes_of_string s)).

End Md5.

(* ===================================================================== *)
(** ** The helpers imported from [server-utils] *)
(* ===================================================================== *)

Module Utils.
Import Str.

(** A target-format record [{ code, name }]. *)
Record format_info : Type := FormatInfo { code : Z; name : string }.

Definition strip_leading_dot (s : string) : string :=
  match s with
  | String c rest => if Ascii.eqb c "."%char then rest else s
  | EmptyString => s
  end.

Definition one_of (s : string) (l : list string) : bool :=
  existsb (String.eqb s) l.

Definition spreadsheet_family : list string := ["xlsx"; "xls"; "ods"].
Definition document_family : list string :=
  ["docx"; "doc"; "odt"; "txt"; "rtf"; "html"].
Definition presentation_family : list string := ["pptx"; "ppt"; "odp"].

(** Modelled from the spec: [getOutputFormatInfo] of [server-utils.js],
    which is not among the sources.  Section 4.1: given a case-insensitive
    extension, with or without its leading dot, return the record of the
    extension's family, or the not-found sentinel ([null], here [None]); it
    never throws.  The codes are those of the table of section 6, the
    display names those the tests of [getOutputFormatInfo] expect. *)
Definition getOutputFormatInfo (ext : string) : option format_info :=
  let e := strip_leading_dot (toLowerCase ext) in
  if one_of e spreadsheet_family then Some (FormatInfo 257 "XLSX")
  else if String.eqb e "csv" then Some (FormatInfo 260 "CSV")
  else if one_of e document_family then Some (FormatInfo 65 "DOCX")
  else if one_of e presentation_family then Some (FormatInfo 129 "PPTX")
  else None.

(** Modelled from the spec: [generateFileHash] of [server-utils.js], which
    is not among the sources.  Section 4.2: a 16-byte digest of the path
    string alone, rendered as 32 lower-case hexadecimal characters; the
    tests name the digest (MD5). *)
Definition generateFileHash (filepath : string) : string :=
  Md5.hexdigest filepath.

Definition is_letter (c : ascii) : bool :=
  let n := nat_of_ascii c in
  ((65 <=? n)%nat && (n <=? 90)%nat) || ((97 <=? n)%nat && (n <=? 122)%nat).

(** Modelled from the spec: [isAbsolutePath] of [server-utils.js], which is
    not among the sources.  The spec only names the notion; the tests
    accept POSIX paths that start with a separator and Windows paths that
    start with a drive letter, a colon and a separator, and reject
    everything else. *)
Definition isAbsolutePath (p : string) : bool :=
  match chars p with
  | c0 :: rest =>
      Ascii.eqb c0 "/"%char ||
      match rest with
      | c1 :: c2 :: _ =>
          is_letter c0 && Ascii.eqb c1 ":"%char &&
          (Ascii.eqb c2 "\"%char || Ascii.eqb c2 "/"%char)
      | _ => false
      end
  | [] => false
  end.

(** Modelled from the spec: [isXLSXSignature] of [server-utils.js], which
    is not among the sources.  Section 4.5, step 1: the payload is checked
    against a two-byte ZIP-family marker at offset 0 (the bytes 50 4B, the
    letters PK) and must be at least 4 bytes long. *)
Definition isXLSXSignature (data : list Byte.byte) : bool :=
  match data with
  | b0 :: b1 :: _ :: _ :: _ => Byte.eqb b0 Byte.x50 && Byte.eqb b1 Byte.x4b
  | _ => false
  end.

End Utils.

(* ===================================================================== *)
(** ** The filesystem and the monad of the handlers *)
(* ===================================================================== *)

Module Fs.

(** A filesystem maps path strings to nodes.  Paths are compared as
    strings: the kernel's own resolution of [.], [..], doubled separators
    and symbolic links is not modelled, and neither are permissions.  The
    map therefore stands for a real tree only as long as every node is
    named by its resolved path; a statement that tells two paths apart
    by their spelling asks for paths in normal form ([Norm.canonical]). *)
Inductive node : Type :=
| File (mtimeMs : Z) (data : list Byte.byte)
| Dir (mtimeMs : Z).

Inductive errno : Type := ENOENT | EISDIR | ENOTDIR | EEXIST | EPERM.

(** What a handler can throw: the [Error] of a failing [fs] call, or the
    [TypeError] of a call on a value that has no such method. *)
Inductive exn : Type :=
| FsError (code : errno) (syscall : string) (path : string)
| TypeError (message : string).

(** What a request does to the outside world, in order. *)
Inductive event : Type :=
| EvExists (path : string)
| EvStat (path : string)
| EvRead (path : string)
| EvWrite (path : string)
| EvMkdir (path : string)
| EvUnlink (path : string)
| EvSpawn (command : string) (args : list string).

Record world : Type := World {
  files : gmap string node;
  now : Z;                      (* the clock that stamps new files *)
  trace : list event
}.

Definition log (ev : event) (w : world) : world :=
  World (files w) (now w) (trace w ++ [ev]).

Definition set_files (m : gmap string node) (w : world) : world :=
  World m (now w) (trace w).

Inductive result (A : Type) : Type :=
| Ok (a : A)
| Throw (e : exn).
Arguments Ok {A} a.
Arguments Throw {A} e.

(** State passing with exceptions; the state survives a throw. *)
Definition M (A : Type) : Type := world -> result A * world.

Definition ret {A} (a : A) : M A := fun w => (Ok a, w).
Definition throw {A} (e : exn) : M A := fun w => (Throw e, w).
Definition bind {A B} (m : M A) (k : A -> M B) : M B :=
  fun w =>
    match m w with
    | (Ok a, w') => k a w'
    | (Throw e, w') => (Throw e, w')
    end.

(** [try { m } catch (e) { h e }]. *)
Definition try_catch {A} (m : M A) (h : exn -> M A) : M A :=
  fun w =>
    match m w with
    | (Ok a, w') => (Ok a, w')
    | (Throw e, w') => h e w'
    end.

Record stats : Type := Stats { isFile : bool; mtime : Z; size : Z }.

(** A directory's reported size is platform specific; no code path
    modelled here looks at it. *)
Definition stat_of (n : node) : stats :=
  match n with
  | File t d => Stats true t (Z.of_nat (length d))
  | Dir t => Stats false t 0
  end.

Definition is_file (m : gmap string node) (p : string) : bool :=
  match m !! p with Some (File _ _) => true | _ => false end.

Definition is_dir (m : gmap string node) (p : string) : bool :=
  match m !! p with Some (Dir _) => true | _ => false end.

Definition exists_node (m : gmap string node) (p : string) : bool :=
  match m !! p with Some _ => true | None => false end.

(** [fs.existsSync]: never throws. *)
Definition existsSync (p : string) : M bool :=
  fun w => (Ok (exists_node (files w) p), log (EvExists p) w).

(** [fs.statSync]. *)
Definition statSync (p : string) : M stats :=
  fun w =>
    match files w !! p with
    | Some n => (Ok (stat_of n), log (EvStat p) w)
    | None => (Throw (FsError ENOENT "stat" p), log (EvStat p) w)
    end.

(** [fs.readFileSync]. *)
Definition readFileSync (p : string) : M (list Byte.byte) :=
  fun w =>
    match files w !! p with
    | Some (File _ d) => (Ok d, log (EvRead p) w)
    | Some (Dir _) => (Throw (FsError EISDIR "read" p), log (EvRead p) w)
    | None => (Throw (FsError ENOENT "open" p), log (EvRead p) w)
    end.

(** The effect of writing a file, when it is possible: the target is not a
    directory and its parent is one. *)
Definition write_node (p : string) (d : list Byte.byte) (t : Z)
    (m : gmap string node) : errno + gmap string node :=
  match m !! p with
  | Some (Dir _) => inl EISDIR
  | _ =>
      match m !! Path.dirname p with
      | Some (Dir _) => inr (<[p := File t d]> m)
      | Some (File _ _) => inl ENOTDIR
      | None => inl ENOENT
      end
  end.

(** [fs.writeFileSync]: create or replace the file. *)
Definition writeFileSync (p : string) (d : list Byte.byte) : M unit :=
  fun w =>
    match write_node p d (now w) (files w) with
    | inr m => (Ok tt, set_files m (log (EvWrite p) w))
    | inl e => (Throw (FsError e "open" p), log (EvWrite p) w)
    end.

Definition mkdir_one (t : Z) (a : string) (m : gmap string node) : gmap string node :=
  match m !! a with
  | Some _ => m
  | None => <[a := Dir t]> m
  end.

(** [fs.mkdirSync(p, { recursive: true })]: create [p] and its missing
    ancestors; fails when [p] or an ancestor is a regular file. *)
Definition mkdirSync_recursive (p : string) : M unit :=
  fun w =>
    let chain := Path.ancestors p in
    if is_file (files w) p then
      (Throw (FsError EEXIST "mkdir" p), log (EvMkdir p) w)
    else if existsb (is_file (files w)) chain then
      (Throw (FsError ENOTDIR "mkdir" p), log (EvMkdir p) w)
    else
      (Ok tt, set_files (fold_right (mkdir_one (now w)) (files w) chain)
                (log (EvMkdir p) w)).

(** [fs.unlinkSync]. *)
Definition unlinkSync (p : string) : M unit :=
  fun w =>
    match files w !! p with
    | Some (File _ _) => (Ok tt, set_files (delete p (files w)) (log (EvUnlink p) w))
    | Some (Dir _) => (Throw (FsError EPERM "unlink" p), log (EvUnlink p) w)
    | None => (Throw (FsError ENOENT "unlink" p), log (EvUnlink p) w)
    end.

End Fs.

Declare Scope fs_scope.
Delimit Scope fs_scope with fs.
Notation "'let*' x ':=' m 'in' k" := (Fs.bind m (fun x => k))
  (at level 10, x name, m at level 100, k at level 200) : fs_scope.
Notation "m ';;' k" := (Fs.bind m (fun _ => k))
  (at level 100, k at level 200, right associativity) : fs_scope.

(* ===================================================================== *)
(** ** The server: descriptors, handlers, child-process events *)
(* ===================================================================== *)

Module Server.
Import Str Utils Fs.
Local Open Scope fs_scope.

Definition dq : string := String (ascii_of_nat 34) EmptyString.
Definition nl : string := String (ascii_of_nat 10) EmptyString.

Definition bytes_of (s : string) : list Byte.byte := list_byte_of_string s.

Definition decimal (z : Z) : string := NilZero.string_of_int (Z.to_int z).

(** *** Responses *)

Inductive body : Type :=
| JsonError (message : string)            (* res.json({ error }) *)
| JsonSaved (path : string) (size : Z)    (* res.json({ success: true, path, size }) *)
| Text (s : string)                       (* res.send(string) *)
| Binary (data : list Byte.byte).         (* res.send(buffer) *)

(** The headers are those the handler sets itself; [X-Timing], which
    carries wall-clock measurements, is left out. *)
Record response : Type := Response {
  status : Z;
  headers : list (string * string);
  content : body
}.

Definition json_error (st : Z) (msg : string) : response :=
  Response st [] (JsonError msg).
Definition send_text (st : Z) (s : string) : response :=
  Response st [] (Text s).

Definition editor_bin_headers (fileHash cache : string) : list (string * string) :=
  [ ("Content-Type", "application/octet-stream");
    ("Content-Disposition", "attachment; filename=" +:+ dq +:+ "Editor.bin" +:+ dq);
    ("X-File-Hash", fileHash);
    ("X-Cache", cache) ].

(** *** The child process *)

Inductive spawn_errno : Type := SpEACCES | SpEAGAIN | SpEMFILE | SpENFILE | SpENOENT.

(** The negative errno that Node reports for a failed spawn. *)
Definition uv_code (e : spawn_errno) : Z :=
  match e with
  | SpEACCES => -13 | SpEAGAIN => -11 | SpEMFILE => -24
  | SpENFILE => -23 | SpENOENT => -2
  end.

Inductive child_outcome : Type :=
| SpawnFailed (e : spawn_errno)      (* the process could not start *)
| Exited (code : Z)                  (* it ran and exited *)
| Killed (signal : string).          (* it was ended by a signal *)

(** One run of the external converter: how it ended, what it printed, and
    the files it wrote, each named by its resolved path. *)
Record conv_run : Type := ConvRun {
  outcome : child_outcome;
  stdout : string;
  stderr : string;
  writes : list (string * list Byte.byte)
}.

(** The converter is an opaque collaborator: any function of its command
    line and of the filesystem it sees. *)
Definition converter : Type := string -> list string -> gmap string node -> conv_run.

(** A spawn that fails for want of file descriptors returns before Node
    has created the streams of the child: [child.stdout] and
    [child.stderr] are then undefined.  After the other failures the
    streams are there. *)
Definition has_stdio (e : spawn_errno) : bool :=
  match e with
  | SpEMFILE | SpENFILE => false
  | SpEACCES | SpEAGAIN | SpENOENT => true
  end.

(** The [code] argument of the [close] event: the exit code, the negative
    errno of a failed spawn, or [null] after a signal. *)
Definition close_code (o : child_outcome) : option Z :=
  match o with
  | SpawnFailed e => Some (uv_code e)
  | Exited c => Some c
  | Killed _ => None
  end.

(** [code !== 0]. *)
Definition code_nonzero (c : option Z) : bool :=
  match c with
  | Some z => negb (Z.eqb z 0)
  | None => true
  end.

(** The listeners a handler registers on the child it spawned.  The [data]
    listeners only accumulate the two output streams, which the [close]
    listener receives here as arguments. *)
Record child : Type := Child {
  command : string;
  args : list string;
  error_listener : option (spawn_errno -> M unit);
  close_listener : option Z -> string -> string -> M response
}.

(** How the synchronous part of a handler ends: a response already sent,
    or a child process to wait for. *)
Inductive pending : Type :=
| Sent (r : response)
| Waiting (c : child).

(** [spawn(command, args)]. *)
Definition spawn (cmd : string) (argv : list string) : M unit :=
  fun w => (Ok tt, log (EvSpawn cmd argv) w).

(** The [message] of a thrown [fs] error. *)
Definition errno_text (e : errno) : string :=
  match e with
  | ENOENT => "ENOENT: no such file or directory"
  | EISDIR => "EISDIR: illegal operation on a directory"
  | ENOTDIR => "ENOTDIR: not a directory"
  | EEXIST => "EEXIST: file already exists"
  | EPERM => "EPERM: operation not permitted"
  end.

Definition error_message (e : exn) : string :=
  match e with
  | FsError c sc p => errno_text c +:+ ", " +:+ sc +:+ " '" +:+ p +:+ "'"
  | TypeError message => message
  end.

(** *** The converter job descriptor *)

Definition xml_head : string :=
  "<?xml version=" +:+ dq +:+ "1.0" +:+ dq +:+ " encoding=" +:+ dq +:+ "utf-8" +:+ dq +:+ "?>" +:+ nl +:+
  "<TaskQueueDataConvert xmlns:xsi=" +:+ dq +:+ "http://www.w3.org/2001/XMLSchema-instance" +:+ dq +:+
  " xmlns:xsd=" +:+ dq +:+ "http://www.w3.org/2001/XMLSchema" +:+ dq +:+ ">" +:+ nl.

Definition nil_field (tag : string) : string :=
  "<" +:+ tag +:+ " xsi:nil=" +:+ dq +:+ "true" +:+ dq +:+ " />" +:+ nl.

(** The text spliced in after [m_nFormatTo] for the delimiter-text family:
    encoding 46 (UTF-8) and delimiter 4 (comma). *)
Definition csv_fields : string :=
  nl +:+ "<m_nCsvTxtEncoding>46</m_nCsvTxtEncoding>" +:+
  nl +:+ "<m_nCsvDelimiter>4</m_nCsvDelimiter>".

(** Everything after the [m_nFormatTo] line, the same in both descriptors. *)
Definition xml_tail (fontDir themeDir timestamp : string) : string :=
  nil_field "m_bPaid" +:+
  nil_field "m_bEmbeddedFonts" +:+
  "<m_bFromChanges>false</m_bFromChanges>" +:+ nl +:+
  "<m_sFontDir>" +:+ fontDir +:+ "</m_sFontDir>" +:+ nl +:+
  "<m_sThemeDir>" +:+ themeDir +:+ "</m_sThemeDir>" +:+ nl +:+
  "<m_sJsonParams>{}</m_sJsonParams>" +:+ nl +:+
  nil_field "m_nLcid" +:+
  "<m_oTimestamp>" +:+ timestamp +:+ "</m_oTimestamp>" +:+ nl +:+
  nil_field "m_bIsNoBase64" +:+
  nil_field "m_sConvertToOrigin" +:+
  "<m_oInputLimits>" +:+ nl +:+
  "</m_oInputLimits>" +:+ nl +:+
  "<options>" +:+ nl +:+
  "<allowNetworkRequest>false</allowNetworkRequest>" +:+ nl +:+
  "<allowPrivateIP>true</allowPrivateIP>" +:+ nl +:+
  "</options>" +:+ nl +:+
  "</TaskQueueDataConvert>" +:+ nl.

(** The [xmlConfig] template of [/api/convert]. *)
Definition convert_xmlConfig
    (inputPath outputPath filename fontDir themeDir timestamp : string) : string :=
  xml_head +:+
  "<m_sKey>api_conversion</m_sKey>" +:+ nl +:+
  "<m_sFileFrom>" +:+ inputPath +:+ "</m_sFileFrom>" +:+ nl +:+
  "<m_sFileTo>" +:+ outputPath +:+ "</m_sFileTo>" +:+ nl +:+
  "<m_sTitle>" +:+ filename +:+ "</m_sTitle>" +:+ nl +:+
  "<m_nFormatTo>8192</m_nFormatTo>" +:+
  (if String.eqb (toLowerCase (Path.extname filename)) ".csv" then csv_fields else "") +:+ nl +:+
  xml_tail fontDir themeDir timestamp.

(** The [xmlConfig] template of [/api/save]; [ext] is the lower-cased
    extension of the destination. *)
Definition save_xmlConfig
    (changesBinPath outputPath filename ext : string) (formatTo : Z)
    (fontDir themeDir timestamp : string) : string :=
  xml_head +:+
  "<m_sKey>api_save</m_sKey>" +:+ nl +:+
  "<m_sFileFrom>" +:+ changesBinPath +:+ "</m_sFileFrom>" +:+ nl +:+
  "<m_nFormatFrom>8192</m_nFormatFrom>" +:+ nl +:+
  "<m_sFileTo>" +:+ outputPath +:+ "</m_sFileTo>" +:+ nl +:+
  "<m_sTitle>" +:+ filename +:+ "</m_sTitle>" +:+ nl +:+
  "<m_nFormatTo>" +:+ decimal formatTo +:+ "</m_nFormatTo>" +:+
  (if String.eqb ext ".csv" then csv_fields else "") +:+ nl +:+
  xml_tail fontDir themeDir timestamp.

(** *** The handlers *)

Record save_request : Type := SaveRequest {
  query_filepath : option string;
  query_filehash : option string;
  content_type : option string;     (* the client's Content-Type header *)
  payload : list Byte.byte          (* the bytes of the request body *)
}.

(** *** The body parser *)

Definition is_blank (c : ascii) : bool := Ascii.eqb c " "%char.

(** The media type of a [Content-Type] header: the text before the first
    semicolon, without the spaces around it, in lower case. *)
Definition media_type (header : string) : string :=
  let type := take_while (fun c => negb (Ascii.eqb c ";"%char)) (chars header) in
  toLowerCase (str (rev (drop_while is_blank (rev (drop_while is_blank type))))).

(** [express.raw({ type: 'application/octet-stream' })]: the test the
    parser makes on the header of a request that carries a body (the
    parameters after the semicolon are taken to be well formed). *)
Definition is_octet_stream (ct : option string) : bool :=
  match ct with
  | Some header => String.eqb (media_type header) "application/octet-stream"
  | None => false
  end.


(** [req.body] as the save handler finds it: a [Buffer] with the bytes of
    the body when the raw parser took the request, and otherwise an
    object that is no [Buffer] and has no [slice] ([None]): the empty
    object the parsers leave when neither takes the request, or the
    object the JSON parser made of a JSON body.  The record stands for a
    request that reaches the handler.  Two requests of the JSON type are
    not modelled: one whose body the JSON parser rejects, which the
    parser answers itself, and one whose body is a JSON array, which has
    a [slice]; what is stated of bodies that were not parsed leaves the
    JSON type aside. *)
Definition parsed_body (req : save_request) : option (list Byte.byte) :=
  if is_octet_stream (content_type req) then Some (payload req) else None.

(** How a request ends for the client: a response, an exception that left
    the handler or a listener uncaught, or an [error] event emitted on a
    child process that has no [error] listener (which the emitter throws). *)
Inductive served : Type :=
| Replied (r : response)
| Uncaught (e : exn)
| UnhandledErrorEvent (e : spawn_errno).

Section Handlers.

(** The directory of the server script, the font directory taken from the
    environment, and the rendering of the clock as an ISO date. *)
Variable __dirname : string.
Variable FONT_DATA_DIR : string.
Variable toISOString : Z -> string.

Definition themeDir : string :=
  Path.join [__dirname; "editors"; "sdkjs"; "slide"; "themes"].

Definition x2tPath : string := Path.join [__dirname; "converter"; "x2t"].

Definition timestamp : M string := fun w => (Ok (toISOString (now w)), w).

(** **** GET /api/convert *)

(** The [close] listener of the convert path. *)
Definition convert_on_close (paramsPath outputPath fileHash : string)
    (code : option Z) (out err : string) : M response :=
  try_catch (unlinkSync paramsPath) (fun _ => ret tt) ;;
  if code_nonzero code then
    ret (send_text 500 ("Conversion failed: " +:+ err))
  else
    let* created := existsSync outputPath in
    if negb created then
      ret (send_text 500 "Conversion failed: output file not created")
    else
      let* binaryData := readFileSync outputPath in
      ret (Response 200 (editor_bin_headers fileHash "MISS") (Binary binaryData)).

Definition convert_outputDir (filepath : string) : string :=
  Path.join [__dirname; "test"; "output"; generateFileHash filepath].

Definition api_convert (query_filepath : option string) : M pending :=
  match query_filepath with
  | None | Some EmptyString =>
      ret (Sent (json_error 400 "filepath query parameter is required"))
  | Some filepath =>
      if negb (isAbsolutePath filepath) then
        ret (Sent (json_error 400 "filepath must be an absolute path"))
      else
        let fileHash := generateFileHash filepath in
        let outputDir := Path.join [__dirname; "test"; "output"; fileHash] in
        let inputPath := filepath in
        let* found := existsSync inputPath in
        if negb found then
          ret (Sent (json_error 404 "File not found at absolute path"))
        else
          let outputPath := Path.join [outputDir; "Editor.bin"] in
          let paramsPath := Path.join [outputDir; "params_temp.xml"] in
          let filename := Path.basename filepath in
          let* srcStat := statSync inputPath in
          let sourceMtime := mtime srcStat in
          let* cached := existsSync outputPath in
          let* hit :=
            (if cached then
               let* cacheStat := statSync outputPath in
               if Z.gtb (mtime cacheStat) sourceMtime then
                 let* binaryData := readFileSync outputPath in
                 ret (Some (Response 200 (editor_bin_headers fileHash "HIT")
                              (Binary binaryData)))
               else ret None
             else ret None) in
          match hit with
          | Some r => ret (Sent r)
          | None =>
              let* haveDir := existsSync outputDir in
              (if negb haveDir then mkdirSync_recursive outputDir else ret tt) ;;
              let fontDir := FONT_DATA_DIR in
              let* ts := timestamp in
              let xmlConfig :=
                convert_xmlConfig inputPath outputPath filename fontDir themeDir ts in
              writeFileSync paramsPath (bytes_of xmlConfig) ;;
              spawn x2tPath [paramsPath] ;;
              ret (Waiting
                     (Child x2tPath [paramsPath] None
                        (convert_on_close paramsPath outputPath fileHash)))
          end
  end.

(** **** POST /api/save *)

(** The [close] listener of the save path. *)
Definition save_on_close (paramsPath changesBinPath outputPath : string)
    (code : option Z) (out err : string) : M response :=
  try_catch
    (let* haveParams := existsSync paramsPath in
     (if haveParams then unlinkSync paramsPath else ret tt) ;;
     let* haveChanges := existsSync changesBinPath in
     if haveChanges then unlinkSync changesBinPath else ret tt)
    (fun _ => ret tt) ;;
  if code_nonzero code then
    ret (send_text 500 "Save failed: conversion error")
  else
    let* created := existsSync outputPath in
    if negb created then
      ret (send_text 500 "Save failed: no output file")
    else
      let* st := statSync outputPath in
      ret (Response 200 [] (JsonSaved outputPath (size st))).

Definition api_save (req : save_request) : M pending :=
  match query_filepath req with
  | None | Some EmptyString =>
      ret (Sent (json_error 400 "filepath query parameter is required"))
  | Some filepath =>
      if negb (isAbsolutePath filepath) then
        ret (Sent (json_error 400 "filepath must be an absolute path"))
      else
        let outputDir := Path.join [__dirname; "test"; "output"] in
        let outputPath := filepath in
        let hashDir :=
          match query_filehash req with
          | None | Some EmptyString => outputDir
          | Some filehash => Path.join [outputDir; filehash]
          end in
        let parentDir := Path.dirname outputPath in
        let* haveParent := existsSync parentDir in
        (if negb haveParent then mkdirSync_recursive parentDir else ret tt) ;;
        let filename := Path.basename filepath in
        (* req.body.slice(0, 20), for the log *)
        match parsed_body req with
        | None => throw (TypeError "req.body.slice is not a function")
        | Some body =>
            let isXLSX := isXLSXSignature body in
            if isXLSX then
              try_catch
                (writeFileSync outputPath body ;;
                 let* st := statSync outputPath in
                 ret (Sent (Response 200 [] (JsonSaved outputPath (size st)))))
                (fun error =>
                   ret (Sent (send_text 500 ("Save failed: " +:+ error_message error))))
            else
              let ext := toLowerCase (Path.extname filepath) in
              match getOutputFormatInfo ext with
              | None => ret (Sent (send_text 400 "Unsupported file format"))
              | Some formatInfo =>
                  let formatTo := code formatInfo in
                  let changesBinPath := Path.join [hashDir; "temp_changes.bin"] in
                  let paramsPath := Path.join [hashDir; "params_save.xml"] in
                  writeFileSync changesBinPath body ;;
                  let fontDir := FONT_DATA_DIR in
                  let* ts := timestamp in
                  let xmlConfig :=
                    save_xmlConfig changesBinPath outputPath filename ext formatTo
                      fontDir themeDir ts in
                  writeFileSync paramsPath (bytes_of xmlConfig) ;;
                  spawn x2tPath [paramsPath] ;;
                  ret (Waiting
                         (Child x2tPath [paramsPath] (Some (fun _ => ret tt))
                            (save_on_close paramsPath changesBinPath outputPath)))
              end
        end
  end.

(** **** The run of one request *)

(** The files the converter wrote, stamped with the clock; a write the
    filesystem refuses is dropped. *)
Definition apply_writes (t : Z) (ws : list (string * list Byte.byte))
    (m : gmap string node) : gmap string node :=
  fold_left
    (fun acc pd =>
       match write_node (fst pd) (snd pd) t acc with
       | inr acc' => acc'
       | inl _ => acc
       end)
    ws m.

Definition finish (r : result response * world) : served * world :=
  match r with
  | (Ok resp, w) => (Replied resp, w)
  | (Throw e, w) => (Uncaught e, w)
  end.

(** Node's dispatch of the child-process events.  A process that ran gets
    [close] with its exit code once its streams have ended.  A process
    that could not start gets [error] and then [close] with the negative
    errno; [error] without a listener is thrown instead, and [close] is
    then never delivered.

    Both handlers call [x2t.stdout.on] right after [spawn]: the convert
    handler before it registers anything else, the save handler after its
    [error] listener and before its [close] listener.  When the child has
    no streams that call throws a [TypeError], so the [close] listener is
    never registered: the exception leaves the handler, and the [error]
    event that follows finds the listener of the save handler, or, on the
    convert path, none (the request is then reported as the unhandled
    event). *)
Definition settle (x2t : converter) (c : child) (w : world) : served * world :=
  let run := x2t (command c) (args c) (files w) in
  match outcome run with
  | SpawnFailed e =>
      match error_listener c with
      | None => (UnhandledErrorEvent e, w)
      | Some on_error =>
          if has_stdio e then
            match on_error e w with
            | (Ok _, w') =>
                finish (close_listener c (Some (uv_code e)) EmptyString EmptyString w')
            | (Throw x, w') => (Uncaught x, w')
            end
          else
            (Uncaught (TypeError "Cannot read properties of undefined (reading 'on')"),
             snd (on_error e w))
      end
  | o =>
      let w' := set_files (apply_writes (now w) (writes run) (files w)) w in
      finish (close_listener c (close_code o) (stdout run) (stderr run) w')
  end.

Definition serve (x2t : converter) (handler : M pending) (w : world) : served * world :=
  match handler w with
  | (Throw e, w') => (Uncaught e, w')
  | (Ok (Sent r), w') => (Replied r, w')
  | (Ok (Waiting c), w') => settle x2t c w'
  end.

Definition convert (x2t : converter) (filepath : option string) (w : world)
  : served * world :=
  serve x2t (api_convert filepath) w.

Definition save (x2t : converter) (req : save_request) (w : world)
  : served * world :=
  serve x2t (api_save req) w.

End Handlers.

End Server.

(* ===================================================================== *)
(** ** Observations on runs *)
(* ===================================================================== *)

Module Obs.
Import Str Utils Fs Server.

Definition is_spawn (ev : event) : bool :=
  match ev with EvSpawn _ _ => true | _ => false end.

(** The converter was launched somewhere in the trace. *)
Definition spawned (t : list event) : bool := existsb is_spawn t.

Definition is_write_of (p : string) (ev : event) : bool :=
  match ev with EvWrite q => String.eqb p q | _ => false end.

(** The handler itself wrote the file [p]. *)
Definition wrote (p : string) (t : list event) : bool := existsb (is_write_of p) t.

(** Neither [d] nor one of its ancestors is a regular file, so that
    [mkdirSync_recursive d] goes through. *)
Definition creatable (m : gmap string node) (d : string) : bool :=
  negb (existsb (is_file m) (Path.ancestors d)).

(** The cache-validity rule: the artifact is a file whose modification
    time is strictly greater than that of the source. *)
Definition fresh (m : gmap string node) (artifact source : string) : bool :=
  match m !! artifact, m !! source with
  | Some (File tc _), Some n => Z.gtb tc (mtime (stat_of n))
  | _, _ => false
  end.

(** No artifact, or one that is not newer than the source. *)
Definition stale (m : gmap string node) (artifact source : string) : bool :=
  match m !! artifact, m !! source with
  | Some a, Some n => negb (Z.gtb (mtime (stat_of a)) (mtime (stat_of n)))
  | None, Some _ => true
  | _, None => false
  end.

Definition not_lt (c : ascii) : bool := negb (Ascii.eqb c "<"%char).

(** The string contains no opening angle bracket, so it cannot open an
    element of the descriptor. *)
Definition lt_free (s : string) : bool := forallb not_lt (chars s).

Definition is_lower_hex (c : ascii) : bool :=
  let n := nat_of_ascii c in
  ((48 <=? n)%nat && (n <=? 57)%nat) || ((97 <=? n)%nat && (n <=? 102)%nat).

Definition header (name : string) (r : response) : option string :=
  match find (fun kv => String.eqb (fst kv) name) (headers r) with
  | Some kv => Some (snd kv)
  | None => None
  end.

(** The status a listener or handler answered with, if it answered. *)
Definition status_of (r : result response) : option Z :=
  match r with Ok x => Some (status x) | Throw _ => None end.

(** The two client errors for a missing or relative [filepath]. *)
Definition InvalidPath (r : response) : Prop :=
  r = json_error 400 "filepath must be an absolute path" \/
  r = json_error 400 "filepath query parameter is required".

(** The paths of a save request. *)
Definition save_hashDir (dir : string) (filehash : option string) : string :=
  match filehash with
  | None | Some EmptyString => Path.join [dir; "test"; "output"]
  | Some h => Path.join [Path.join [dir; "test"; "output"]; h]
  end.

Definition save_changesBinPath (dir : string) (filehash : option string) : string :=
  Path.join [save_hashDir dir filehash; "temp_changes.bin"].

Definition save_paramsPath (dir : string) (filehash : option string) : string :=
  Path.join [save_hashDir dir filehash; "params_save.xml"].

(** The child process of the save path, with the two listeners the handler
    registers on it. *)
Definition save_child (dir : string) (hash : option string) (p : string) : child :=
  Child (x2tPath dir) [save_paramsPath dir hash]
    (Some (fun _ : spawn_errno => Fs.ret tt))
    (save_on_close (save_paramsPath dir hash) (save_changesBinPath dir hash) p).

(** The paths of a convert request. *)
Definition convert_outputPath (dir filepath : string) : string :=
  Path.join [convert_outputDir dir filepath; "Editor.bin"].

Definition convert_paramsPath (dir filepath : string) : string :=
  Path.join [convert_outputDir dir filepath; "params_temp.xml"].

(** The child process of the convert path: no [error] listener. *)
Definition convert_child (dir filepath : string) : child :=
  Child (x2tPath dir) [convert_paramsPath dir filepath] None
    (convert_on_close (convert_paramsPath dir filepath)
       (convert_outputPath dir filepath) (generateFileHash filepath)).

(** The convert handler from the creation of the working directory on:
    what it does once the cache has given nothing. *)
Definition convert_launch (dir fonts : string) (iso : Z -> string) (filepath : string)
  : M pending :=
  let outputDir := convert_outputDir dir filepath in
  let outputPath := convert_outputPath dir filepath in
  let paramsPath := convert_paramsPath dir filepath in
  Fs.bind (existsSync outputDir) (fun haveDir =>
  Fs.bind (if negb haveDir then mkdirSync_recursive outputDir else Fs.ret tt) (fun _ =>
  Fs.bind (timestamp iso) (fun ts =>
  Fs.bind (writeFileSync paramsPath
             (bytes_of (convert_xmlConfig filepath outputPath (Path.basename filepath)
                          fonts (themeDir dir) ts))) (fun _ =>
  Fs.bind (spawn (x2tPath dir) [paramsPath]) (fun _ =>
  Fs.ret (Waiting (convert_child dir filepath))))))).

(** The status of the response, when the request was answered. *)
Definition served_status (s : served) : option Z :=
  match s with
  | Replied r => Some (status r)
  | Uncaught _ | UnhandledErrorEvent _ => None
  end.


(** [clash n s]: [n] and [s] differ at a position both have, so that [n]
    is no prefix of any extension of [s]. *)
Fixpoint clash (n s : list ascii) : bool :=
  match n, s with
  | a :: n', b :: s' => negb (Ascii.eqb a b) || clash n' s'
  | _, _ => false
  end.

(** No suffix of [l] can be the start of an occurrence of [n]. *)
Fixpoint all_clash (n l : list ascii) : bool :=
  match l with
  | [] => true
  | _ :: l' => clash n l && all_clash n l'
  end.

Definition starts_with_lt (n : list ascii) : bool :=
  match n with
  | c :: _ => Ascii.eqb c "<"%char
  | [] => false
  end.

(** The opening tags of the two CSV fields, and the two elements with the
    values the descriptor gives them. *)
Definition csv_tags : list string := ["<m_nCsvTxtEncoding>"; "<m_nCsvDelimiter>"].

Definition csv_elements : list string :=
  ["<m_nCsvTxtEncoding>46</m_nCsvTxtEncoding>"; "<m_nCsvDelimiter>4</m_nCsvDelimiter>"].

End Obs.

(* ===================================================================== *)
(** ** What a request never undoes *)
(* ===================================================================== *)

Module Inv.
Import Fs Server.

(** Directories are never removed or replaced. *)
Definition dirs_kept (m m' : gmap string node) : Prop :=
  forall q, is_dir m q = true -> is_dir m' q = true.

(** Between two worlds of one request: directories are kept, the clock is
    the same, and the trace has only grown. *)
Definition extends (w w' : world) : Prop :=
  dirs_kept (files w) (files w') /\
  now w' = now w /\
  exists added, trace w' = trace w ++ added.

(** [keeps c Q]: from any world, [c] ends in a world that extends it, and
    a value it returns satisfies [Q]. *)
Definition keeps {A} (c : M A) (Q : A -> Prop) : Prop :=
  forall w, extends w (snd (c w)) /\ forall a, fst (c w) = Ok a -> Q a.

Definition any {A} (a : A) : Prop := True.

Definition listeners_keep (c : child) : Prop :=
  (forall code out err, keeps (close_listener c code out err) any) /\
  (forall f e, error_listener c = Some f -> keeps (f e) any).

Definition pending_keeps (p : pending) : Prop :=
  match p with Sent _ => True | Waiting c => listeners_keep c end.

End Inv.

(* ===================================================================== *)
(** ** Sample worlds *)
(* ===================================================================== *)

Module Sample.
Import Str Utils Fs Server Obs.

Definition dir : string := "/srv/app".
Definition fonts : string := "/srv/fonts".
Definition iso (t : Z) : string := "2026-01-01T00:00:00.000Z".

Definition source : string := "/data/a.csv".
Definition workdir : string := convert_outputDir dir source.

(** A fresh checkout: the server tree, one source file, no working
    directory yet. *)
Definition tree : gmap string node :=
  list_to_map
    [ ("/", Dir 0); ("/srv", Dir 0); ("/srv/app", Dir 0);
      ("/srv/app/test", Dir 0); ("/srv/app/test/output", Dir 0);
      ("/data", Dir 0); (source, File 10 [Byte.x61; Byte.x2c; Byte.x62]) ].

Definition w0 : world := World tree 100 [].

Definition artifact : list Byte.byte := [Byte.x58; Byte.x4c; Byte.x53; Byte.x59].

(** The same tree after one successful conversion at time 50. *)
Definition tree_cached : gmap string node :=
  <[convert_outputPath dir source := File 50 artifact]>
    (<[workdir := Dir 50]> tree).

Definition w_cached : world := World tree_cached 100 [].

(** A regular file stands where the working directory should be. *)
Definition tree_blocked : gmap string node := <[workdir := File 5 []]> tree.

Definition w_blocked : world := World tree_blocked 100 [].

(** A converter that writes the artifact and exits with code 0. *)
Definition x2t_ok : converter :=
  fun _ _ _ => ConvRun (Exited 0) "" "" [(convert_outputPath dir source, artifact)].

(** A converter that reports a failure. *)
Definition x2t_fail : converter :=
  fun _ _ _ => ConvRun (Exited 1) "" "cannot open input" [].

(** No converter binary: the spawn fails. *)
Definition x2t_missing : converter :=
  fun _ _ _ => ConvRun (SpawnFailed SpENOENT) "" "" [].

(** A converter that exits with code 0 and writes nothing. *)
Definition x2t_idle : converter :=
  fun _ _ _ => ConvRun (Exited 0) "" "" [].

(** A converter that fails, and whose complaint reads like the message
    the server has for a missing output. *)
Definition x2t_mimic : converter :=
  fun _ _ _ => ConvRun (Exited 1) "" "output file not created" [].

(** The content type the clients of the server declare for a save. *)
Definition octet : option string := Some "application/octet-stream".

(** No file descriptor left: the spawn fails before the child has its
    streams. *)
Definition x2t_exhausted : converter :=
  fun _ _ _ => ConvRun (SpawnFailed SpEMFILE) "" "" [].

Definition zip_payload : list Byte.byte :=
  [Byte.x50; Byte.x4b; Byte.x03; Byte.x04; Byte.x14].

Definition bin_payload : list Byte.byte :=
  [Byte.x58; Byte.x4c; Byte.x53; Byte.x59; Byte.x3b].

(** A fingerprint no conversion has created a working directory for. *)
Definition unknown_hash : string := "0123456789abcdef0123456789abcdef".

End Sample.

(* ===================================================================== *)
(** ** Normal forms of absolute paths, and what a computation touches *)
(* ===================================================================== *)

Module Norm.
Import Str Fs.

(** A path component as [path.normalize] leaves it: not empty, not [.] or
    [..], and without a separator. *)
Definition clean_seg (s : list ascii) : bool :=
  negb (Path.seg_is s "") && negb (Path.seg_is s ".") && negb (Path.seg_is s "..")
  && forallb Path.not_sep s.

Definition clean_name (s : string) : bool := clean_seg (chars s).

(** The absolute path with the given components; the root for none. *)
Definition render (segs : list (list ascii)) : string :=
  str (Path.slash :: join_with [Path.slash] segs).

(** The components [path.normalize] keeps of an absolute path. *)
Definition segments (p : string) : list (list ascii) :=
  rev (fold_left (Path.normalize_step false) (split_on Path.slash (chars p)) []).

Definition all_clean (segs : list (list ascii)) : Prop :=
  Forall (fun s => clean_seg s = true) segs.

(** The path ends with a separator. *)
Definition trailing (p : string) : bool :=
  match rev (chars p) with
  | c :: _ => Path.is_sep c
  | [] => false
  end.

(** The path starts with a separator. *)
Definition posix_absolute (p : string) : bool :=
  match chars p with
  | c :: _ => Path.is_sep c
  | [] => false
  end.


(** [s.startsWith(prefix)] and [s.endsWith(suffix)]. *)
Definition startsWith (s pre : string) : bool := is_prefix (chars pre) (chars s).
Definition endsWith (s suf : string) : bool :=
  is_prefix (rev (chars suf)) (rev (chars s)).

(** [p] is [d] itself or lies below it. *)
Definition inside (d p : string) : bool :=
  String.eqb p d || startsWith p (d +:+ "/").

(** [c] leaves every path outside [S] as it found it. *)
Definition only_touches {A} (S : string -> Prop) (c : M A) : Prop :=
  forall w q, ~ S q -> files (snd (c w)) !! q = files w !! q.

(** [c] changes no file and no directory. *)
Definition read_only {A} (c : M A) : Prop :=
  forall w, files (snd (c w)) = files w.

(** Every node's parent is a directory: the shape of a real tree. *)
Definition well_formed (m : gmap string node) : Prop :=
  forall p n, m !! p = Some n -> p <> "/" -> is_dir m (Path.dirname p) = true.

(** No modification time lies in the future of the clock. *)
Definition timely (w : world) : Prop :=
  forall p n, files w !! p = Some n -> (mtime (stat_of n) <= now w)%Z.






(** The tree after [if (!fs.existsSync(d)) fs.mkdirSync(d, { recursive: true })],
    when nothing blocks [d]. *)
Definition ensure_dir (t : Z) (d : string) (m : gmap string node) : gmap string node :=
  if exists_node m d then m else fold_right (mkdir_one t) m (Path.ancestors d).

End Norm.

(* ===================================================================== *)
(** ** Relations that every step of a request respects *)
(* ===================================================================== *)

Module Step.
Import Fs Server Norm.

(** Every node outside [W] that was there is still there, unchanged. *)
Definition survive (W : string -> Prop) (w w' : world) : Prop :=
  now w' = now w /\
  forall q n, ~ W q -> files w !! q = Some n -> files w' !! q = Some n.

(** The tree and the clock are what they were. *)
Definition unchanged (w w' : world) : Prop :=
  files w' = files w /\ now w' = now w.

(** The clock stands still and no node gets a time stamp from the future. *)
Definition stays_timely (w w' : world) : Prop :=
  now w' = now w /\ (timely w -> timely w').

(** Every directory of [w'] was a directory of [w], or is [d] or one of
    the ancestors of [d]. *)
Definition dirs_from (d : string) (w w' : world) : Prop :=
  forall q, is_dir (files w') q = true ->
    is_dir (files w) q = true \/ In q (Path.ancestors d).

(** [steps R c Q]: from any world [c] ends in a world related to it by
    [R], and a value it returns satisfies [Q]. *)
Definition steps (R : world -> world -> Prop) {A} (c : M A) (Q : A -> Prop) : Prop :=
  forall w, R w (snd (c w)) /\ forall a, fst (c w) = Ok a -> Q a.

Definition whatever {A} (a : A) : Prop := True.


Definition listeners_step (R : world -> world -> Prop) (c : child) : Prop :=
  (forall code out err, steps R (close_listener c code out err) whatever) /\
  (forall f e, error_listener c = Some f -> steps R (f e) whatever).

Definition pending_steps (R : world -> world -> Prop) (p : pending) : Prop :=
  match p with
  | Sent _ => True
  | Waiting c => listeners_step R c
  end.

End Step.
(* ===================================================================== *)
(** ** The other routes of the server *)
(* ===================================================================== *)

Module Routes.
Import Str Utils Fs Server Norm.
Local Open Scope fs_scope.

(** *** Replies *)

Inductive body : Type :=
| SendFile (path : string)                (* the file, streamed by res.sendFile *)
| ExpressNotFound                         (* the 404 answer of Express itself *)
| Bytes (data : list Byte.byte)           (* res.send(buffer) *)
| Plain (text : string)                   (* res.send(string) *)
| JsonNames (names : list string)         (* res.json(files) *)
| JsonUploaded (filename path : string)   (* res.json({ filename, path }) *)
| JsonFailure (message : string).         (* res.json({ error }) *)

Record reply : Type := Reply {
  rstatus : Z;
  rheaders : list (string * string);
  rbody : body
}.

Definition plain (st : Z) (s : string) : reply := Reply st [] (Plain s).

(** [table[key] || fallback] for an object literal whose keys are file
    extensions: the key looked up is empty or starts with a dot, so no
    inherited property can answer for it. *)
Definition lookup_or (table : list (string * string)) (key fallback : string) : string :=
  match find (fun kv => String.eqb (fst kv) key) table with
  | Some kv => snd kv
  | None => fallback
  end.

(** *** [res.sendFile] *)

(** The name of the file begins with a dot. *)
Definition dotfile (path : string) : bool :=
  match chars (Path.basename path) with
  | c :: _ => Ascii.eqb c Path.dot
  | [] => false
  end.

(** [res.sendFile(path)] with the headers the handler has set, for an
    absolute path in normal form and a GET request without conditional or
    range headers.  The [send] library behind it looks at the file
    itself: it ignores a file whose name begins with a dot (the default
    of its [dotfiles] option), which Express answers with 404; it hands
    a directory on with [next()], which ends in the same answer when
    nothing under [editors] has the path of the request; it answers 404
    when there is no file; and it streams a regular file with status 200.
    The checks [send] makes on the spelling of the path (a NUL
    character, a [..] between separators of either kind) are not
    modelled. *)
Definition sendFile (headers : list (string * string)) (path : string) : M reply :=
  if dotfile path then ret (Reply 404 [] ExpressNotFound)
  else
    try_catch
      (let* st := statSync path in
       if isFile st then ret (Reply 200 headers (SendFile path))
       else ret (Reply 404 [] ExpressNotFound))
      (fun _ => ret (Reply 404 [] ExpressNotFound)).

(** *** [fs.readdirSync] *)

Definition child_name (d : string) (kv : string * node) : option string :=
  if String.eqb (Path.dirname (fst kv)) d && negb (String.eqb (fst kv) d)
  then Some (Path.basename (fst kv))
  else None.

(** The names of the entries of the directory [d]. *)
Definition children (m : gmap string node) (d : string) : list string :=
  omap (child_name d) (map_to_list m).

(** [fs.readdirSync(d)]; the order of the names is that of the map, where
    the system call gives no order at all.  The call is recorded in the
    trace as a read of [d]. *)
Definition readdirSync (d : string) : M (list string) :=
  fun w =>
    match files w !! d with
    | Some (Dir _) => (Ok (children (files w) d), log (EvRead d) w)
    | Some (File _ _) => (Throw (FsError ENOTDIR "scandir" d), log (EvRead d) w)
    | None => (Throw (FsError ENOENT "scandir" d), log (EvRead d) w)
    end.

(** *** The injection of the desktop stub into HTML pages *)

Definition eq_ci (a b : ascii) : bool := Ascii.eqb (lower_char a) (lower_char b).

(** [h] starts with [n], ASCII letters compared without case: what the
    [i] flag of a regular expression does for a literal pattern. *)
Fixpoint is_prefix_ci (n h : list ascii) : bool :=
  match n, h with
  | [], _ => true
  | _ :: _, [] => false
  | a :: n', b :: h' => eq_ci a b && is_prefix_ci n' h'
  end.

(** The [index] of the first match of the literal pattern [n] in [h]. *)
Fixpoint find_ci (n h : list ascii) : option nat :=
  if is_prefix_ci n h then Some O
  else match h with
       | [] => None
       | _ :: h' => option_map S (find_ci n h')
       end.

Definition script_tag (src : string) : string :=
  "<script src=" +:+ dq +:+ src +:+ dq +:+ "></script>" +:+ nl +:+ "    ".

Definition stubScript : string :=
  script_tag "/fonts-info.js" +:+ script_tag "/desktop-stub-utils.js" +:+
  script_tag "/desktop-stub.js".

(** [html.slice(0, i) + piece + html.slice(i)]. *)
Definition insert_at (i : nat) (piece : string) (html : string) : string :=
  str (firstn i (chars html)) +:+ piece +:+ str (skipn i (chars html)).

(** The page with the stub scripts put before its first [<script] tag, or
    else before [</head>]; a page with neither is left alone. *)
Definition inject (html : string) : string :=
  match find_ci (chars "<script") (chars html) with
  | Some insertPosition => insert_at insertPosition stubScript html
  | None =>
      match find_ci (chars "</head>") (chars html) with
      | Some insertPosition => insert_at insertPosition ("  " +:+ stubScript) html
      | None => html
      end
  end.

(** *** [path.normalize(p).replace(/^(\.\.(\/|\\|$))+/, '')] *)

(** Drop the longest run of [../], [..\] and a final [..] at the start. *)
Fixpoint strip_parents (l : list ascii) : list ascii :=
  match l with
  | a :: b :: rest =>
      if Ascii.eqb a Path.dot && Ascii.eqb b Path.dot then
        match rest with
        | [] => []
        | c :: r =>
            if Path.is_sep c || Ascii.eqb c "\"%char then strip_parents r else l
        end
      else l
  | _ => l
  end.

Definition image_types : list (string * string) :=
  [ (".png", "image/png"); (".jpg", "image/jpeg"); (".jpeg", "image/jpeg");
    (".gif", "image/gif"); (".svg", "image/svg+xml"); (".bmp", "image/bmp");
    (".webp", "image/webp"); (".emf", "image/x-emf"); (".wmf", "image/x-wmf") ].

Definition converted_types : list (string * string) :=
  [ (".pdf", "application/pdf"); (".txt", "text/plain"); (".html", "text/html");
    (".xlsx", "application/vnd.openxmlformats-officedocument.spreadsheetml.sheet");
    (".docx", "application/vnd.openxmlformats-officedocument.wordprocessingml.document");
    (".pptx", "application/vnd.openxmlformats-officedocument.presentationml.presentation") ].

Section Handlers.

Variable __dirname : string.

(** The working directory of a fingerprint and its media directory. *)
Definition outputDir_of (filehash : string) : string :=
  Path.join [__dirname; "test"; "output"; filehash].

Definition mediaDir_of (filehash : string) : string :=
  Path.join [outputDir_of filehash; "media"].

(** **** POST /api/media/:filehash *)

(** [req.query.filename || `image_${Date.now()}.png`]. *)
Definition upload_name (query_filename : option string) : M string :=
  match query_filename with
  | None | Some EmptyString =>
      fun w => (Ok ("image_" +:+ decimal (now w) +:+ ".png"), w)
  | Some f => ret f
  end.

Definition media_upload (filehash : string) (query_filename : option string)
    (data : list Byte.byte) : M reply :=
  let* filename := upload_name query_filename in
  let outputDir := Path.join [__dirname; "test"; "output"; filehash] in
  let mediaDir := Path.join [outputDir; "media"] in
  let* haveOutput := existsSync outputDir in
  (if negb haveOutput then mkdirSync_recursive outputDir else ret tt) ;;
  let* haveMedia := existsSync mediaDir in
  (if negb haveMedia then mkdirSync_recursive mediaDir else ret tt) ;;
  let imagePath := Path.join [mediaDir; filename] in
  writeFileSync imagePath data ;;
  ret (Reply 200 []
         (JsonUploaded filename ("/api/media/" +:+ filehash +:+ "/" +:+ filename))).

(** **** GET /api/media/:filehash/:imagefile *)

Definition media_get (filehash imagefile : string) : M reply :=
  let outputDir := Path.join [__dirname; "test"; "output"; filehash] in
  let mediaDir := Path.join [outputDir; "media"] in
  let imagePath := Path.join [mediaDir; imagefile] in
  let* found := existsSync imagePath in
  if negb found then
    let* haveMedia := existsSync mediaDir in
    (if negb haveMedia then ret tt else readdirSync mediaDir ;; ret tt) ;;
    ret (plain 404 "Image not found")
  else
    let ext := toLowerCase (Path.extname imagefile) in
    let contentType := lookup_or image_types ext "application/octet-stream" in
    sendFile
      [ ("Content-Type", contentType);
        ("Access-Control-Allow-Origin", "*");
        ("Cache-Control", "public, max-age=31536000") ]
      imagePath.

(** **** GET /api/doc-base/:filehash/* *)

Definition doc_base (filehash : string) (param0 : option string) : M reply :=
  match param0 with
  | None | Some EmptyString => ret (plain 400 "Path is required")
  | Some relativePath =>
      let outputDir := Path.join [__dirname; "test"; "output"; filehash] in
      let normalizedPath :=
        str (strip_parents (chars (Path.normalize relativePath))) in
      let requestedPath := Path.join [outputDir; normalizedPath] in
      if negb (startsWith requestedPath outputDir) then
        ret (plain 403 "Forbidden")
      else
        let* found := existsSync requestedPath in
        if negb found then ret (plain 404 "File not found")
        else
          let* st := statSync requestedPath in
          if negb (isFile st) then ret (plain 404 "File not found")
          else sendFile [] requestedPath
  end.

(** **** GET /api/media-list/:filehash *)

Definition media_list (filehash : string) : M reply :=
  let outputDir := Path.join [__dirname; "test"; "output"; filehash] in
  let mediaDir := Path.join [outputDir; "media"] in
  let* haveMedia := existsSync mediaDir in
  if negb haveMedia then ret (Reply 200 [] (JsonNames []))
  else
    try_catch
      (let* names := readdirSync mediaDir in
       ret (Reply 200 [] (JsonNames names)))
      (fun _ => ret (Reply 500 [] (JsonFailure "Error reading media directory"))).

(** **** GET /converted/:filename *)

Definition converted (filename : string) : M reply :=
  let filePath := Path.join [__dirname; "converted"; filename] in
  let* found := existsSync filePath in
  if negb found then ret (plain 404 "File not found")
  else
    let ext := toLowerCase (Path.extname filename) in
    let contentType := lookup_or converted_types ext "application/octet-stream" in
    sendFile
      [ ("Content-Type", contentType); ("Access-Control-Allow-Origin", "*") ]
      filePath.

(** **** GET /raw/:filename and GET /file/:filename *)

Definition attachment (filename : string) : string :=
  "attachment; filename=" +:+ dq +:+ filename +:+ dq.

Definition send_test_file (contentType filename : string) : M reply :=
  let filePath := Path.join [__dirname; "test"; filename] in
  let* found := existsSync filePath in
  if negb found then ret (plain 404 "File not found")
  else
    let* fileData := readFileSync filePath in
    ret (Reply 200
           [ ("Content-Type", contentType);
             ("Content-Disposition", attachment filename) ]
           (Bytes fileData)).

Definition raw : string -> M reply := send_test_file "application/octet-stream".

Definition file : string -> M reply :=
  send_test_file "application/vnd.openxmlformats-officedocument.spreadsheetml.sheet".

(** **** The middleware that injects the desktop stub *)

(** [None] stands for [next()]: the request goes on to the static files.
    The page is taken to be valid UTF-8, so that decoding it changes
    nothing; a failed read hands the request on. *)
Definition inject_middleware (req_path : string) : M (option reply) :=
  if startsWith req_path "/static-test/" then ret None
  else if endsWith req_path ".html" || endsWith req_path ".desktop" then
    let filePath := Path.join [__dirname; "editors"; req_path] in
    let* found := existsSync filePath in
    if found then
      try_catch
        (let* data := readFileSync filePath in
         let html := string_of_list_byte data in
         ret (Some (Reply 200 [("Content-Type", "text/html")] (Plain (inject html)))))
        (fun _ => ret None)
    else ret None
  else ret None.

End Handlers.

End Routes.
(* ===================================================================== *)
(** ** The script that generates the font metadata *)
(* ===================================================================== *)

Module FontScript.
Import Str Utils Fs Server Norm.
Local Open Scope fs_scope.

(** How the script ends: it runs to its last line (exit code 0) or calls
    [fail], which prints the message and exits with code 1. *)
Inductive ending : Type :=
| Finished
| Failed (message : string).

(** The exit code of the process; an uncaught exception also gives 1. *)
Definition exit_code (r : result ending) : Z :=
  match r with
  | Ok Finished => 0
  | Ok (Failed _) => 1
  | Throw _ => 1
  end.

(** [result.status] of [spawnSync]: the exit code, or [null] when the
    process was ended by a signal or could not start. *)
Definition sync_status (o : child_outcome) : option Z :=
  match o with
  | Exited c => Some c
  | SpawnFailed _ | Killed _ => None
  end.

(** [spawnSync(cmd, argv)]: the tool runs to its end before the call
    returns; what it wrote is on disk afterwards. *)
Definition spawnSync (tool : converter) (cmd : string) (argv : list string)
  : M (option Z) :=
  fun w =>
    let run := tool cmd argv (files w) in
    match outcome run with
    | SpawnFailed _ => (Ok None, log (EvSpawn cmd argv) w)
    | o =>
        (Ok (sync_status o),
         set_files (apply_writes (now w) (writes run) (files w))
           (log (EvSpawn cmd argv) w))
    end.

(** [result.status || 1] for a status that is not 0. *)
Definition status_or_1 (s : option Z) : Z :=
  match s with
  | Some c => if Z.eqb c 0 then 1 else c
  | None => 1
  end.

Section Script.

(** The directory of the script, [process.platform] and the generator. *)
Variable __dirname : string.
Variable platform : string.
Variable allfontsgen : converter.

(** [path.resolve(__dirname, '..')] for an absolute [__dirname]. *)
Definition ROOT : string := render (segments (__dirname +:+ "/..")).

Definition CONVERTER_DIR : string := Path.join [ROOT; "converter"].

Definition allFontsJs (OUTPUT_DIR : string) : string :=
  Path.join [OUTPUT_DIR; "AllFonts.js"].

Definition fontSelectionBin (OUTPUT_DIR : string) : string :=
  Path.join [OUTPUT_DIR; "font_selection.bin"].

Definition checkExistingFonts (OUTPUT_DIR : string) : M bool :=
  let* haveFonts := existsSync (allFontsJs OUTPUT_DIR) in
  if haveFonts then existsSync (fontSelectionBin OUTPUT_DIR) else ret false.

(** [locateBinary]: the path of the generator, or the message of [fail]. *)
Definition locate (name missing hint : string) : M (string + string) :=
  let bin := Path.join [CONVERTER_DIR; name] in
  let* found := existsSync bin in
  if found then ret (inr bin)
  else ret (inl (missing +:+ " binary missing: " +:+ bin +:+ ". " +:+ hint)).

Definition locateBinary : M (string + string) :=
  if String.eqb platform "darwin" then
    locate "allfontsgen" "macOS" "Run scripts/build_allfontsgen.js first."
  else if String.eqb platform "win32" then
    locate "allfontsgen.exe" "Windows" "Build it and place it under converter/."
  else if String.eqb platform "linux" then
    locate "allfontsgen" "Linux" "Build it and place it under converter/."
  else ret (inl ("Unsupported platform: " +:+ platform)).

(** Where [locateBinary] looks on the current platform, if it looks at all. *)
Definition expected_binary : option string :=
  if String.eqb platform "darwin" then Some (Path.join [CONVERTER_DIR; "allfontsgen"])
  else if String.eqb platform "win32" then Some (Path.join [CONVERTER_DIR; "allfontsgen.exe"])
  else if String.eqb platform "linux" then Some (Path.join [CONVERTER_DIR; "allfontsgen"])
  else None.

Definition generator_args (OUTPUT_DIR INPUT_DIR : string) : list string :=
  [ "--use-system=true";
    "--input=" +:+ INPUT_DIR;
    "--allfonts=" +:+ Path.join [OUTPUT_DIR; "AllFonts.js"];
    "--selection=" +:+ Path.join [OUTPUT_DIR; "font_selection.bin"] ].

(** The script from [locateBinary] on: it runs when the metadata is not
    already there. *)
Definition regenerate (OUTPUT_DIR : string) : M ending :=
  let* located := locateBinary in
  match located with
  | inl message => ret (Failed message)
  | inr BIN =>
      let INPUT_DIR := Path.join [OUTPUT_DIR; "fonts"] in
      mkdirSync_recursive OUTPUT_DIR ;;
      mkdirSync_recursive INPUT_DIR ;;
      let* status := spawnSync allfontsgen BIN (generator_args OUTPUT_DIR INPUT_DIR) in
      if code_nonzero status then
        ret (Failed ("allfontsgen exited with code " +:+ decimal (status_or_1 status)))
      else
        let* haveFonts := existsSync (allFontsJs OUTPUT_DIR) in
        if negb haveFonts then
          ret (Failed "allfontsgen exited successfully but font metadata files were not created")
        else
          let* haveSelection := existsSync (fontSelectionBin OUTPUT_DIR) in
          if negb haveSelection then
            ret (Failed "allfontsgen exited successfully but font metadata files were not created")
          else ret Finished
  end.

(** The whole script, for a value of the environment variable
    [FONT_DATA_DIR]. *)
Definition generate (FONT_DATA_DIR : option string) : M ending :=
  match FONT_DATA_DIR with
  | None | Some EmptyString =>
      ret (Failed "FONT_DATA_DIR environment variable is required")
  | Some OUTPUT_DIR =>
      let* existing := checkExistingFonts OUTPUT_DIR in
      if existing then ret Finished else regenerate OUTPUT_DIR
  end.

End Script.

End FontScript.
(* ===================================================================== *)
(** ** More sample values *)
(* ===================================================================== *)

Module Sample2.
Import Str Utils Fs Server Obs Routes.

(** A fingerprint as a route parameter, an image and its name. *)
Definition hash : string := "0f343b0931126a20f133d67c2b018a3b".
Definition image_name : string := "photo.PNG".
Definition image : list Byte.byte := [Byte.x89; Byte.x50; Byte.x4e; Byte.x47].


(** The scripts directory, a font directory, and a tree that holds the
    generator but no font metadata. *)
Definition scripts : string := "/srv/app/scripts".
Definition fontdata : string := "/var/fontdata".

Definition tree_tools : gmap string node :=
  <["/srv/app/converter/allfontsgen" := File 5 [Byte.x7f]]>
    (<["/srv/app/converter" := Dir 5]> (<["/var" := Dir 0]> Sample.tree)).

Definition w_tools : world := World tree_tools 100 [].

(** A generator that writes both metadata files, and one that writes
    nothing; both exit with code 0. *)
Definition gen_ok : converter :=
  fun _ _ _ =>
    ConvRun (Exited 0) "" ""
      [ ("/var/fontdata/AllFonts.js", [Byte.x77]);
        ("/var/fontdata/font_selection.bin", []) ].

Definition gen_idle : converter := fun _ _ _ => ConvRun (Exited 0) "" "" [].

End Sample2.
(* ===================================================================== *)
(** ** The Document Server compatibility endpoint: POST /converter *)
(* ===================================================================== *)

Module DocServer.
Import Str Utils Fs Server Norm.
Local Open Scope fs_scope.

(** *** Requests and answers *)

(** The five fields the handler reads from the payload; a field is a JSON
    string or is absent. *)
Record payload : Type := Payload {
  filetype : option string;
  key : option string;
  outputtype : option string;
  title : option string;
  url : option string
}.

(** [req.body] when a body parser has filled it: its [token], a string
    when there is one, and its own five fields. *)
Record request_body : Type := RequestBody {
  token : option string;
  fields : payload
}.

(** What the [try] block can throw: an error of a built-in ([JSON.parse],
    [new URL], [decodeURIComponent]) with its message, the [TypeError] of
    reading [token] from an undefined body, or an [fs] error. *)
Inductive thrown : Type :=
| BuiltinError (message : string)
| BodyUndefined
| FsThrown (e : exn).

Inductive details : Type :=
| NoDetails
| Stderr (text : string)          (* details: stderr *)
| MessageOf (e : thrown).         (* details: error.message *)

Inductive answer_body : Type :=
| Failure (message : string) (d : details)   (* { error: -1, message, details } *)
| Converted (url fileType : string).         (* { url, fileType, error: 0 } *)

Record answer : Type := Answer {
  astatus : Z;
  abody : answer_body
}.

Definition failure (st : Z) (message : string) : answer :=
  Answer st (Failure message NoDetails).

(** The [catch] clause of the handler. *)
Definition internal_error (e : thrown) : answer :=
  Answer 500 (Failure "Internal server error" (MessageOf e)).

(** The answers that carry [error: -1]. *)
Definition refusal (r : answer) : Prop :=
  exists st m d, r = Answer st (Failure m d) /\ (st = 400 \/ st = 404 \/ st = 500)%Z.

(** How a step of the [try] block that touches no file ends: with a value,
    with a [return res...], or with a throw. *)
Inductive early (A : Type) : Type :=
| Go (a : A)
| Return (r : answer)
| Raise (e : thrown).
Arguments Go {A} a.
Arguments Return {A} r.
Arguments Raise {A} e.

(** The child the handler spawns: it registers a [close] listener and the
    two [data] listeners, and no [error] listener. *)
Record job : Type := Job {
  jcommand : string;
  jargs : list string;
  jclose : option Z -> string -> string -> M answer
}.

Inductive stage : Type :=
| Answered (r : answer)
| Launched (j : job).

Inductive ended : Type :=
| Responded (r : answer)
| Escaped (e : exn)                  (* an exception nothing caught *)
| ErrorEvent (e : spawn_errno).      (* [error] emitted without a listener *)

(** *** The file path inside a URL *)

(** The characters [.] does not match. *)
Definition line_end (c : ascii) : bool :=
  Ascii.eqb c (ascii_of_nat 10) || Ascii.eqb c (ascii_of_nat 13).

Definition files_prefix : list ascii := chars "/api/onlyoffice/files/".

(** The group of [/\/api\/onlyoffice\/files\/(.+)/] on a pathname: the
    longest run of characters that [.] matches after the leftmost
    occurrence of the prefix that is followed by one.  A pathname is
    ASCII, so the two Unicode line separators need no case. *)
Fixpoint files_capture (l : list ascii) : option (list ascii) :=
  match l with
  | [] => None
  | _ :: t =>
      if is_prefix files_prefix l then
        match take_while (fun c => negb (line_end c)) (skipn (length files_prefix) l) with
        | [] => files_capture t
        | cap => Some cap
        end
      else files_capture t
  end.

(** [parameter || fallback] and [!parameter] for a string field. *)
Definition present (o : option string) : option string :=
  match o with
  | Some (String _ _ as s) => Some s
  | _ => None
  end.

(** The [xmlConfig] template of [/converter]. *)
Definition converter_xmlConfig
    (key inputPath outputPath title : string) (formatToCode : Z)
    (themeDir timestamp : string) : string :=
  xml_head +:+
  "<m_sKey>converter_" +:+ key +:+ "</m_sKey>" +:+ nl +:+
  "<m_sFileFrom>" +:+ inputPath +:+ "</m_sFileFrom>" +:+ nl +:+
  "<m_sFileTo>" +:+ outputPath +:+ "</m_sFileTo>" +:+ nl +:+
  "<m_sTitle>" +:+ title +:+ "</m_sTitle>" +:+ nl +:+
  "<m_nFormatTo>" +:+ decimal formatToCode +:+ "</m_nFormatTo>" +:+ nl +:+
  nil_field "m_bPaid" +:+
  nil_field "m_bEmbeddedFonts" +:+
  "<m_bFromChanges>false</m_bFromChanges>" +:+ nl +:+
  nil_field "m_sFontDir" +:+
  "<m_sThemeDir>" +:+ themeDir +:+ "</m_sThemeDir>" +:+ nl +:+
  "<m_sJsonParams>{}</m_sJsonParams>" +:+ nl +:+
  nil_field "m_nLcid" +:+
  "<m_oTimestamp>" +:+ timestamp +:+ "</m_oTimestamp>" +:+ nl +:+
  nil_field "m_bIsNoBase64" +:+
  nil_field "m_sConvertToOrigin" +:+
  "<m_oInputLimits>" +:+ nl +:+
  "</m_oInputLimits>" +:+ nl +:+
  "<options>" +:+ nl +:+
  "<allowNetworkRequest>false</allowNetworkRequest>" +:+ nl +:+
  "<allowPrivateIP>true</allowPrivateIP>" +:+ nl +:+
  "</options>" +:+ nl +:+
  "</TaskQueueDataConvert>" +:+ nl.

Section Handler.

(** The directory of the server script, the rendering of the clock as an
    ISO date, the port, and the built-ins and the format table the handler
    calls: [getX2TFormatCode] of [server-utils.js]; the decoding of the
    middle segment of a token (the two replacements, base64, UTF-8,
    [JSON.parse] and the reading of the five fields); the [pathname] of
    [new URL]; and [decodeURIComponent].  A left value is the message of
    the error the built-in throws. *)
Variable __dirname : string.
Variable toISOString : Z -> string.
Variable PORT : Z.
Variable getX2TFormatCode : string -> option Z.
Variable payload_of_segment : string -> string + payload.
Variable URL_pathname : string -> string + string.
Variable decodeURIComponent : string -> string + string.

(** The payload: decoded from the token when the body has one, the body
    itself otherwise. *)
Definition read_payload (body : option request_body) : early payload :=
  match body with
  | None => Raise BodyUndefined
  | Some b =>
      match present (token b) with
      | Some tk =>
          let parts := split_on "."%char (chars tk) in
          if negb (Nat.eqb (length parts) 3) then
            Return (failure 400 "Invalid JWT token format")
          else
            match payload_of_segment (str (nth 1 parts [])) with
            | inl message => Raise (BuiltinError message)
            | inr p => Go p
            end
      | None => Go (fields b)
      end
  end.

(** The two checks of the required fields; what is left is the key, the
    output type and the URL. *)
Definition required (p : payload) : early (string * string * string) :=
  match present (filetype p), present (key p), present (outputtype p) with
  | Some _, Some k, Some o =>
      match present (url p) with
      | Some u => Go (k, o, u)
      | None => Return (failure 400 "Missing required field: url")
      end
  | _, _, _ =>
      Return (failure 400 "Missing required fields: filetype, key, outputtype")
  end.

(** [pieces.map(decodeURIComponent)]: the first piece that cannot be
    decoded throws. *)
Fixpoint decode_pieces (pieces : list (list ascii)) : string + list (list ascii) :=
  match pieces with
  | [] => inr []
  | p :: rest =>
      match decodeURIComponent (str p) with
      | inl message => inl message
      | inr d =>
          match decode_pieces rest with
          | inl message => inl message
          | inr ds => inr (chars d :: ds)
          end
      end
  end.

(** The input path: the [url] field itself, or the file path inside it
    when it is an [http] or [https] URL. *)
Definition locate (inputPath : string) : early string :=
  if startsWith inputPath "http://" || startsWith inputPath "https://" then
    match URL_pathname inputPath with
    | inl message => Raise (BuiltinError message)
    | inr pathname =>
        match files_capture (chars pathname) with
        | Some group =>
            match decode_pieces (split_on "/"%char group) with
            | inl message => Raise (BuiltinError message)
            | inr pieces => Go ("/" +:+ str (join_with ["/"%char] pieces))
            end
        | None =>
            Return (failure 400 ("Cannot extract file path from URL: " +:+ inputPath))
        end
    end
  else Go inputPath.

(** The [close] listener. *)
Definition converter_on_close (paramsPath outputPath outputFilename outputtype : string)
    (code : option Z) (out err : string) : M answer :=
  try_catch (unlinkSync paramsPath) (fun _ => ret tt) ;;
  if code_nonzero code then
    ret (Answer 500 (Failure "Conversion failed" (Stderr err)))
  else
    let* created := existsSync outputPath in
    if negb created then
      ret (failure 500 "Output file not created")
    else
      let resultUrl :=
        "http://localhost:" +:+ decimal PORT +:+ "/converted/" +:+ outputFilename in
      ret (Answer 200 (Converted resultUrl outputtype)).

(** [Date.now()]. *)
Definition date_now : M Z := fun w => (Ok (now w), w).

(** The part of the [try] block that works on the filesystem. *)
Definition launch (key outputtype inputPath : string) (title : option string)
  : M stage :=
  let* found := existsSync inputPath in
  if negb found then
    ret (Answered (failure 404 ("Input file not found: " +:+ inputPath)))
  else
    match getX2TFormatCode outputtype with
    | None | Some 0%Z =>
        ret (Answered (failure 400 ("Unsupported output format: " +:+ outputtype)))
    | Some formatToCode =>
        let outputDir := Path.join [__dirname; "converted"] in
        let* haveDir := existsSync outputDir in
        (if negb haveDir then mkdirSync_recursive outputDir else ret tt) ;;
        let* t := date_now in
        let fileHash := Md5.hexdigest (key +:+ decimal t) in
        let outputFilename := fileHash +:+ "." +:+ outputtype in
        let outputPath := Path.join [outputDir; outputFilename] in
        let paramsPath := Path.join [outputDir; "params_" +:+ fileHash +:+ ".xml"] in
        let shownTitle :=
          match present title with
          | Some s => s
          | None => Path.basename inputPath
          end in
        let* ts := timestamp toISOString in
        let xmlConfig :=
          converter_xmlConfig key inputPath outputPath shownTitle formatToCode
            (themeDir __dirname) ts in
        writeFileSync paramsPath (bytes_of xmlConfig) ;;
        let x2tPath := Path.join [__dirname; "converter"; "x2t"] in
        spawn x2tPath [paramsPath] ;;
        ret (Launched
               (Job x2tPath [paramsPath]
                  (converter_on_close paramsPath outputPath outputFilename outputtype)))
    end.

(** The synchronous part of the handler: the [try] block with its [catch]
    clause, which answers whatever the block throws. *)
Definition api_converter (body : option request_body) : M stage :=
  match read_payload body with
  | Raise e => ret (Answered (internal_error e))
  | Return r => ret (Answered r)
  | Go p =>
      match required p with
      | Raise e => ret (Answered (internal_error e))
      | Return r => ret (Answered r)
      | Go (k, o, u) =>
          match locate u with
          | Raise e => ret (Answered (internal_error e))
          | Return r => ret (Answered r)
          | Go inputPath =>
              try_catch (launch k o inputPath (title p))
                (fun e => ret (Answered (internal_error (FsThrown e))))
          end
      end
  end.

(** Node's dispatch of the child-process events for a child without
    [error] listener: a process that could not start makes the emitter
    throw, and [close] is never delivered; a process that ran gets [close]
    with its exit code once its streams have ended. *)
Definition settle (x2t : converter) (j : job) (w : world) : ended * world :=
  let run := x2t (jcommand j) (jargs j) (files w) in
  match outcome run with
  | SpawnFailed e => (ErrorEvent e, w)
  | o =>
      let w' := set_files (apply_writes (now w) (writes run) (files w)) w in
      match jclose j (close_code o) (stdout run) (stderr run) w' with
      | (Ok r, w2) => (Responded r, w2)
      | (Throw e, w2) => (Escaped e, w2)
      end
  end.

(** One request to [/converter]. *)
Definition converter_request (x2t : converter) (body : option request_body)
    (w : world) : ended * world :=
  match api_converter body w with
  | (Throw e, w') => (Escaped e, w')
  | (Ok (Answered r), w') => (Responded r, w')
  | (Ok (Launched j), w') => settle x2t j w'
  end.

(** The names of the two files of the request made at clock [t]. *)
Definition outputFilename_of (key outputtype : string) (t : Z) : string :=
  Md5.hexdigest (key +:+ decimal t) +:+ "." +:+ outputtype.

Definition paramsPath_of (key : string) (t : Z) : string :=
  Path.join [Path.join [__dirname; "converted"];
             "params_" +:+ Md5.hexdigest (key +:+ decimal t) +:+ ".xml"].

Definition outputPath_of (key outputtype : string) (t : Z) : string :=
  Path.join [Path.join [__dirname; "converted"]; outputFilename_of key outputtype t].

(** The child of the request made with this key and output type at clock
    [t]. *)
Definition converter_job (key outputtype : string) (t : Z) : job :=
  Job (Path.join [__dirname; "converter"; "x2t"]) [paramsPath_of key t]
    (converter_on_close (paramsPath_of key t) (outputPath_of key outputtype t)
       (outputFilename_of key outputtype t) outputtype).

End Handler.

End DocServer.

(* ===================================================================== *)
(** ** A sample request to the compatibility endpoint *)
(* ===================================================================== *)

Module Sample3.
Import Str Utils Fs Server DocServer.

Definition port : Z := 38123.

(** A format table that knows one output type, and built-ins for requests
    that carry neither a token nor a URL. *)
Definition formats (o : string) : option Z :=
  if String.eqb o "pdf" then Some 513%Z else None.
Definition no_token (s : string) : string + payload := inl "Unexpected end of JSON input".
Definition no_url (s : string) : string + string := inl "Invalid URL".
Definition plain_decode (s : string) : string + string := inr s.

Definition request : request_body :=
  RequestBody None
    (Payload (Some "csv") (Some "k1") (Some "pdf") None (Some Sample.source)).

(** The output file of that request at clock 100, and a converter that
    writes it. *)
Definition produced : string := outputPath_of Sample.dir "k1" "pdf" 100.

Definition x2t_pdf : converter :=
  fun _ _ _ =>
    ConvRun (Exited 0) "" "" [(produced, [Byte.x25; Byte.x50; Byte.x44; Byte.x46])].

End Sample3.
(* ===================================================================== *)
(** ** Checks of the model on concrete values *)
(* ===================================================================== *)

Example md5_empty : Md5.hexdigest "" = "d41d8cd98f00b204e9800998ecf8427e".
Proof. vm_compute. reflexivity. Qed.
Example md5_abc : Md5.hexdigest "abc" = "900150983cd24fb0d6963f7d28e17f72".
Proof. vm_compute. reflexivity. Qed.
Example md5_path : Md5.hexdigest "/path/to/file.xlsx" = "447ceba636059a0f4485d30d7a83ecf7".
Proof. vm_compute. reflexivity. Qed.
Example md5_two_blocks :
  Md5.hexdigest "/Users/someone/Documents/a rather long directory name/quarterly-report-final-v2.xlsx"
  = "8ac93a8640fc909855bacb84c000e3a2".
Proof. vm_compute. reflexivity. Qed.
Example basename_ex1 : Path.basename "/tmp/out/report.CSV" = "report.CSV".
Proof. reflexivity. Qed.
Example basename_ex2 : Path.basename "/tmp/out//" = "out".
Proof. reflexivity. Qed.
Example basename_ex3 : Path.basename "/" = "".
Proof. reflexivity. Qed.
Example dirname_ex1 : Path.dirname "/tmp/out/report.csv" = "/tmp/out".
Proof. reflexivity. Qed.
Example dirname_ex2 : Path.dirname "/report.csv" = "/".
Proof. reflexivity. Qed.
Example dirname_ex3 : Path.dirname "report.csv" = ".".
Proof. reflexivity. Qed.
Example dirname_ex4 : Path.dirname "//a" = "//".
Proof. reflexivity. Qed.
Example dirname_ex5 : Path.dirname "/a//b" = "/a/".
Proof. reflexivity. Qed.
Example extname_ex1 : Path.extname "index.coffee.md" = ".md".
Proof. reflexivity. Qed.
Example extname_ex2 : Path.extname "index." = ".".
Proof. reflexivity. Qed.
Example extname_ex3 : Path.extname "index" = "".
Proof. reflexivity. Qed.
Example extname_ex4 : Path.extname ".index" = "".
Proof. reflexivity. Qed.
Example extname_ex5 : Path.extname ".index.md" = ".md".
Proof. reflexivity. Qed.
Example extname_ex6 : Path.extname "/a.b/.." = "".
Proof. reflexivity. Qed.
Example extname_ex7 : Path.extname "/a.b/c/" = "".
Proof. reflexivity. Qed.
Example join_ex1 : Path.join ["/srv/app"; "test"; "output"; "abc"] = "/srv/app/test/output/abc".
Proof. reflexivity. Qed.
Example join_ex2 : Path.join ["/srv/app/test/output"; "../../x"] = "/srv/app/x".
Proof. reflexivity. Qed.
Example join_ex3 : Path.join ["/foo"; "bar"; "baz/asdf"; "quux"; ".."] = "/foo/bar/baz/asdf".
Proof. reflexivity. Qed.
Example join_ex4 : Path.join ["a"; "../../b/"] = "../b/".
Proof. reflexivity. Qed.
Example ancestors_ex : Path.ancestors "/tmp/out/x" = ["/tmp/out/x"; "/tmp/out"; "/tmp"; "/"].
Proof. reflexivity. Qed.

Example toLowerCase_ex : Str.toLowerCase ".XLSX" = ".xlsx".
Proof. reflexivity. Qed.
Example registry_ex1 : Utils.getOutputFormatInfo ".ODS" = Some (Utils.FormatInfo 257 "XLSX").
Proof. reflexivity. Qed.
Example registry_ex2 : Utils.getOutputFormatInfo ".pdf" = None.
Proof. reflexivity. Qed.
Example absolute_ex1 : Utils.isAbsolutePath "C:\Users\test\file.xlsx" = true.
Proof. reflexivity. Qed.
Example absolute_ex2 : Utils.isAbsolutePath "./file.xlsx" = false.
Proof. reflexivity. Qed.
Example signature_ex1 : Utils.isXLSXSignature [Byte.x50; Byte.x4b; Byte.x03; Byte.x04] = true.
Proof. reflexivity. Qed.
Example signature_ex2 : Utils.isXLSXSignature [Byte.x50] = false.
Proof. reflexivity. Qed.
Example fingerprints_differ :
  Utils.generateFileHash "/path/to/file1.xlsx" <> Utils.generateFileHash "/path/to/file2.xlsx".
Proof. vm_compute. discriminate. Qed.

(* ===================================================================== *)
(** ** Running the monad step by step *)
(* ===================================================================== *)

Section Exec.
Import Fs Server.
Context {A B : Type}.
Implicit Types (k : A -> M B) (w : world).

Lemma bind_ret (a : A) k w : bind (ret a) k w = k a w.
Proof. reflexivity. Qed.

Lemma bind_assoc {C} (m : M C) (f : C -> M A) k w :
  bind (bind m f) k w = bind m (fun x => bind (f x) k) w.
Proof. unfold bind. destruct (m w) as [[c|e] w1]; reflexivity. Qed.

End Exec.

Section ExecPrims.
Import Fs Server.
Context {B : Type}.

Lemma bind_existsSync p (k : bool -> M B) w :
  bind (existsSync p) k w = k (exists_node (files w) p) (log (EvExists p) w).
Proof. reflexivity. Qed.

Lemma bind_statSync p n (k : stats -> M B) w :
  files w !! p = Some n ->
  bind (statSync p) k w = k (stat_of n) (log (EvStat p) w).
Proof. intros H. unfold bind, statSync. rewrite H. reflexivity. Qed.

Lemma bind_readFileSync p t d (k : list Byte.byte -> M B) w :
  files w !! p = Some (File t d) ->
  bind (readFileSync p) k w = k d (log (EvRead p) w).
Proof. intros H. unfold bind, readFileSync. rewrite H. reflexivity. Qed.

Lemma bind_spawn c a (k : unit -> M B) w :
  bind (spawn c a) k w = k tt (log (EvSpawn c a) w).
Proof. reflexivity. Qed.

Lemma bind_timestamp iso (k : string -> M B) w :
  bind (timestamp iso) k w = k (iso (now w)) w.
Proof. reflexivity. Qed.

Lemma bind_writeFileSync_ok p d m' (k : unit -> M B) w :
  write_node p d (now w) (files w) = inr m' ->
  bind (writeFileSync p d) k w = k tt (set_files m' (log (EvWrite p) w)).
Proof. intros H. unfold bind, writeFileSync. rewrite H. reflexivity. Qed.

Lemma bind_writeFileSync_err p d e (k : unit -> M B) w :
  write_node p d (now w) (files w) = inl e ->
  bind (writeFileSync p d) k w = (Throw (FsError e "open" p), log (EvWrite p) w).
Proof. intros H. unfold bind, writeFileSync. rewrite H. reflexivity. Qed.

End ExecPrims.

Section ExecFacts.
Import Utils Fs Server Obs.

Lemma exists_node_some (m : gmap string node) p n :
  m !! p = Some n -> exists_node m p = true.
Proof. unfold exists_node. intros ->. reflexivity. Qed.

Lemma exists_node_none (m : gmap string node) p :
  m !! p = None -> exists_node m p = false.
Proof. unfold exists_node. intros ->. reflexivity. Qed.

Lemma files_log ev w : files (log ev w) = files w.
Proof. reflexivity. Qed.

Lemma write_node_ok_lookup p d t (m m' : gmap string node) :
  write_node p d t m = inr m' -> m' !! p = Some (File t d).
Proof.
  unfold write_node. intros H.
  destruct (m !! p) as [[?|?]|]; try discriminate;
    destruct (m !! Path.dirname p) as [[?|?]|]; try discriminate;
    injection H as <-; apply lookup_insert_eq.
Qed.


Lemma is_file_write p d t (m m' : gmap string node) q :
  write_node p d t m = inr m' -> is_file m q = true -> is_file m' q = true.
Proof.
  unfold write_node. intros H Hq.
  assert (Hins : is_file (<[p := File t d]> m) q = true).
  { unfold is_file in *. destruct (decide (p = q)) as [->|Hne].
    - rewrite lookup_insert_eq. reflexivity.
    - rewrite lookup_insert_ne by exact Hne. exact Hq. }
  destruct (m !! p) as [[?|?]|]; try discriminate;
    destruct (m !! Path.dirname p) as [[?|?]|]; try discriminate;
    injection H as <-; exact Hins.
Qed.

Lemma is_file_apply_writes t ws (m : gmap string node) q :
  is_file m q = true -> is_file (apply_writes t ws m) q = true.
Proof.
  unfold apply_writes. revert m.
  induction ws as [|[p d] ws IH]; intros m H; cbn [fold_left fst snd].
  - exact H.
  - destruct (write_node p d t m) as [e|m'] eqn:E; apply IH; [exact H|].
    eapply is_file_write; eassumption.
Qed.

Lemma absolute_nonempty p :
  isAbsolutePath p = true -> exists a p', p = String a p'.
Proof. destruct p; [discriminate|eauto]. Qed.

Lemma pair_projections {X Y} (a : X) (b : Y) (x : X * Y) :
  (a, b) = x -> a = fst x /\ b = snd x.
Proof. intros <-. split; reflexivity. Qed.

Lemma serve_waiting (x2t : converter) (h : M pending) w c w1 :
  h w = (Ok (Waiting c), w1) -> serve x2t h w = settle x2t c w1.
Proof. unfold serve. intros ->. reflexivity. Qed.

Lemma serve_sent (x2t : converter) (h : M pending) w r w1 :
  h w = (Ok (Sent r), w1) -> serve x2t h w = (Replied r, w1).
Proof. unfold serve. intros ->. reflexivity. Qed.

Lemma serve_throw (x2t : converter) (h : M pending) w e w1 :
  h w = (Throw e, w1) -> serve x2t h w = (Uncaught e, w1).
Proof. unfold serve. intros ->. reflexivity. Qed.

Lemma finish_fst (x : result response * world) :
  fst (finish x) = match fst x with Ok r => Replied r | Throw e => Uncaught e end.
Proof. destruct x as [[r|e] w]; reflexivity. Qed.

Lemma finish_snd (x : result response * world) : snd (finish x) = snd x.
Proof. destruct x as [[r|e] w]; reflexivity. Qed.

Lemma spawned_app a b : spawned (a ++ b) = spawned a || spawned b.
Proof. apply existsb_app. Qed.

Lemma wrote_app p a b : wrote p (a ++ b) = wrote p a || wrote p b.
Proof. apply existsb_app. Qed.

Lemma wrote_here p : is_write_of p (EvWrite p) = true.
Proof. apply String.eqb_refl. Qed.

Lemma spawned_prepare d (b : bool) :
  spawned (EvExists d :: (if b then [] else [EvMkdir d])) = false.
Proof. destruct b; reflexivity. Qed.

End ExecFacts.

Ltac norm_world :=
  unfold Fs.log, Fs.set_files; cbn [Fs.files Fs.now Fs.trace];
  rewrite <- ?app_assoc; cbn [app].

Ltac run_listener :=
  unfold Server.convert_on_close, Server.save_on_close, Fs.try_catch, Fs.bind,
    Fs.unlinkSync, Fs.existsSync, Fs.readFileSync, Fs.statSync, Fs.ret; simpl;
  unfold Fs.exists_node, Fs.is_file; simpl;
  repeat match goal with
    | |- context [match ?m !! ?q with _ => _ end] =>
        destruct (m !! q) as [[?|?]|] eqn:?; simpl
    end.

(* ===================================================================== *)
(** ** Save with a relative path *)
(* ===================================================================== *)

Section SaveInvalidPath.
Import Str Utils Fs Server Obs.

Variables (dir fonts : string) (iso : Z -> string) (x2t : converter).

(** C5. A save request whose [filepath] is missing, empty or not an
    absolute path is answered with the InvalidPath client error (status
    400 and a JSON error object), and the world it leaves is the world it
    found: no filesystem call was made, nothing was spawned, no file
    changed. *)
Theorem save_relative_path_is_rejected_untouched :
  forall (req : save_request) (w : world),
    (forall p, query_filepath req = Some p -> isAbsolutePath p = false) ->
    exists r,
      save dir fonts iso x2t req w = (Replied r, w) /\
      InvalidPath r /\
      status r = 400%Z /\
      (forall p, query_filepath req = Some p -> p <> EmptyString ->
                 r = json_error 400 "filepath must be an absolute path").
Proof.
  intros [fp fh ct body] w Hrel. simpl in Hrel.
  unfold save, serve, api_save. simpl.
  destruct fp as [[|c p]|].
  - eexists; split; [reflexivity|].
    split; [right; reflexivity|]. split; [reflexivity|].
    intros q Hq Hne. congruence.
  - rewrite (Hrel (String c p) eq_refl). simpl.
    eexists; split; [reflexivity|].
    split; [left; reflexivity|]. split; reflexivity.
  - eexists; split; [reflexivity|].
    split; [right; reflexivity|]. split; [reflexivity|].
    intros q Hq. discriminate.
Qed.

End SaveInvalidPath.

Lemma save_relative_path_witness :
  exists r,
    Server.save Sample.dir Sample.fonts Sample.iso Sample.x2t_ok
      (Server.SaveRequest (Some "reports/q3.xlsx") None None Sample.zip_payload)
      Sample.w0 = (Server.Replied r, Sample.w0) /\
    Obs.InvalidPath r /\
    Server.status r = 400%Z /\
    (forall p, Some "reports/q3.xlsx" = Some p -> p <> EmptyString ->
               r = Server.json_error 400 "filepath must be an absolute path").
Proof.
  apply (save_relative_path_is_rejected_untouched
           Sample.dir Sample.fonts Sample.iso Sample.x2t_ok
           (Server.SaveRequest (Some "reports/q3.xlsx") None None Sample.zip_payload)
           Sample.w0).
  simpl. intros p Hp. injection Hp as <-. reflexivity.
Defined.

(* ===================================================================== *)
(** ** How a converter run is judged *)
(* ===================================================================== *)

Section ExitCode.
Import Str Utils Fs Server Obs.

Ltac close_cases :=
  repeat split; intros; try discriminate; try reflexivity; try tauto;
  try (match goal with H : _ /\ _ |- _ => destruct H; discriminate end).

Lemma convert_close_cases paramsPath outputPath fileHash code out err w :
  let '(res, w') := convert_on_close paramsPath outputPath fileHash code out err w in
  (code_nonzero code = true ->
     res = Ok (send_text 500 ("Conversion failed: " +:+ err))) /\
  (code_nonzero code = false -> exists_node (files w') outputPath = false ->
     res = Ok (send_text 500 "Conversion failed: output file not created")) /\
  (status_of res = Some 200%Z <->
     code_nonzero code = false /\ is_file (files w') outputPath = true).
Proof.
  destruct (code_nonzero code) eqn:Hc; run_listener; rewrite ?Hc; simpl;
    run_listener; close_cases.
Qed.

Lemma save_close_cases paramsPath changesBinPath outputPath code out err w :
  let '(res, w') := save_on_close paramsPath changesBinPath outputPath code out err w in
  (code_nonzero code = true ->
     res = Ok (send_text 500 "Save failed: conversion error")) /\
  (code_nonzero code = false -> exists_node (files w') outputPath = false ->
     res = Ok (send_text 500 "Save failed: no output file")) /\
  (status_of res = Some 200%Z <->
     code_nonzero code = false /\ exists_node (files w') outputPath = true).
Proof.
  destruct (code_nonzero code) eqn:Hc; run_listener; rewrite ?Hc; simpl;
    run_listener; close_cases.
Qed.

Lemma convert_close_ignores_streams paramsPath outputPath fileHash code w
    out1 err1 out2 err2 :
  snd (convert_on_close paramsPath outputPath fileHash code out1 err1 w)
  = snd (convert_on_close paramsPath outputPath fileHash code out2 err2 w) /\
  status_of (fst (convert_on_close paramsPath outputPath fileHash code out1 err1 w))
  = status_of (fst (convert_on_close paramsPath outputPath fileHash code out2 err2 w)).
Proof.
  destruct (code_nonzero code) eqn:Hc; run_listener; rewrite ?Hc; simpl;
    run_listener; split; reflexivity.
Qed.

Lemma convert_close_success paramsPath outputPath fileHash code out err w :
  code_nonzero code = false ->
  forall t d,
    files (snd (convert_on_close paramsPath outputPath fileHash code out err w)) !! outputPath
      = Some (File t d) ->
    fst (convert_on_close paramsPath outputPath fileHash code out err w)
      = Ok (Response 200 (editor_bin_headers fileHash "MISS") (Binary d)).
Proof.
  intros Hc t d. run_listener; rewrite ?Hc; simpl; run_listener;
    intros; congruence.
Qed.

Lemma convert_close_not_hit paramsPath outputPath fileHash code out err w resp :
  fst (convert_on_close paramsPath outputPath fileHash code out err w) = Ok resp ->
  header "X-Cache" resp <> Some "HIT".
Proof.
  destruct (code_nonzero code) eqn:Hc; run_listener; rewrite ?Hc; simpl; run_listener;
    intros H; inversion H; subst; discriminate.
Qed.

Lemma convert_close_ok_header paramsPath outputPath fileHash code out err w resp :
  fst (convert_on_close paramsPath outputPath fileHash code out err w) = Ok resp ->
  status resp = 200%Z ->
  header "X-File-Hash" resp = Some fileHash.
Proof.
  destruct (code_nonzero code) eqn:Hc; run_listener; rewrite ?Hc; simpl; run_listener;
    intros H; inversion H; subst; simpl; intros; try discriminate; reflexivity.
Qed.

End ExitCode.
(* ===================================================================== *)
(** ** The conversion cache *)
(* ===================================================================== *)

Section Cache.
Import Str Utils Fs Server Obs.

Variables (dir fonts : string) (iso : Z -> string).

Ltac fold_paths a p' :=
  set (fp := String a p') in *;
  set (h := generateFileHash fp) in *;
  set (od := Path.join [dir; "test"; "output"; h]) in *;
  set (out := Path.join [od; "Editor.bin"]) in *;
  set (params := Path.join [od; "params_temp.xml"]) in *.

(** What the synchronous part of a convert request does on a hit. *)
Lemma api_convert_hit p w :
  isAbsolutePath p = true ->
  fresh (files w) (convert_outputPath dir p) p = true ->
  exists t d,
    files w !! convert_outputPath dir p = Some (File t d) /\
    api_convert dir fonts iso (Some p) w =
      (Ok (Sent (Response 200 (editor_bin_headers (generateFileHash p) "HIT") (Binary d))),
       World (files w) (now w)
         (trace w ++ [EvExists p; EvStat p; EvExists (convert_outputPath dir p);
                      EvStat (convert_outputPath dir p); EvRead (convert_outputPath dir p)])).
Proof.
  intros Habs Hfresh. 
  destruct (absolute_nonempty p Habs) as (a & p' & ->).
  unfold fresh in Hfresh. unfold convert_outputPath, convert_outputDir in *.
  cbv beta iota zeta delta [api_convert].
  fold_paths a p'.
  rewrite Habs.
  destruct (files w !! out) as [[t d|t]|] eqn:Hout; try discriminate.
  destruct (files w !! fp) as [n|] eqn:Hsrc; try discriminate.
  exists t, d. split; [reflexivity|].
  cbv beta iota delta [negb].
  rewrite bind_existsSync, (exists_node_some _ _ _ Hsrc). cbv beta iota delta [negb].
  rewrite (bind_statSync _ n) by (rewrite files_log; exact Hsrc).
  rewrite bind_existsSync. rewrite !files_log, (exists_node_some _ _ _ Hout).
  cbv beta iota.
  rewrite bind_assoc. rewrite (bind_statSync _ (File t d)) by (rewrite !files_log; exact Hout).
  cbn [stat_of mtime] in *. rewrite Hfresh.
  rewrite bind_assoc. rewrite (bind_readFileSync _ t d) by (rewrite !files_log; exact Hout).
  rewrite !bind_ret. unfold ret. norm_world. reflexivity.
Qed.

(** What the synchronous part of a convert request does on a miss. *)
Lemma api_convert_stale p w :
  isAbsolutePath p = true ->
  stale (files w) (convert_outputPath dir p) p = true ->
  exists res w1,
    api_convert dir fonts iso (Some p) w = (res, w1) /\
    exists seen,
      spawned seen = false /\
      ((exists e, res = Throw e /\ trace w1 = trace w ++ seen) \/
       (res = Ok (Waiting (convert_child dir p)) /\
        trace w1 = trace w ++ seen ++ [EvSpawn (x2tPath dir) [convert_paramsPath dir p]] /\
        is_file (files w1) (convert_paramsPath dir p) = true)).
Proof.
  intros Habs Hstale. 
  destruct (absolute_nonempty p Habs) as (a & p' & ->).
  unfold stale in Hstale.
  unfold convert_child, convert_paramsPath, convert_outputPath, convert_outputDir in *.
  cbv beta iota zeta delta [api_convert].
  fold_paths a p'.
  rewrite Habs.
  destruct (files w !! fp) as [n|] eqn:Hsrc; [|destruct (files w !! out); discriminate].
  cbv beta iota delta [negb].
  rewrite bind_existsSync, (exists_node_some _ _ _ Hsrc). cbv beta iota delta [negb].
  rewrite (bind_statSync _ n) by (rewrite files_log; exact Hsrc).
  rewrite bind_existsSync. rewrite !files_log.
  set (w2 := log (EvExists out) (log (EvStat fp) (log (EvExists fp) w))).
  (* the cache check falls through *)
  assert (Hmiss : exists w3 seen3,
             spawned seen3 = false /\ files w3 = files w /\ now w3 = now w /\
             trace w3 = trace w ++ seen3 /\
             forall B (k : option response -> M B),
               bind (if exists_node (files w) out
                     then (let* cacheStat := statSync out in
                           if Z.gtb (mtime cacheStat) (mtime (stat_of n))
                           then (let* binaryData := readFileSync out in
                                 ret (Some (Response 200 (editor_bin_headers h "HIT")
                                              (Binary binaryData))))
                           else ret None)%fs
                     else ret None) k w2 = k None w3).
  { destruct (files w !! out) as [art|] eqn:Hout.
    - exists (log (EvStat out) w2), [EvExists fp; EvStat fp; EvExists out; EvStat out].
      repeat split; try reflexivity.
      + subst w2. norm_world. reflexivity.
      + intros B k. rewrite (exists_node_some _ _ _ Hout).
        rewrite bind_assoc, (bind_statSync _ art) by exact Hout.
        apply negb_true_iff in Hstale. rewrite Hstale. reflexivity.
    - exists w2, [EvExists fp; EvStat fp; EvExists out].
      repeat split; try reflexivity.
      + subst w2. norm_world. reflexivity.
      + intros B k. rewrite (exists_node_none _ _ Hout). reflexivity. }
  destruct Hmiss as (w3 & seen3 & Hs3 & Hf3 & Hn3 & Ht3 & Hk). rewrite Hk. clear Hk.
  rewrite bind_existsSync.
  match goal with |- context [bind ?m _ (log (EvExists od) w3)] => set (prep := m) end.
  destruct (prep (log (EvExists od) w3)) as [[[]|e] w4] eqn:Hprep.
  - (* the working directory is there *)
    assert (Ht4 : exists seen4, spawned seen4 = false /\ trace w4 = trace w ++ seen4).
    { subst prep. destruct (exists_node (files w3) od); cbv beta iota in Hprep.
      - injection Hprep as <-. exists (seen3 ++ [EvExists od]). split.
        + unfold spawned in *. rewrite existsb_app, Hs3. reflexivity.
        + norm_world. rewrite Ht3, <- app_assoc. reflexivity.
      - unfold mkdirSync_recursive in Hprep.
        destruct (is_file _ _); [discriminate|]. destruct (existsb _ _); [discriminate|].
        injection Hprep as <-. exists (seen3 ++ [EvExists od; EvMkdir od]). split.
        + unfold spawned in *. rewrite existsb_app, Hs3. reflexivity.
        + norm_world. rewrite Ht3, <- app_assoc. reflexivity. }
    destruct Ht4 as (seen4 & Hs4 & Ht4).
    unfold bind at 1. rewrite Hprep.
    rewrite bind_timestamp.
    match goal with |- context [writeFileSync params ?d] => set (xml := d) end.
    destruct (write_node params xml (now w4) (files w4)) as [e|m'] eqn:Hw.
    + rewrite (bind_writeFileSync_err _ _ e) by exact Hw.
      eexists _, _. split; [reflexivity|].
      exists (seen4 ++ [EvWrite params]). split.
      * unfold spawned in *. rewrite existsb_app, Hs4. reflexivity.
      * left. eexists. split; [reflexivity|]. norm_world. rewrite Ht4, <- app_assoc. reflexivity.
    + rewrite (bind_writeFileSync_ok _ _ m') by exact Hw.
      rewrite bind_spawn. unfold ret.
      eexists _, _. split; [reflexivity|].
      exists (seen4 ++ [EvWrite params]). split.
      * unfold spawned in *. rewrite existsb_app, Hs4. reflexivity.
      * right. split; [reflexivity|].
        split; [norm_world; rewrite Ht4, <- !app_assoc; reflexivity|].
        unfold is_file. cbn [files log set_files].
        rewrite (write_node_ok_lookup _ _ _ _ _ Hw). reflexivity.
  - (* creating it failed *)
    unfold bind at 1. rewrite Hprep.
    eexists _, _. split; [reflexivity|].
    subst prep. destruct (exists_node (files w3) od); cbv beta iota in Hprep; [discriminate|].
    unfold mkdirSync_recursive in Hprep.
    exists (seen3 ++ [EvExists od; EvMkdir od]). split.
    + unfold spawned in *. rewrite existsb_app, Hs3. reflexivity.
    + left. exists e. split; [reflexivity|].
      destruct (is_file _ _); [|destruct (existsb _ _)]; try discriminate;
        injection Hprep as _ <-; norm_world; rewrite Ht3, <- app_assoc; reflexivity.
Qed.

(** A directory in the artifact's place that looks newer than the source
    passes the modification-time test, and reading it throws. *)
Lemma api_convert_directory_artifact p w t n :
  isAbsolutePath p = true ->
  files w !! p = Some n ->
  files w !! convert_outputPath dir p = Some (Dir t) ->
  Z.gtb t (mtime (stat_of n)) = true ->
  exists e w1, api_convert dir fonts iso (Some p) w = (Throw e, w1).
Proof.
  intros Habs Hsrc Hout Hnew.
  destruct (absolute_nonempty p Habs) as (a & p' & ->).
  unfold convert_outputPath, convert_outputDir in *.
  cbv beta iota zeta delta [api_convert].
  fold_paths a p'.
  rewrite Habs. cbv beta iota delta [negb].
  rewrite bind_existsSync, (exists_node_some _ _ _ Hsrc). cbv beta iota delta [negb].
  rewrite (bind_statSync _ n) by (rewrite files_log; exact Hsrc).
  rewrite bind_existsSync. rewrite !files_log, (exists_node_some _ _ _ Hout).
  cbv beta iota.
  rewrite bind_assoc. rewrite (bind_statSync _ (Dir t)) by (rewrite !files_log; exact Hout).
  cbn [stat_of mtime] in *. rewrite Hnew.
  rewrite bind_assoc. unfold bind at 1, readFileSync. rewrite !files_log, Hout.
  eexists _, _. reflexivity.
Qed.

(** The three states of the cache for an existing source. *)
Lemma cache_state_cases (m : gmap string node) out p n :
  m !! p = Some n ->
  fresh m out p = true \/ stale m out p = true \/
  exists t, m !! out = Some (Dir t) /\ Z.gtb t (mtime (stat_of n)) = true.
Proof.
  intros Hsrc. unfold fresh, stale. rewrite Hsrc.
  destruct (m !! out) as [[t d|t]|]; cbn [stat_of mtime].
  - destruct (Z.gtb t (mtime (stat_of n))); [left|right; left]; reflexivity.
  - destruct (Z.gtb t (mtime (stat_of n))) eqn:G;
      [right; right; eauto|right; left; reflexivity].
  - right; left; reflexivity.
Qed.

End Cache.

(** With no artifact on disk the converter is launched, and when it exits
    with a non-zero code nothing is read back: the request is answered with
    the conversion failure. *)
Lemma stale_request_with_failing_converter :
  Utils.isAbsolutePath Sample.source = true /\
  Fs.exists_node (Fs.files Sample.w0) Sample.source = true /\
  Fs.exists_node (Fs.files Sample.w0)
    (Obs.convert_outputPath Sample.dir Sample.source) = false /\
  Obs.spawned
    (Fs.trace (snd (Server.convert Sample.dir Sample.fonts Sample.iso Sample.x2t_fail
                      (Some Sample.source) Sample.w0))) = true /\
  fst (Server.convert Sample.dir Sample.fonts Sample.iso Sample.x2t_fail
         (Some Sample.source) Sample.w0)
  = Server.Replied (Server.send_text 500 "Conversion failed: cannot open input") /\
  (forall hs data,
     fst (Server.convert Sample.dir Sample.fonts Sample.iso Sample.x2t_fail
            (Some Sample.source) Sample.w0)
     <> Server.Replied (Server.Response 200 hs (Server.Binary data))).
Proof.
  assert (E : fst (Server.convert Sample.dir Sample.fonts Sample.iso Sample.x2t_fail
                     (Some Sample.source) Sample.w0)
              = Server.Replied (Server.send_text 500 "Conversion failed: cannot open input"))
    by (vm_compute; reflexivity).
  split; [reflexivity|]. split; [vm_compute; reflexivity|].
  split; [vm_compute; reflexivity|]. split; [vm_compute; reflexivity|].
  split; [exact E|]. intros hs data. rewrite E. discriminate.
Qed.

(* ===================================================================== *)
(** ** The fingerprint *)
(* ===================================================================== *)

Section Fingerprint.
Import Str Utils Fs Server Obs.

Variables (dir fonts : string) (iso : Z -> string).

Lemma length_str l : String.length (str l) = length l.
Proof. unfold str. induction l as [|c l IH]; simpl; [reflexivity|]. f_equal. exact IH. Qed.

Lemma chars_str l : chars (str l) = l.
Proof. apply list_ascii_of_string_of_list_ascii. Qed.

Lemma digest_length msg : length (Md5.digest msg) = 16%nat.
Proof.
  unfold Md5.digest.
  destruct (fold_left Md5.process_block _ Md5.init) as [[[a b] c] d].
  reflexivity.
Qed.

Lemma hex_digit_lower n : is_lower_hex (Md5.hex_digit n) = true.
Proof.
  unfold Md5.hex_digit.
  pose proof (Z.mod_pos_bound n 16 ltac:(lia)) as Hb.
  assert (Hk : (Z.to_nat (n mod 16) < 16)%nat) by lia.
  revert Hk. generalize (Z.to_nat (n mod 16)). intros k Hk.
  do 16 (destruct k as [|k]; [reflexivity|]). lia.
Qed.

Lemma hex_length bs : String.length (Md5.hex bs) = (2 * length bs)%nat.
Proof.
  unfold Md5.hex. rewrite length_str.
  induction bs as [|b bs IH]; simpl; [reflexivity|]. rewrite IH. lia.
Qed.

Lemma hex_lower bs : forallb is_lower_hex (chars (Md5.hex bs)) = true.
Proof.
  unfold Md5.hex. rewrite chars_str.
  induction bs as [|b bs IH]; [reflexivity|].
  cbn [flat_map Md5.hex_byte app forallb]. rewrite !hex_digit_lower, IH. reflexivity.
Qed.

Lemma generateFileHash_shape p :
  String.length (generateFileHash p) = 32%nat /\
  forallb is_lower_hex (chars (generateFileHash p)) = true.
Proof.
  unfold generateFileHash, Md5.hexdigest. split.
  - rewrite hex_length, digest_length. reflexivity.
  - apply hex_lower.
Qed.

(** Every way the synchronous part of a convert request can end. *)
Lemma api_convert_cases q w :
  exists res w1,
    api_convert dir fonts iso q w = (res, w1) /\
    ((exists r, res = Ok (Sent r) /\ status r <> 200%Z) \/
     (exists p d, q = Some p /\
        res = Ok (Sent (Response 200 (editor_bin_headers (generateFileHash p) "HIT")
                          (Binary d)))) \/
     (exists e, res = Throw e) \/
     (exists p, q = Some p /\ res = Ok (Waiting (convert_child dir p)))).
Proof.
  destruct q as [p|].
  2:{ eexists _, _. split; [reflexivity|]. left. eexists. split; [reflexivity|discriminate]. }
  destruct (isAbsolutePath p) eqn:Habs.
  2:{ destruct p as [|a p'].
      - eexists _, _. split; [reflexivity|]. left. eexists. split; [reflexivity|discriminate].
      - cbv beta iota zeta delta [api_convert]. rewrite Habs.
        eexists _, _. split; [reflexivity|]. left. eexists. split; [reflexivity|discriminate]. }
  destruct (files w !! p) as [n|] eqn:Hsrc.
  - destruct (cache_state_cases (files w) (convert_outputPath dir p) p n Hsrc)
      as [Hf|[Hs|(t & Hout & Hnew)]].
    + destruct (api_convert_hit dir fonts iso p w Habs Hf) as (t & d & _ & E).
      eexists _, _. split; [exact E|]. right; left. eauto.
    + destruct (api_convert_stale dir fonts iso p w Habs Hs)
        as (res & w1 & E & seen & _ & [(e & -> & _)|(-> & _)]).
      * eexists _, _. split; [exact E|]. right; right; left. eauto.
      * eexists _, _. split; [exact E|]. right; right; right. eauto.
    + destruct (api_convert_directory_artifact dir fonts iso p w t n Habs Hsrc Hout Hnew)
        as (e & w1 & E).
      eexists _, _. split; [exact E|]. right; right; left. eauto.
  - destruct (absolute_nonempty p Habs) as (a & p' & ->).
    cbv beta iota zeta delta [api_convert]. rewrite Habs. cbv beta iota delta [negb].
    rewrite bind_existsSync, (exists_node_none _ _ Hsrc). cbv beta iota delta [negb].
    eexists _, _. split; [reflexivity|]. left. eexists. split; [reflexivity|discriminate].
Qed.

(** C8. The fingerprint of a path is a function of the path string and of
    nothing else: it is always exactly 32 characters long, each of them a
    lower-case hexadecimal digit, and whatever the filesystem holds and
    whatever the converter does, every successful convert response for the
    path carries that same value in its X-File-Hash header. *)
Theorem fingerprint_is_32_lower_hex_of_the_path_alone :
  forall (p : string),
    String.length (generateFileHash p) = 32%nat /\
    forallb is_lower_hex (chars (generateFileHash p)) = true /\
    (forall (x2t : converter) (w : world) (r : response),
       fst (convert dir fonts iso x2t (Some p) w) = Replied r ->
       status r = 200%Z ->
       header "X-File-Hash" r = Some (generateFileHash p)).
Proof.
  intros p. destruct (generateFileHash_shape p) as [Hlen Hhex].
  split; [exact Hlen|]. split; [exact Hhex|].
  intros x2t w r Hr Hok. unfold convert in Hr.
  destruct (api_convert_cases (Some p) w)
    as (res & w1 & E & [(r0 & -> & Hne)|[(p0 & d & Hp & ->)|[(e & ->)|(p0 & Hp & ->)]]]).
  - rewrite (serve_sent _ _ _ _ _ E) in Hr. injection Hr as ->. contradiction.
  - injection Hp as <-. rewrite (serve_sent _ _ _ _ _ E) in Hr. injection Hr as <-. reflexivity.
  - rewrite (serve_throw _ _ _ _ _ E) in Hr. discriminate.
  - injection Hp as <-. rewrite (serve_waiting _ _ _ _ _ E) in Hr.
    unfold settle, convert_child in Hr.
    cbn [command args error_listener close_listener] in Hr.
    destruct (outcome _); cbv beta iota in Hr; [discriminate| |];
      rewrite finish_fst in Hr;
      match type of Hr with context [fst ?x] => destruct (fst x) eqn:Hx end;
      try discriminate; injection Hr as ->;
      eapply convert_close_ok_header; eassumption.
Qed.
End Fingerprint.

Lemma fingerprint_witness :
  fst (Server.convert Sample.dir Sample.fonts Sample.iso Sample.x2t_ok
         (Some Sample.source) Sample.w0)
  = Server.Replied
      (Server.Response 200
         (Server.editor_bin_headers (Utils.generateFileHash Sample.source) "MISS")
         (Server.Binary Sample.artifact)) /\
  Obs.header "X-File-Hash"
    (Server.Response 200
       (Server.editor_bin_headers (Utils.generateFileHash Sample.source) "MISS")
       (Server.Binary Sample.artifact))
  = Some "62f93dfe194e3eef9edae68da18d2ae3".
Proof.
  assert (E : fst (Server.convert Sample.dir Sample.fonts Sample.iso Sample.x2t_ok
                     (Some Sample.source) Sample.w0)
              = Server.Replied
                  (Server.Response 200
                     (Server.editor_bin_headers (Utils.generateFileHash Sample.source) "MISS")
                     (Server.Binary Sample.artifact))) by (vm_compute; reflexivity).
  split; [exact E|].
  destruct (fingerprint_is_32_lower_hex_of_the_path_alone Sample.dir Sample.fonts Sample.iso
              Sample.source) as (_ & _ & H).
  rewrite (H Sample.x2t_ok Sample.w0 _ E eq_refl). vm_compute. reflexivity.
Defined.

(* ===================================================================== *)
(** ** Directories survive every request *)
(* ===================================================================== *)

Section Keeps.
Import Str Utils Fs Server Obs Inv.

Lemma dirs_kept_refl m : dirs_kept m m.
Proof. intros q H. exact H. Qed.

Lemma dirs_kept_trans m1 m2 m3 : dirs_kept m1 m2 -> dirs_kept m2 m3 -> dirs_kept m1 m3.
Proof. intros H1 H2 q H. apply H2, H1, H. Qed.

Lemma extends_refl w : extends w w.
Proof. split; [apply dirs_kept_refl|]. split; [reflexivity|]. exists []. rewrite app_nil_r. reflexivity. Qed.

Lemma extends_trans w1 w2 w3 : extends w1 w2 -> extends w2 w3 -> extends w1 w3.
Proof.
  intros (Hd1 & Hn1 & a1 & Ht1) (Hd2 & Hn2 & a2 & Ht2). split; [eapply dirs_kept_trans; eassumption|].
  split; [congruence|]. exists (a1 ++ a2). rewrite Ht2, Ht1, app_assoc. reflexivity.
Qed.

Lemma extends_log ev w : extends w (log ev w).
Proof. split; [apply dirs_kept_refl|]. split; [reflexivity|]. exists [ev]. reflexivity. Qed.

Lemma dirs_kept_insert_file (m : gmap string node) p t d :
  is_dir m p = false -> dirs_kept m (<[p := File t d]> m).
Proof.
  intros Hp q Hq. unfold is_dir in *.
  destruct (decide (p = q)) as [->|Hne].
  - rewrite Hq in Hp. discriminate.
  - rewrite lookup_insert_ne by exact Hne. exact Hq.
Qed.

Lemma dirs_kept_write p d t (m m' : gmap string node) :
  write_node p d t m = inr m' -> dirs_kept m m'.
Proof.
  unfold write_node. intros H.
  destruct (m !! p) as [[t0 d0|t0]|] eqn:Hp; try discriminate;
    destruct (m !! Path.dirname p) as [[?|?]|]; try discriminate;
    injection H as <-; apply dirs_kept_insert_file; unfold is_dir; rewrite Hp; reflexivity.
Qed.

Lemma dirs_kept_delete_file (m : gmap string node) p :
  is_dir m p = false -> dirs_kept m (delete p m).
Proof.
  intros Hp q Hq. unfold is_dir in *.
  destruct (decide (p = q)) as [->|Hne].
  - rewrite Hq in Hp. discriminate.
  - rewrite lookup_delete_ne by exact Hne. exact Hq.
Qed.

Lemma mkdir_one_lookup t a (m : gmap string node) q :
  mkdir_one t a m !! q =
  match m !! q with
  | Some x => Some x
  | None => if decide (a = q) then Some (Dir t) else None
  end.
Proof.
  unfold mkdir_one. destruct (m !! a) as [x|] eqn:Ha.
  - destruct (m !! q) eqn:Hq; [reflexivity|].
    destruct (decide (a = q)) as [->|]; [congruence|reflexivity].
  - destruct (decide (a = q)) as [->|Hne].
    + rewrite lookup_insert_eq, Ha. reflexivity.
    + rewrite lookup_insert_ne by exact Hne. destruct (m !! q); reflexivity.
Qed.

Lemma mkdir_chain_lookup t chain (m : gmap string node) q :
  fold_right (mkdir_one t) m chain !! q =
  match m !! q with
  | Some x => Some x
  | None => if existsb (String.eqb q) chain then Some (Dir t) else None
  end.
Proof.
  induction chain as [|a chain IH]; cbn [fold_right existsb].
  - destruct (m !! q); reflexivity.
  - rewrite mkdir_one_lookup, IH.
    destruct (m !! q) as [x|]; [reflexivity|].
    destruct (existsb (String.eqb q) chain).
    + rewrite orb_true_r. reflexivity.
    + rewrite orb_false_r. destruct (decide (a = q)) as [->|Hne].
      * rewrite String.eqb_refl. reflexivity.
      * destruct (String.eqb q a) eqn:E; [|reflexivity].
        apply String.eqb_eq in E. congruence.
Qed.

Lemma dirs_kept_mkdir t chain (m : gmap string node) :
  dirs_kept m (fold_right (mkdir_one t) m chain).
Proof.
  intros q Hq. unfold is_dir in *. rewrite mkdir_chain_lookup.
  destruct (m !! q) as [x|]; [exact Hq|discriminate].
Qed.

Lemma ancestors_head p : exists rest, Path.ancestors p = p :: rest.
Proof.
  unfold Path.ancestors. cbn [Path.ancestors_fuel].
  destruct (String.eqb (Path.dirname p) p); eauto.
Qed.

Lemma keeps_ret {A} (a : A) (Q : A -> Prop) : Q a -> keeps (ret a) Q.
Proof. intros H w. split; [apply extends_refl|]. intros a' E. injection E as <-. exact H. Qed.

Lemma keeps_throw {A} (e : exn) (Q : A -> Prop) : keeps (throw e) Q.
Proof. intros w. split; [apply extends_refl|]. intros a E. discriminate E. Qed.

Lemma keeps_bind {A B} (m : M A) (k : A -> M B) (Q : B -> Prop) :
  keeps m any -> (forall a, keeps (k a) Q) -> keeps (bind m k) Q.
Proof.
  intros Hm Hk w. unfold bind. destruct (Hm w) as [He _].
  destruct (m w) as [[a|e] w1] eqn:E; cbn [fst snd] in *.
  - destruct (Hk a w1) as [He2 HQ]. split; [eapply extends_trans; eassumption|exact HQ].
  - split; [exact He|]. intros a H. discriminate.
Qed.

Lemma keeps_try_catch {A} (m : M A) (h : exn -> M A) (Q : A -> Prop) :
  keeps m Q -> (forall e, keeps (h e) Q) -> keeps (try_catch m h) Q.
Proof.
  intros Hm Hh w. unfold try_catch. destruct (Hm w) as [He HQ].
  destruct (m w) as [[a|e] w1] eqn:E; cbn [fst snd] in *.
  - split; [exact He|exact HQ].
  - destruct (Hh e w1) as [He2 HQ2]. split; [eapply extends_trans; eassumption|exact HQ2].
Qed.

Lemma keeps_weaken {A} (m : M A) (Q : A -> Prop) : keeps m Q -> keeps m any.
Proof. intros H w. destruct (H w) as [He _]. split; [exact He|]. intros; exact I. Qed.

Lemma keeps_existsSync p : keeps (existsSync p) any.
Proof. intros w. split; [apply extends_log|]. intros; exact I. Qed.

Lemma keeps_statSync p : keeps (statSync p) any.
Proof.
  intros w. unfold statSync. destruct (files w !! p); (split; [apply extends_log|]); intros; exact I.
Qed.

Lemma keeps_readFileSync p : keeps (readFileSync p) any.
Proof.
  intros w. unfold readFileSync.
  destruct (files w !! p) as [[?|?]|]; (split; [apply extends_log|]); intros; exact I.
Qed.

Lemma keeps_spawn c a : keeps (spawn c a) any.
Proof. intros w. split; [apply extends_log|]. intros; exact I. Qed.

Lemma keeps_timestamp iso : keeps (timestamp iso) any.
Proof. intros w. split; [apply extends_refl|]. intros; exact I. Qed.

Lemma extends_set_files m' ev w :
  dirs_kept (files w) m' -> extends w (set_files m' (log ev w)).
Proof. intros H. split; [exact H|]. split; [reflexivity|]. exists [ev]. reflexivity. Qed.

Lemma keeps_writeFileSync p d : keeps (writeFileSync p d) any.
Proof.
  intros w. unfold writeFileSync.
  destruct (write_node p d (now w) (files w)) as [e|m'] eqn:E; cbn [fst snd].
  - split; [apply extends_log|]. intros; exact I.
  - split; [|intros; exact I]. apply extends_set_files. eapply dirs_kept_write; exact E.
Qed.

Lemma keeps_unlinkSync p : keeps (unlinkSync p) any.
Proof.
  intros w. unfold unlinkSync.
  destruct (files w !! p) as [[t d|t]|] eqn:E; cbn [fst snd];
    (split; [|intros; exact I]); try apply extends_log.
  apply extends_set_files, dirs_kept_delete_file. unfold is_dir. rewrite E. reflexivity.
Qed.

Lemma keeps_mkdirSync_recursive p : keeps (mkdirSync_recursive p) any.
Proof.
  intros w. unfold mkdirSync_recursive.
  destruct (is_file (files w) p); [|destruct (existsb _ _)]; cbn [fst snd];
    (split; [|intros; exact I]); try apply extends_log.
  apply extends_set_files, dirs_kept_mkdir.
Qed.

End Keeps.

Ltac keeps_step :=
  first
    [ apply keeps_existsSync | apply keeps_statSync | apply keeps_readFileSync
    | apply keeps_spawn | apply keeps_timestamp | apply keeps_writeFileSync
    | apply keeps_unlinkSync | apply keeps_mkdirSync_recursive
    | apply keeps_ret; try exact I
    | apply keeps_throw
    | apply keeps_try_catch; [|intros ?]
    | apply keeps_bind; [|intros ?]
    | match goal with
      | |- Inv.keeps (if ?b then _ else _) _ => destruct b
      | |- Inv.keeps (match ?x with _ => _ end) _ => destruct x
      end ].

Section ParentDirectory.
Import Str Utils Fs Server Obs Inv.

Variables (dir fonts : string) (iso : Z -> string).

Lemma keeps_convert_on_close pp op fh code out err : keeps (convert_on_close pp op fh code out err) any.
Proof. unfold convert_on_close. repeat keeps_step. Qed.

Lemma keeps_save_on_close pp cp op code out err : keeps (save_on_close pp cp op code out err) any.
Proof. unfold save_on_close. repeat keeps_step. Qed.

Lemma keeps_api_convert q : keeps (api_convert dir fonts iso q) pending_keeps.
Proof.
  unfold api_convert. repeat keeps_step.
  all: try (split; [intros; apply keeps_convert_on_close|intros ? ? ?; discriminate]).
Qed.

Lemma keeps_api_save req : keeps (api_save dir fonts iso req) pending_keeps.
Proof.
  unfold api_save. repeat keeps_step.
  all: try (split; [intros; apply keeps_save_on_close|]).
  all: intros ? ? H; injection H as <-; apply keeps_ret; exact I.
Qed.

Lemma dirs_kept_apply_writes t ws (m : gmap string node) :
  dirs_kept m (apply_writes t ws m).
Proof.
  unfold apply_writes. revert m. induction ws as [|[p d] ws IH]; intros m; cbn [fold_left fst snd].
  - apply dirs_kept_refl.
  - destruct (write_node p d t m) as [e|m'] eqn:E.
    + apply IH.
    + eapply dirs_kept_trans; [eapply dirs_kept_write; exact E|apply IH].
Qed.

Lemma finish_extends w (x : result response * world) :
  extends w (snd x) -> extends w (snd (finish x)).
Proof. rewrite finish_snd. trivial. Qed.

Lemma settle_extends (x2t : converter) c w :
  listeners_keep c -> extends w (snd (settle x2t c w)).
Proof.
  intros [Hclose Herr]. unfold settle.
  assert (Hran : extends w
            (snd (finish
                    (close_listener c
                       (close_code (outcome (x2t (command c) (args c) (files w))))
                       (stdout (x2t (command c) (args c) (files w)))
                       (stderr (x2t (command c) (args c) (files w)))
                       (set_files
                          (apply_writes (now w)
                             (writes (x2t (command c) (args c) (files w))) (files w)) w))))).
  { apply finish_extends. eapply extends_trans; [|apply Hclose].
    split; [apply dirs_kept_apply_writes|]. split; [reflexivity|].
    exists []. cbn. rewrite app_nil_r. reflexivity. }
  destruct (outcome (x2t (command c) (args c) (files w))) as [e|code|sig] eqn:Ho;
    [|exact Hran|exact Hran].
  destruct (error_listener c) as [f|] eqn:Hf; [|apply extends_refl].
  destruct (Herr f e eq_refl w) as [He _].
  destruct (has_stdio e); [|exact He].
  destruct (f e w) as [[u|x] w1]; cbn [fst snd] in *; [|exact He].
  apply finish_extends. eapply extends_trans; [exact He|apply Hclose].
Qed.



Lemma creatable_not_file (m : gmap string node) d :
  creatable m d = true -> is_file m d = false /\ existsb (is_file m) (Path.ancestors d) = false.
Proof.
  unfold creatable. intros H. apply negb_true_iff in H. split; [|exact H].
  destruct (ancestors_head d) as [rest Hr]. rewrite Hr in H. cbn [existsb] in H.
  apply orb_false_iff in H. tauto.
Qed.

(** The first two calls of the save handler, when nothing blocks the
    parent directory. *)
Lemma prepare_parent d w :
  creatable (files w) d = true ->
  exists w1,
    is_dir (files w1) d = true /\
    dirs_kept (files w) (files w1) /\
    now w1 = now w /\
    trace w1 = trace w ++ EvExists d :: (if exists_node (files w) d then [] else [EvMkdir d]) /\
    forall B (k : unit -> M B),
      bind (existsSync d)
        (fun have => bind (if negb have then mkdirSync_recursive d else ret tt) k) w
      = k tt w1.
Proof.
  intros Hc. destruct (creatable_not_file _ _ Hc) as [Hnf Hchain].
  destruct (files w !! d) as [n|] eqn:Hd.
  - exists (log (EvExists d) w). rewrite (exists_node_some _ _ _ Hd).
    split; [|split; [apply dirs_kept_refl|split; [reflexivity|split; [reflexivity|]]]].
    + unfold is_dir, is_file in *. rewrite files_log, Hd in *. destruct n; [discriminate|reflexivity].
    + intros B k. rewrite bind_existsSync, (exists_node_some _ _ _ Hd). reflexivity.
  - exists (set_files (fold_right (mkdir_one (now w)) (files w) (Path.ancestors d))
              (log (EvMkdir d) (log (EvExists d) w))).
    rewrite (exists_node_none _ _ Hd).
    split; [|split; [apply dirs_kept_mkdir|split; [reflexivity|split]]].
    + unfold is_dir. cbn [files set_files]. rewrite mkdir_chain_lookup, Hd.
      destruct (ancestors_head d) as [rest ->]. cbn [existsb]. rewrite String.eqb_refl. reflexivity.
    + norm_world. reflexivity.
    + intros B k. rewrite bind_existsSync, (exists_node_none _ _ Hd). cbn [negb].
      unfold bind at 1, mkdirSync_recursive. rewrite !files_log, Hnf, Hchain. reflexivity.
Qed.

End ParentDirectory.



(* ===================================================================== *)
(** ** The two branches of a save *)
(* ===================================================================== *)

Section SaveBranches.
Import Str Utils Fs Server Obs Inv.

Variables (dir fonts : string) (iso : Z -> string).


(** The conversion branch. *)
Lemma api_save_conversion req p w :
  query_filepath req = Some p ->
  isAbsolutePath p = true ->
  creatable (files w) (Path.dirname p) = true ->
  is_octet_stream (content_type req) = true ->
  isXLSXSignature (payload req) = false ->
  exists res w' added,
    api_save dir fonts iso req w = (res, w') /\
    trace w' = trace w ++ added /\
    match getOutputFormatInfo (toLowerCase (Path.extname p)) with
    | None =>
        res = Ok (Sent (send_text 400 "Unsupported file format")) /\
        added = EvExists (Path.dirname p)
                  :: (if exists_node (files w) (Path.dirname p) then []
                      else [EvMkdir (Path.dirname p)])
    | Some _ =>
        wrote (save_changesBinPath dir (query_filehash req)) added = true /\
        ((exists e, res = Throw e /\ spawned added = false) \/
         (res = Ok (Waiting (save_child dir (query_filehash req) p)) /\
          spawned added = true /\
          is_file (files w') (save_changesBinPath dir (query_filehash req)) = true /\
          is_file (files w') (save_paramsPath dir (query_filehash req)) = true))
    end.
Proof.
  intros Hq Habs Hc Hct Hsig. destruct req as [q fh ct body0].
  cbn [query_filepath payload query_filehash content_type] in *. subst q.
  destruct (prepare_parent (Path.dirname p) w Hc) as (w1 & Hdir & Hkept & Hnow & Htrace & Hrun).
  destruct (absolute_nonempty p Habs) as (a & p' & ->).
  unfold save_child, save_changesBinPath, save_paramsPath, save_hashDir.
  cbv beta iota zeta delta [api_save parsed_body query_filepath query_filehash payload
                             content_type].
  set (fp := String a p') in *.
  rewrite Habs. cbn [negb]. rewrite Hrun, Hct, Hsig.
  destruct (getOutputFormatInfo (toLowerCase (Path.extname fp))) as [fi|].
  - set (hashDir := match fh with Some (String _ _ as h) => _ | _ => _ end).
    set (changes := Path.join [hashDir; "temp_changes.bin"]).
    set (params := Path.join [hashDir; "params_save.xml"]).
    destruct (write_node changes body0 (now w1) (files w1)) as [e|m1] eqn:Hw1.
    + rewrite (bind_writeFileSync_err _ _ e) by exact Hw1.
      eexists _, _, _. split; [reflexivity|].
      split; [norm_world; rewrite Htrace, <- app_assoc; reflexivity|].
      split; [rewrite wrote_app; cbn [wrote existsb]; rewrite wrote_here, orb_true_r; reflexivity|].
      left. eexists. split; [reflexivity|]. rewrite spawned_app, spawned_prepare. reflexivity.
    + rewrite (bind_writeFileSync_ok _ _ m1) by exact Hw1.
      rewrite bind_timestamp.
      match goal with |- context [writeFileSync params ?d] => set (xml := d) end.
      set (w2 := set_files m1 (log (EvWrite changes) w1)).
      destruct (write_node params xml (now w2) (files w2)) as [e|m2] eqn:Hw2.
      * rewrite (bind_writeFileSync_err _ _ e) by exact Hw2.
        eexists _, _, _. split; [reflexivity|].
        split; [subst w2; norm_world; rewrite Htrace, <- app_assoc; reflexivity|].
        split; [rewrite wrote_app; cbn [wrote existsb]; rewrite wrote_here; cbn; rewrite orb_true_r; reflexivity|].
        left. eexists. split; [reflexivity|]. rewrite spawned_app, spawned_prepare. reflexivity.
      * rewrite (bind_writeFileSync_ok _ _ m2) by exact Hw2.
        rewrite bind_spawn. unfold ret.
        eexists _, _, _. split; [reflexivity|].
        split; [subst w2; norm_world; rewrite Htrace, <- app_assoc; reflexivity|].
        split; [rewrite wrote_app; cbn [wrote existsb]; rewrite wrote_here; cbn; rewrite orb_true_r; reflexivity|].
        right. split; [reflexivity|].
        split; [rewrite spawned_app; cbn; rewrite orb_true_r; reflexivity|].
        pose proof (write_node_ok_lookup _ _ _ _ _ Hw1) as Hf1.
        pose proof (write_node_ok_lookup _ _ _ _ _ Hw2) as Hf2.
        split; unfold is_file; cbn [files log set_files]; [|rewrite Hf2; reflexivity].
        assert (Hkeep : is_file m2 changes = true).
        { eapply is_file_write; [exact Hw2|]. unfold is_file. subst w2.
          cbn [files set_files]. rewrite Hf1. reflexivity. }
        exact Hkeep.
  - unfold ret. eexists _, _, _. split; [reflexivity|]. split; [exact Htrace|]. split; reflexivity.
Qed.






End SaveBranches.


(* ===================================================================== *)
(** ** The format registry *)
(* ===================================================================== *)

Section Registry.
Import Str Utils Fs Server Obs Inv.

Variables (dir fonts : string) (iso : Z -> string).



End Registry.


(* ===================================================================== *)
(** ** The CSV fields of the descriptor *)
(* ===================================================================== *)

Section Occurs.
Import Str Utils Fs Server Obs.

Lemma chars_append a b : chars (a +:+ b) = chars a ++ chars b.
Proof.
  induction a as [|c a IH]; [reflexivity|].
  change (chars (String c a +:+ b)) with (c :: chars (a +:+ b)).
  rewrite IH. reflexivity.
Qed.

Lemma clash_not_prefix n s t : clash n s = true -> is_prefix n (s ++ t) = false.
Proof.
  revert s. induction n as [|a n IH]; intros [|b s] H; try discriminate.
  cbn in *. destruct (Ascii.eqb a b); cbn in *; [apply IH; exact H|reflexivity].
Qed.

Lemma occurs_skip n l t : all_clash n l = true -> occurs n (l ++ t) = occurs n t.
Proof.
  induction l as [|c l IH]; intros H; [reflexivity|].
  cbn [all_clash] in H. apply andb_true_iff in H as [Hc Hl].
  pose proof (clash_not_prefix n (c :: l) t Hc) as Hp.
  cbn [app occurs] in *. rewrite Hp. apply IH, Hl.
Qed.

Lemma lt_free_all_clash n v :
  starts_with_lt n = true -> forallb not_lt v = true -> all_clash n v = true.
Proof.
  destruct n as [|a n]; [discriminate|]. cbn [starts_with_lt]. intros Ha.
  apply Ascii.eqb_eq in Ha. subst a.
  induction v as [|c v IH]; intros H; [reflexivity|].
  cbn [forallb] in H. apply andb_true_iff in H as [Hc Hv].
  cbn [all_clash clash]. rewrite (IH Hv), andb_true_r.
  unfold not_lt in Hc. rewrite Ascii.eqb_sym in Hc. rewrite Hc. reflexivity.
Qed.

Lemma is_prefix_app n s t : is_prefix n s = true -> is_prefix n (s ++ t) = true.
Proof.
  revert s. induction n as [|a n IH]; intros [|b s] H; try discriminate; try reflexivity.
  cbn in *. apply andb_true_iff in H as [-> H]. cbn. apply IH, H.
Qed.

Lemma occurs_app_l n s t : occurs n s = true -> occurs n (s ++ t) = true.
Proof.
  induction s as [|c s IH]; intros H.
  - cbn in H. rewrite orb_false_r in H. destruct n; [|discriminate]. destruct t; reflexivity.
  - cbn [occurs] in H. apply orb_true_iff in H as [H|H].
    + cbn [app occurs]. change (c :: s ++ t) with ((c :: s) ++ t).
      rewrite (is_prefix_app _ _ _ H). reflexivity.
    + cbn [app occurs]. rewrite (IH H). apply orb_true_r.
Qed.

Lemma occurs_nil n : n <> [] -> occurs n [] = false.
Proof. destruct n; [congruence|reflexivity]. Qed.

End Occurs.

Ltac skip_piece :=
  rewrite occurs_skip
    by (first [ vm_compute; reflexivity
              | apply lt_free_all_clash; [reflexivity | assumption] ]).

Section Descriptor.
Import Str Utils Fs Server Obs.

Lemma convert_descriptor_tags inputPath outputPath filename fontDir themeDir ts tag :
  lt_free inputPath = true -> lt_free outputPath = true -> lt_free filename = true ->
  lt_free fontDir = true -> lt_free themeDir = true -> lt_free ts = true ->
  In tag (csv_tags ++ csv_elements) ->
  includes tag (convert_xmlConfig inputPath outputPath filename fontDir themeDir ts)
  = String.eqb (toLowerCase (Path.extname filename)) ".csv".
Proof.
  unfold lt_free. intros H1 H2 H3 H4 H5 H6 Htag.
  unfold includes, convert_xmlConfig.
  destruct (String.eqb (toLowerCase (Path.extname filename)) ".csv");
    cbn in Htag; destruct Htag as [<-|[<-|[<-|[<-|[]]]]];
    unfold xml_tail; rewrite ?chars_append; repeat skip_piece;
    first [ reflexivity | apply occurs_app_l; vm_compute; reflexivity ].
Qed.

Lemma registry_codes ext fi :
  getOutputFormatInfo ext = Some fi ->
  In (code fi) [257; 260; 65; 129]%Z.
Proof.
  unfold getOutputFormatInfo.
  repeat match goal with |- context [if ?b then _ else _] => destruct b end;
    intros H; inversion H; subst; cbn; tauto.
Qed.

Lemma registry_code_lt_free ext fi :
  getOutputFormatInfo ext = Some fi -> lt_free (decimal (code fi)) = true.
Proof.
  intros H. apply registry_codes in H. cbn in H.
  destruct H as [<-|[<-|[<-|[<-|[]]]]]; reflexivity.
Qed.

Lemma save_descriptor_tags changesBinPath outputPath filename ext fi fontDir themeDir ts tag :
  lt_free changesBinPath = true -> lt_free outputPath = true -> lt_free filename = true ->
  lt_free fontDir = true -> lt_free themeDir = true -> lt_free ts = true ->
  getOutputFormatInfo ext = Some fi ->
  In tag (csv_tags ++ csv_elements) ->
  includes tag (save_xmlConfig changesBinPath outputPath filename ext (code fi)
                  fontDir themeDir ts)
  = String.eqb ext ".csv".
Proof.
  intros H1 H2 H3 H4 H5 H6 Hfi Htag.
  apply registry_code_lt_free in Hfi. unfold lt_free in *.
  unfold includes, save_xmlConfig.
  destruct (String.eqb ext ".csv");
    cbn in Htag; destruct Htag as [<-|[<-|[<-|[<-|[]]]]];
    unfold xml_tail; rewrite ?chars_append; repeat skip_piece;
    first [ reflexivity | apply occurs_app_l; vm_compute; reflexivity ].
Qed.

End Descriptor.
(* ===================================================================== *)
(** ** Cleanup of the transient files *)
(* ===================================================================== *)

Section Cleanup.
Import Str Utils Fs Server Obs Inv.

Variables (dir fonts : string) (iso : Z -> string).

(** The files left by the [close] listener of the convert path. *)
Lemma convert_close_unlinks pp op fh code out err w :
  is_file (files w) pp = true ->
  exists_node (files (snd (convert_on_close pp op fh code out err w))) pp = false.
Proof.
  unfold is_file. intros H. destruct (files w !! pp) as [[t d|t]|] eqn:Hp; try discriminate.
  unfold convert_on_close, try_catch. rewrite bind_assoc || idtac.
  unfold bind at 1. unfold unlinkSync at 1. rewrite Hp. cbn [ret].
  set (w1 := set_files (delete pp (files w)) (log (EvUnlink pp) w)).
  assert (Hgone : exists_node (files w1) pp = false).
  { unfold exists_node. subst w1. cbn [files set_files]. rewrite lookup_delete_eq. reflexivity. }
  destruct (code_nonzero code); [exact Hgone|].
  rewrite bind_existsSync. destruct (exists_node (files w1) op); cbn [negb]; [|exact Hgone].
  unfold bind, readFileSync. rewrite files_log.
  destruct (files w1 !! op) as [[?|?]|]; exact Hgone.
Qed.

Lemma save_close_unlinks pp cp op code out err w :
  is_file (files w) pp = true ->
  is_file (files w) cp = true ->
  exists_node (files (snd (save_on_close pp cp op code out err w))) pp = false /\
  exists_node (files (snd (save_on_close pp cp op code out err w))) cp = false.
Proof.
  unfold is_file. intros Hp Hc.
  destruct (files w !! pp) as [[tp dp|tp]|] eqn:Ep; try discriminate.
  destruct (files w !! cp) as [[tc dc|tc]|] eqn:Ec; try discriminate.
  unfold save_on_close.
  assert (Hclean : exists w1,
            exists_node (files w1) pp = false /\ exists_node (files w1) cp = false /\
            forall B (k : unit -> M B),
              bind (try_catch
                      (let* haveParams := existsSync pp in
                       (if haveParams then unlinkSync pp else ret tt) ;;
                       let* haveChanges := existsSync cp in
                       if haveChanges then unlinkSync cp else ret tt)%fs
                      (fun _ => ret tt)) k w = k tt w1).
  { destruct (decide (pp = cp)) as [<-|Hne].
    - exists (log (EvExists pp) (set_files (delete pp (files w))
                 (log (EvUnlink pp) (log (EvExists pp) w)))).
      assert (Hg : exists_node (delete pp (files w)) pp = false)
        by (unfold exists_node; rewrite lookup_delete_eq; reflexivity).
      split; [exact Hg|]. split; [exact Hg|].
      intros B k. unfold bind at 1, try_catch.
      rewrite bind_existsSync, (exists_node_some _ _ _ Ep).
      unfold bind at 1, unlinkSync at 1. rewrite files_log, Ep.
      rewrite bind_existsSync. cbn [files set_files]. rewrite Hg. reflexivity.
    - exists (set_files (delete cp (delete pp (files w)))
                (log (EvUnlink cp) (log (EvExists cp) (set_files (delete pp (files w))
                   (log (EvUnlink pp) (log (EvExists pp) w)))))).
      split; [|split].
      + unfold exists_node. cbn [files set_files].
        rewrite lookup_delete_ne by congruence. rewrite lookup_delete_eq. reflexivity.
      + unfold exists_node. cbn [files set_files]. rewrite lookup_delete_eq. reflexivity.
      + intros B k. unfold bind at 1, try_catch.
        rewrite bind_existsSync, (exists_node_some _ _ _ Ep).
        unfold bind at 1, unlinkSync at 1. rewrite files_log, Ep.
        assert (Ec' : delete pp (files w) !! cp = Some (File tc dc))
          by (rewrite lookup_delete_ne by exact Hne; exact Ec).
        rewrite bind_existsSync. cbn [files set_files].
        rewrite (exists_node_some _ _ _ Ec').
        unfold unlinkSync. cbn [files log set_files]. rewrite Ec'. reflexivity. }
  destruct Hclean as (w1 & Hgp & Hgc & Hrun). rewrite Hrun.
  destruct (code_nonzero code); [split; assumption|].
  rewrite bind_existsSync. destruct (exists_node (files w1) op); cbn [negb]; [|split; assumption].
  unfold bind, statSync. rewrite files_log.
  destruct (files w1 !! op); cbn [snd files log]; split; assumption.
Qed.

(** On the save path the descriptor and the temporary binary are gone
    after every run of the converter, and after a failed spawn that
    leaves the child its streams: the handler registers an [error]
    listener, so [close] is delivered. *)
Lemma save_cleans_up_after_every_run (x2t : converter) req p w w1 :
  query_filepath req = Some p ->
  isAbsolutePath p = true ->
  creatable (files w) (Path.dirname p) = true ->
  is_octet_stream (content_type req) = true ->
  isXLSXSignature (payload req) = false ->
  api_save dir fonts iso req w = (Ok (Waiting (save_child dir (query_filehash req) p)), w1) ->
  (forall e, outcome (x2t (x2tPath dir) [save_paramsPath dir (query_filehash req)] (files w1))
             = SpawnFailed e -> has_stdio e = true) ->
  exists_node (files (snd (save dir fonts iso x2t req w)))
    (save_paramsPath dir (query_filehash req)) = false /\
  exists_node (files (snd (save dir fonts iso x2t req w)))
    (save_changesBinPath dir (query_filehash req)) = false.
Proof.
  intros Hq Habs Hc Hct Hsig E Hio.
  destruct (api_save_conversion dir fonts iso req p w Hq Habs Hc Hct Hsig)
    as (res & w1' & added & E' & _ & Hres).
  rewrite E in E'. injection E' as <- <-.
  destruct (getOutputFormatInfo (toLowerCase (Path.extname p))) as [fi|];
    [|destruct Hres as [Hres _]; discriminate Hres].
  destruct Hres as [_ [(e & He & _)|(_ & _ & Hfc & Hfp)]]; [discriminate He|].
  unfold save. rewrite (serve_waiting _ _ _ _ _ E).
  unfold settle, save_child in *. cbn [command args error_listener close_listener] in *.
  destruct (outcome _) as [e| |] eqn:Ho; [rewrite (Hio e eq_refl)| |];
    cbv beta iota; cbn [ret]; rewrite finish_snd;
    apply save_close_unlinks; cbn [files set_files];
    try apply is_file_apply_writes; assumption.
Qed.

(** On the convert path the descriptor is gone whenever the converter
    process ran (whatever its exit code, or the signal that ended it). *)
Lemma convert_cleans_up_when_the_converter_ran (x2t : converter) p w w1 :
  isAbsolutePath p = true ->
  stale (files w) (convert_outputPath dir p) p = true ->
  api_convert dir fonts iso (Some p) w = (Ok (Waiting (convert_child dir p)), w1) ->
  (forall e, outcome (x2t (x2tPath dir) [convert_paramsPath dir p] (files w1))
             <> SpawnFailed e) ->
  exists_node (files (snd (convert dir fonts iso x2t (Some p) w)))
    (convert_paramsPath dir p) = false.
Proof.
  intros Habs Hst E Hran.
  destruct (api_convert_stale dir fonts iso p w Habs Hst)
    as (res & w1' & E' & seen & _ & Hcase).
  rewrite E in E'. injection E' as <- <-.
  destruct Hcase as [(e & He & _)|(_ & _ & Hf)]; [discriminate He|].
  unfold convert. rewrite (serve_waiting _ _ _ _ _ E).
  unfold settle, convert_child in *. cbn [command args error_listener close_listener] in *.
  destruct (outcome _) as [e| |] eqn:Ho; [exfalso; exact (Hran e eq_refl)| |];
    rewrite finish_snd; apply convert_close_unlinks; cbn [files set_files];
    apply is_file_apply_writes; exact Hf.
Qed.

End Cleanup.

(** C3. The claim fails on the convert path when the converter cannot be
    started.  With a source on disk, no artifact and no converter binary,
    the convert request ends in an [error] event that nothing listens to,
    and the descriptor [params_temp.xml] it wrote is still in the working
    directory; the same failure on the save path is answered with the
    conversion failure, and both the descriptor and [temp_changes.bin] are
    gone. *)
Theorem convert_spawn_failure_leaves_the_descriptor :
  fst (Server.convert Sample.dir Sample.fonts Sample.iso Sample.x2t_missing
         (Some Sample.source) Sample.w0)
  = Server.UnhandledErrorEvent Server.SpENOENT /\
  Fs.is_file
    (Fs.files (snd (Server.convert Sample.dir Sample.fonts Sample.iso Sample.x2t_missing
                      (Some Sample.source) Sample.w0)))
    (Obs.convert_paramsPath Sample.dir Sample.source) = true /\
  fst (Server.save Sample.dir Sample.fonts Sample.iso Sample.x2t_missing
         (Server.SaveRequest (Some "/data/out.csv") None Sample.octet Sample.bin_payload)
         Sample.w0)
  = Server.Replied (Server.send_text 500 "Save failed: conversion error") /\
  Fs.exists_node
    (Fs.files (snd (Server.save Sample.dir Sample.fonts Sample.iso Sample.x2t_missing
                      (Server.SaveRequest (Some "/data/out.csv") None Sample.octet
                         Sample.bin_payload)
                      Sample.w0)))
    (Obs.save_paramsPath Sample.dir None) = false /\
  Fs.exists_node
    (Fs.files (snd (Server.save Sample.dir Sample.fonts Sample.iso Sample.x2t_missing
                      (Server.SaveRequest (Some "/data/out.csv") None Sample.octet
                         Sample.bin_payload)
                      Sample.w0)))
    (Obs.save_changesBinPath Sample.dir None) = false.
Proof. repeat split; vm_compute; reflexivity. Qed.

(* ===================================================================== *)
(** ** Faults that leave the handlers *)
(* ===================================================================== *)

(** C9. The claim fails twice.  On the conversion branch of a save whose
    fingerprint has no working directory, writing the temporary binary
    throws outside any [try], and the exception leaves the handler.  On
    the convert path a failed spawn raises an [error] event on a child
    process that has no [error] listener.  Their sibling paths do handle
    the same faults: the native branch of a save turns a failing write
    into the answer 500, and the save path answers a failed spawn with the
    conversion failure. *)
Theorem faults_escape_the_handlers :
  fst (Server.save Sample.dir Sample.fonts Sample.iso Sample.x2t_ok
         (Server.SaveRequest (Some "/data/out.xlsx") (Some Sample.unknown_hash) Sample.octet
            Sample.bin_payload)
         Sample.w0)
  = Server.Uncaught
      (Fs.FsError Fs.ENOENT "open"
         (Obs.save_changesBinPath Sample.dir (Some Sample.unknown_hash))) /\
  fst (Server.convert Sample.dir Sample.fonts Sample.iso Sample.x2t_missing
         (Some Sample.source) Sample.w0)
  = Server.UnhandledErrorEvent Server.SpENOENT /\
  fst (Server.save Sample.dir Sample.fonts Sample.iso Sample.x2t_ok
         (Server.SaveRequest (Some "/data") None Sample.octet Sample.zip_payload)
         Sample.w0)
  = Server.Replied
      (Server.send_text 500
         "Save failed: EISDIR: illegal operation on a directory, open '/data'") /\
  fst (Server.save Sample.dir Sample.fonts Sample.iso Sample.x2t_missing
         (Server.SaveRequest (Some "/data/out.xlsx") None Sample.octet Sample.bin_payload)
         Sample.w0)
  = Server.Replied (Server.send_text 500 "Save failed: conversion error").
Proof. repeat split; vm_compute; reflexivity. Qed.
(* ===================================================================== *)
(** ** Paths in normal form *)
(* ===================================================================== *)

Section PathTheory.
Import Str Path Norm.

Lemma str_chars s : str (chars s) = s.
Proof. apply string_of_list_ascii_of_string. Qed.

Lemma chars_of_str l : chars (str l) = l.
Proof. apply list_ascii_of_string_of_list_ascii. Qed.

Lemma str_app a b : str (a ++ b) = str a +:+ str b.
Proof.
  rewrite <- (str_chars (str a +:+ str b)), chars_append, !chars_of_str. reflexivity.
Qed.

Lemma seg_is_iff s t : seg_is s t = true <-> s = chars t.
Proof.
  unfold seg_is. rewrite String.eqb_eq. split.
  - intros <-. symmetry. apply chars_of_str.
  - intros ->. apply str_chars.
Qed.

Lemma split_on_nonempty sep l : split_on sep l <> [].
Proof.
  induction l as [|c l IH]; cbn; [discriminate|].
  destruct (Ascii.eqb c sep); [discriminate|].
  destruct (split_on sep l); [contradiction|discriminate].
Qed.

Lemma split_on_app sep a b :
  split_on sep (a ++ sep :: b) = split_on sep a ++ split_on sep b.
Proof.
  induction a as [|c a IH]; cbn.
  - rewrite Ascii.eqb_refl. reflexivity.
  - destruct (Ascii.eqb c sep); [rewrite IH; reflexivity|].
    rewrite IH. destruct (split_on sep a) as [|x xs] eqn:E.
    + exfalso. exact (split_on_nonempty _ _ E).
    + reflexivity.
Qed.

Lemma split_on_no_sep s : forallb not_sep s = true -> split_on slash s = [s].
Proof.
  induction s as [|c s IH]; cbn; [reflexivity|].
  intros H. apply andb_prop in H as [Hc Hs].
  unfold not_sep, is_sep in Hc. apply negb_true_iff in Hc. rewrite Hc.
  rewrite (IH Hs). reflexivity.
Qed.

Lemma clean_no_sep s : clean_seg s = true -> forallb not_sep s = true.
Proof. unfold clean_seg. intros H. apply andb_prop in H as [_ H]. exact H. Qed.

Lemma split_on_join_with segs :
  segs <> [] -> Forall (fun s => clean_seg s = true) segs ->
  split_on slash (join_with [slash] segs) = segs.
Proof.
  induction segs as [|s segs IH]; [contradiction|].
  intros _ H. inversion H as [|? ? Hs Hrest]; subst.
  destruct segs as [|s' segs'].
  - cbn. apply split_on_no_sep, clean_no_sep, Hs.
  - change (join_with [slash] (s :: s' :: segs'))
      with (s ++ [slash] ++ join_with [slash] (s' :: segs')).
    cbn [app]. rewrite split_on_app. rewrite IH by (discriminate || exact Hrest).
    rewrite split_on_no_sep by (apply clean_no_sep, Hs). reflexivity.
Qed.

Lemma step_clean allow acc s :
  clean_seg s = true -> normalize_step allow acc s = s :: acc.
Proof.
  unfold clean_seg, normalize_step. intros H.
  repeat (apply andb_prop in H as [H ?]).
  apply negb_true_iff in H. rewrite H.
  match goal with H1 : negb (seg_is s ".") = true |- _ => apply negb_true_iff in H1; rewrite H1 end.
  match goal with H1 : negb (seg_is s "..") = true |- _ => apply negb_true_iff in H1; rewrite H1 end.
  reflexivity.
Qed.

Lemma fold_clean allow segs acc :
  Forall (fun s => clean_seg s = true) segs ->
  fold_left (normalize_step allow) segs acc = rev segs ++ acc.
Proof.
  revert acc. induction segs as [|s segs IH]; intros acc H; [reflexivity|].
  inversion H; subst. cbn [fold_left]. rewrite step_clean by assumption.
  rewrite IH by assumption. cbn [rev]. rewrite <- app_assoc. reflexivity.
Qed.

(** Every component kept by the normalisation of an absolute path is clean. *)
Lemma step_false_clean acc s :
  forallb not_sep s = true ->
  Forall (fun s => clean_seg s = true) acc ->
  Forall (fun s => clean_seg s = true) (normalize_step false acc s).
Proof.
  intros Hs Hacc. unfold normalize_step.
  destruct (seg_is s "") eqn:E1; [exact Hacc|].
  destruct (seg_is s ".") eqn:E2; [exact Hacc|]. cbn [orb].
  destruct (seg_is s "..") eqn:E3.
  - destruct acc as [|top below]; [constructor|].
    destruct (seg_is top ".."); [exact Hacc|]. inversion Hacc; assumption.
  - constructor; [|exact Hacc]. unfold clean_seg. rewrite E1, E2, E3, Hs. reflexivity.
Qed.

Lemma split_on_pieces_no_sep l :
  Forall (fun s => forallb not_sep s = true) (split_on slash l).
Proof.
  induction l as [|c l IH]; cbn.
  - constructor; [reflexivity|constructor].
  - destruct (Ascii.eqb c slash) eqn:E.
    + constructor; [reflexivity|exact IH].
    + destruct (split_on slash l) as [|x xs]; [repeat constructor; cbn; unfold not_sep, is_sep; rewrite E; reflexivity|].
      inversion IH; subst. constructor; [|assumption].
      cbn. unfold not_sep at 1, is_sep. rewrite E. cbn. assumption.
Qed.

Lemma fold_false_clean segs acc :
  Forall (fun s => forallb not_sep s = true) segs ->
  Forall (fun s => clean_seg s = true) acc ->
  Forall (fun s => clean_seg s = true) (fold_left (normalize_step false) segs acc).
Proof.
  revert acc. induction segs as [|s segs IH]; intros acc Hs Hacc; [exact Hacc|].
  inversion Hs; subst. cbn [fold_left]. apply IH; [assumption|].
  apply step_false_clean; assumption.
Qed.

Lemma segments_clean p : Forall (fun s => clean_seg s = true) (segments p).
Proof.
  unfold segments. apply Forall_rev. apply fold_false_clean; [|constructor].
  apply split_on_pieces_no_sep.
Qed.


Lemma clean_nonempty s : clean_seg s = true -> s <> [].
Proof. intros H ->. discriminate H. Qed.

Lemma join_with_nil_iff segs : all_clean segs -> join_with [slash] segs = [] -> segs = [].
Proof.
  intros H E. destruct segs as [|s segs]; [reflexivity|exfalso].
  inversion H; subst. destruct s as [|c s]; [discriminate|].
  destruct segs; cbn in E; discriminate.
Qed.

Lemma join_with_cons s segs :
  segs <> [] -> join_with [slash] (s :: segs) = s ++ slash :: join_with [slash] segs.
Proof. destruct segs; [contradiction|reflexivity]. Qed.

Lemma join_with_snoc segs x :
  segs <> [] -> join_with [slash] (segs ++ [x]) = join_with [slash] segs ++ slash :: x.
Proof.
  induction segs as [|s segs IH]; [contradiction|]. intros _.
  destruct segs as [|s' segs'].
  - reflexivity.
  - change ((s :: s' :: segs') ++ [x]) with (s :: ((s' :: segs') ++ [x])).
    rewrite join_with_cons by (destruct segs'; discriminate).
    rewrite IH by discriminate.
    rewrite (join_with_cons s (s' :: segs')) by discriminate.
    rewrite <- app_assoc. reflexivity.
Qed.

(** The normal form of an absolute path. *)
Lemma normalize_absolute p :
  posix_absolute p = true ->
  normalize p =
    match segments p with
    | [] => "/"
    | _ => if trailing p then render (segments p) +:+ "/" else render (segments p)
    end.
Proof.
  unfold posix_absolute, normalize, trailing.
  destruct (chars p) as [|c0 rest] eqn:E; [discriminate|]. intros Habs. rewrite Habs.
  cbn [negb]. unfold normalize_segments. fold (segments p) in *.
  assert (Hseg : rev (fold_left (normalize_step false) (split_on slash (c0 :: rest)) [])
                 = segments p) by (unfold segments; rewrite E; reflexivity).
  rewrite Hseg. pose proof (segments_clean p) as Hc.
  destruct (segments p) as [|s segs] eqn:Es; [reflexivity|].
  destruct (join_with [slash] (s :: segs)) eqn:Ej.
  - apply join_with_nil_iff in Ej; [discriminate|exact Hc].
  - rewrite <- Ej. destruct (match rev (c0 :: rest) with [] => false | c :: _ => is_sep c end).
    + unfold render. change (slash :: join_with [slash] (s :: segs) ++ [slash]) with ((slash :: join_with [slash] (s :: segs)) ++ [slash]). rewrite str_app. reflexivity.
    + reflexivity.
Qed.

Lemma segments_app d x :
  segments (d +:+ "/" +:+ x) =
  rev (fold_left (normalize_step false) (split_on slash (chars x)) (rev (segments d))).
Proof.
  unfold segments. rewrite !chars_append. cbn [chars list_ascii_of_string app].
  change (list_ascii_of_string x) with (chars x).
  change ("/"%char) with slash.
  rewrite split_on_app, fold_left_app, rev_involutive. reflexivity.
Qed.

Lemma segments_app_clean d names :
  all_clean names -> names <> [] ->
  segments (d +:+ "/" +:+ str (join_with [slash] names)) = segments d ++ names.
Proof.
  intros Hc Hne. rewrite segments_app, chars_of_str, split_on_join_with by assumption.
  rewrite fold_clean by exact Hc. rewrite rev_app_distr, !rev_involutive. reflexivity.
Qed.

Lemma segments_render segs : all_clean segs -> segments (render segs) = segs.
Proof.
  intros Hc. unfold segments, render. rewrite chars_of_str.
  change (slash :: join_with [slash] segs) with ([] ++ slash :: join_with [slash] segs).
  rewrite split_on_app. cbn [split_on app fold_left].
  change (normalize_step false [] []) with (@nil (list ascii)).
  destruct segs as [|s segs'].
  - reflexivity.
  - rewrite split_on_join_with by (discriminate || exact Hc).
    rewrite fold_clean by exact Hc. rewrite app_nil_r. apply rev_involutive.
Qed.

Lemma posix_absolute_render segs : posix_absolute (render segs) = true.
Proof. unfold posix_absolute, render. rewrite chars_of_str. reflexivity. Qed.


Lemma clean_ends s : clean_seg s = true -> exists pre c, s = pre ++ [c] /\ is_sep c = false.
Proof.
  intros H. pose proof (clean_no_sep _ H) as Hn. pose proof (clean_nonempty _ H) as Hne.
  destruct (exists_last Hne) as (pre & c & ->). exists pre, c. split; [reflexivity|].
  rewrite forallb_app in Hn. apply andb_prop in Hn as [_ Hc]. cbn in Hc.
  rewrite andb_true_r in Hc. unfold not_sep in Hc. apply negb_true_iff in Hc. exact Hc.
Qed.

Lemma join_with_ends names :
  names <> [] -> all_clean names ->
  exists pre c, join_with [slash] names = pre ++ [c] /\ is_sep c = false.
Proof.
  intros Hne Hc. destruct (exists_last Hne) as (names' & x & ->).
  apply Forall_app in Hc as [Hc' Hx]. inversion Hx as [|? ? Hx' _]; subst.
  destruct (clean_ends x Hx') as (pre & c & -> & Hsep).
  destruct names' as [|n names''].
  - exists pre, c. split; [reflexivity|exact Hsep].
  - rewrite join_with_snoc by discriminate.
    exists (join_with [slash] (n :: names'') ++ slash :: pre), c.
    split; [|exact Hsep]. rewrite <- app_assoc. reflexivity.
Qed.

Lemma trailing_clean d names :
  names <> [] -> all_clean names ->
  trailing (d +:+ "/" +:+ str (join_with [slash] names)) = false.
Proof.
  intros Hne Hc. unfold trailing. rewrite !chars_append, chars_of_str.
  destruct (join_with_ends names Hne Hc) as (pre & c & -> & Hsep).
  rewrite !app_assoc, rev_app_distr. cbn [rev app]. exact Hsep.
Qed.

Lemma filter_nonempty_clean (names : list string) :
  Forall (fun s => clean_name s = true) names ->
  filter (fun s => negb (String.eqb s "")) names = names.
Proof.
  induction 1 as [|s names Hs _ IH]; [reflexivity|].
  rewrite filter_cons_True by (destruct s; [discriminate Hs|exact I]).
  rewrite IH. reflexivity.
Qed.

(** Joining clean names onto an absolute directory appends them to its
    components. *)
Lemma join_absolute d (names : list string) :
  posix_absolute d = true ->
  names <> [] -> Forall (fun s => clean_name s = true) names ->
  Path.join (d :: names) = render (segments d ++ map chars names).
Proof.
  intros Habs Hne Hc. unfold Path.join.
  assert (Hf : filter (fun s => negb (String.eqb s "")) (d :: names) = d :: names).
  { rewrite filter_cons_True by (destruct d; [discriminate Habs|exact I]).
    rewrite filter_nonempty_clean by exact Hc. reflexivity. }
  rewrite Hf.
  assert (Hc' : all_clean (map chars names)).
  { unfold all_clean. apply Forall_map. exact Hc. }
  assert (Hne' : map chars names <> []) by (destruct names; [contradiction|discriminate]).
  assert (Hraw : str (join_with [slash] (map chars (d :: names)))
                 = d +:+ "/" +:+ str (join_with [slash] (map chars names))).
  { cbn [map]. rewrite join_with_cons by exact Hne'.
    rewrite str_app, str_chars.
    change (slash :: join_with [slash] (map chars names))
      with ([slash] ++ join_with [slash] (map chars names)).
    rewrite str_app. reflexivity. }
  rewrite Hraw. rewrite normalize_absolute
    by (destruct d; [discriminate Habs|exact Habs]).
  rewrite segments_app_clean by assumption.
  rewrite trailing_clean by assumption.
  destruct (segments d ++ map chars names) eqn:E; [|reflexivity].
  apply app_eq_nil in E as [_ E]. contradiction.
Qed.

Lemma join_render segs (names : list string) :
  all_clean segs ->
  names <> [] -> Forall (fun s => clean_name s = true) names ->
  Path.join (render segs :: names) = render (segs ++ map chars names).
Proof.
  intros Hs Hne Hc. rewrite join_absolute by (apply posix_absolute_render || assumption).
  rewrite segments_render by exact Hs. reflexivity.
Qed.

Lemma drop_while_not_sep_app s rest :
  forallb not_sep s = true ->
  drop_while not_sep (s ++ slash :: rest) = slash :: rest.
Proof.
  induction s as [|c s IH]; cbn; [reflexivity|].
  intros H. apply andb_prop in H as [Hc Hs]. rewrite Hc. apply IH, Hs.
Qed.

Lemma drop_while_not_sep_all s :
  forallb not_sep s = true -> drop_while not_sep s = [].
Proof.
  induction s as [|c s IH]; cbn; [reflexivity|].
  intros H. apply andb_prop in H as [Hc Hs]. rewrite Hc. apply IH, Hs.
Qed.

Lemma take_while_not_sep_app s rest :
  forallb not_sep s = true ->
  take_while not_sep (s ++ slash :: rest) = s.
Proof.
  induction s as [|c s IH]; cbn; [reflexivity|].
  intros H. apply andb_prop in H as [Hc Hs]. rewrite Hc, IH by exact Hs. reflexivity.
Qed.

Lemma take_while_not_sep_all s :
  forallb not_sep s = true -> take_while not_sep s = s.
Proof.
  induction s as [|c s IH]; cbn; [reflexivity|].
  intros H. apply andb_prop in H as [Hc Hs]. rewrite Hc, IH by exact Hs. reflexivity.
Qed.

Lemma forallb_rev {A} (f : A -> bool) l : forallb f (rev l) = forallb f l.
Proof.
  induction l as [|a l IH]; [reflexivity|]. cbn. rewrite forallb_app, IH. cbn.
  rewrite andb_true_r. apply andb_comm.
Qed.

(** The parent of a rendered path is the rendering of all but its last
    component. *)
Lemma dirname_render segs x :
  all_clean segs -> clean_seg x = true ->
  Path.dirname (render (segs ++ [x])) = render segs.
Proof.
  intros Hs Hx. unfold Path.dirname, render. rewrite chars_of_str.
  change (is_sep slash) with true. cbn [andb].
  pose proof (clean_no_sep _ Hx) as Hn.
  destruct (clean_ends x Hx) as (pre & c & Ex & Hsep).
  assert (Hrx : forallb not_sep (rev x) = true) by (rewrite forallb_rev; exact Hn).
  assert (Hdrop : forall l, drop_while is_sep (rev x ++ l) = rev x ++ l).
  { intros l. rewrite Ex, rev_app_distr. cbn. rewrite Hsep. reflexivity. }
  destruct segs as [|s segs'].
  - cbn [app join_with]. rewrite <- (app_nil_r (rev x)), Hdrop, app_nil_r.
    rewrite drop_while_not_sep_all by exact Hrx. reflexivity.
  - rewrite join_with_snoc by discriminate. rewrite rev_app_distr. cbn [rev].
    rewrite <- app_assoc. cbn [app]. rewrite Hdrop.
    rewrite drop_while_not_sep_app by exact Hrx.
    rewrite rev_involutive.
    destruct (join_with [slash] (s :: segs')) eqn:Ej.
    + apply join_with_nil_iff in Ej; [discriminate|exact Hs].
    + rewrite length_rev. cbn [length Nat.eqb]. reflexivity.
Qed.

Lemma basename_render segs x :
  all_clean segs -> clean_seg x = true ->
  Path.basename (render (segs ++ [x])) = str x.
Proof.
  intros Hs Hx. unfold Path.basename, last_component, render. rewrite chars_of_str.
  pose proof (clean_no_sep _ Hx) as Hn.
  destruct (clean_ends x Hx) as (pre & c & Ex & Hsep).
  assert (Hrx : forallb not_sep (rev x) = true) by (rewrite forallb_rev; exact Hn).
  assert (Hdrop : forall l, drop_while is_sep (rev x ++ l) = rev x ++ l).
  { intros l. rewrite Ex, rev_app_distr. cbn. rewrite Hsep. reflexivity. }
  f_equal.
  destruct segs as [|s segs'].
  - cbn [app join_with rev]. rewrite Hdrop.
    rewrite take_while_not_sep_app by exact Hrx. apply rev_involutive.
  - rewrite join_with_snoc by discriminate. cbn [rev]. rewrite rev_app_distr. cbn [rev].
    rewrite <- !app_assoc. cbn [app]. rewrite Hdrop.
    rewrite take_while_not_sep_app by exact Hrx. apply rev_involutive.
Qed.


Lemma rev_case {A} (l : list A) : l = [] \/ exists l' x, l = l' ++ [x].
Proof. induction l using rev_ind; eauto. Qed.

Lemma render_inj a b : all_clean a -> all_clean b -> render a = render b -> a = b.
Proof.
  intros Ha Hb E. rewrite <- (segments_render a Ha), <- (segments_render b Hb), E.
  reflexivity.
Qed.

Lemma all_clean_firstn k segs : all_clean segs -> all_clean (firstn k segs).
Proof. unfold all_clean. intros H. apply Forall_take. exact H. Qed.

Lemma dirname_root : Path.dirname "/" = "/".
Proof. reflexivity. Qed.

(** The ancestors of a rendered path are the renderings of its prefixes. *)
Lemma ancestors_fuel_render n segs a :
  all_clean segs ->
  In a (Path.ancestors_fuel n (render segs)) ->
  exists k, a = render (firstn k segs).
Proof.
  revert segs. induction n as [|n IH]; intros segs Hc Hin.
  - destruct Hin as [<-|[]]. exists (length segs). rewrite firstn_all. reflexivity.
  - cbn [Path.ancestors_fuel] in Hin.
    destruct (String.eqb (Path.dirname (render segs)) (render segs)).
    + destruct Hin as [<-|[]]. exists (length segs). rewrite firstn_all. reflexivity.
    + destruct Hin as [<-|Hin]; [exists (length segs); rewrite firstn_all; reflexivity|].
      destruct (rev_case segs) as [->|(segs' & x & ->)].
      * change (render []) with "/" in Hin. rewrite dirname_root in Hin.
        change "/" with (render []) in Hin.
        destruct (IH [] Hc Hin) as (k & ->). exists k. destruct k; reflexivity.
      * apply Forall_app in Hc as [Hc' Hx]. inversion Hx; subst.
        rewrite dirname_render in Hin by assumption.
        destruct (IH segs' Hc' Hin) as (k & ->).
        exists (Nat.min k (length segs')).
        rewrite firstn_app.
        destruct (Nat.le_ge_cases k (length segs')) as [Hle|Hge].
        -- rewrite Nat.min_l by exact Hle.
           replace (k - length segs')%nat with 0%nat by lia. cbn [firstn].
           rewrite app_nil_r. reflexivity.
        -- rewrite Nat.min_r by exact Hge. rewrite Nat.sub_diag. cbn [firstn].
           rewrite app_nil_r, !firstn_all2 by lia. reflexivity.
Qed.

(** A path below [d] is none of the ancestors of [d]. *)
Lemma below_not_ancestor segs x a :
  all_clean segs -> clean_seg x = true ->
  In a (Path.ancestors (render segs)) -> a <> render (segs ++ [x]).
Proof.
  intros Hc Hx Hin E. destruct (ancestors_fuel_render _ _ _ Hc Hin) as (k & ->).
  apply render_inj in E.
  - apply (f_equal (@length _)) in E. rewrite length_app, length_firstn in E. cbn in E. lia.
  - apply all_clean_firstn, Hc.
  - apply Forall_app. split; [exact Hc|]. constructor; [exact Hx|constructor].
Qed.

End PathTheory.

(* ===================================================================== *)
(** ** Relations kept by every step of a request *)
(* ===================================================================== *)

Section Steps.
Import Fs Server Norm Step.

Variable R : world -> world -> Prop.
Hypothesis R_refl : forall w, R w w.
Hypothesis R_trans : forall a b c, R a b -> R b c -> R a c.
Hypothesis R_log : forall ev w, R w (log ev w).

Lemma steps_ret {A} (a : A) (Q : A -> Prop) : Q a -> steps R (ret a) Q.
Proof. intros H w. split; [apply R_refl|]. intros a' E. injection E as <-. exact H. Qed.

Lemma steps_throw {A} (e : exn) (Q : A -> Prop) : steps R (throw e) Q.
Proof. intros w. split; [apply R_refl|]. intros a E. discriminate E. Qed.

Lemma steps_bind {A B} (m : M A) (k : A -> M B) (Q : B -> Prop) :
  steps R m whatever -> (forall a, steps R (k a) Q) -> steps R (bind m k) Q.
Proof.
  intros Hm Hk w. unfold bind. destruct (Hm w) as [He _].
  destruct (m w) as [[a|e] w1] eqn:E; cbn [fst snd] in *.
  - destruct (Hk a w1) as [He2 HQ]. split; [eapply R_trans; eassumption|exact HQ].
  - split; [exact He|]. intros a H. discriminate.
Qed.

Lemma steps_try_catch {A} (m : M A) (h : exn -> M A) (Q : A -> Prop) :
  steps R m Q -> (forall e, steps R (h e) Q) -> steps R (try_catch m h) Q.
Proof.
  intros Hm Hh w. unfold try_catch. destruct (Hm w) as [He HQ].
  destruct (m w) as [[a|e] w1] eqn:E; cbn [fst snd] in *.
  - split; [exact He|exact HQ].
  - destruct (Hh e w1) as [He2 HQ2]. split; [eapply R_trans; eassumption|exact HQ2].
Qed.

Lemma steps_existsSync p : steps R (existsSync p) whatever.
Proof. intros w. split; [apply R_log|]. intros; exact I. Qed.

Lemma steps_statSync p : steps R (statSync p) whatever.
Proof.
  intros w. unfold statSync. destruct (files w !! p); (split; [apply R_log|]); intros; exact I.
Qed.

Lemma steps_readFileSync p : steps R (readFileSync p) whatever.
Proof.
  intros w. unfold readFileSync.
  destruct (files w !! p) as [[?|?]|]; (split; [apply R_log|]); intros; exact I.
Qed.

Lemma steps_readdirSync p : steps R (Routes.readdirSync p) whatever.
Proof.
  intros w. unfold Routes.readdirSync.
  destruct (files w !! p) as [[?|?]|]; (split; [apply R_log|]); intros; exact I.
Qed.

Lemma steps_spawn c a : steps R (spawn c a) whatever.
Proof. intros w. split; [apply R_log|]. intros; exact I. Qed.

Lemma steps_timestamp iso : steps R (timestamp iso) whatever.
Proof. intros w. split; [apply R_refl|]. intros; exact I. Qed.

Lemma steps_date_now : steps R DocServer.date_now whatever.
Proof. intros w. split; [apply R_refl|]. intros; exact I. Qed.

(** A change of the tree followed by its entry in the trace. *)
Lemma R_set_log m' ev w : R w (set_files m' w) -> R w (set_files m' (log ev w)).
Proof. intros H. eapply R_trans; [exact H|]. exact (R_log ev (set_files m' w)). Qed.

(** The run of the child process and of its listeners. *)
Variable allowed : list (string * list Byte.byte) -> Prop.
Hypothesis R_writes :
  forall w ws, allowed ws -> R w (set_files (apply_writes (now w) ws (files w)) w).

Lemma settle_steps (x2t : converter) c w :
  (forall cmd argv m, allowed (writes (x2t cmd argv m))) ->
  listeners_step R c -> R w (snd (settle x2t c w)).
Proof.
  intros Hx [Hclose Herr]. unfold settle.
  set (run := x2t (command c) (args c) (files w)).
  assert (Hran : R w (snd (finish (close_listener c (close_code (outcome run))
                     (stdout run) (stderr run)
                     (set_files (apply_writes (now w) (writes run) (files w)) w))))).
  { rewrite finish_snd. eapply R_trans; [apply R_writes, Hx|apply Hclose]. }
  destruct (outcome run) as [e|code|sig] eqn:Ho; [|exact Hran|exact Hran].
  destruct (error_listener c) as [f|] eqn:Hf; [|apply R_refl].
  destruct (Herr f e eq_refl w) as [He _].
  destruct (has_stdio e); [|exact He].
  destruct (f e w) as [[u|x] w1]; cbn [fst snd] in *; [|exact He].
  rewrite finish_snd. eapply R_trans; [exact He|apply Hclose].
Qed.

Lemma serve_steps (x2t : converter) (h : M pending) w :
  (forall cmd argv m, allowed (writes (x2t cmd argv m))) ->
  steps R h (pending_steps R) -> R w (snd (serve x2t h w)).
Proof.
  intros Hx Hk. unfold serve. destruct (Hk w) as [He HQ].
  destruct (h w) as [[[r|c]|e] w1]; cbn [fst snd] in *; try exact He.
  eapply R_trans; [exact He|]. apply settle_steps; [exact Hx|]. exact (HQ _ eq_refl).
Qed.

End Steps.

Section Survive.
Import Fs Server Norm Step.

Variable W : string -> Prop.

Lemma survive_refl w : survive W w w.
Proof. split; [reflexivity|]. intros; assumption. Qed.

Lemma survive_trans a b c : survive W a b -> survive W b c -> survive W a c.
Proof.
  intros [Hn1 H1] [Hn2 H2]. split; [congruence|].
  intros q n Hq Hl. apply H2; [exact Hq|]. apply H1; assumption.
Qed.

Lemma survive_log ev w : survive W w (log ev w).
Proof. split; [reflexivity|]. intros; assumption. Qed.

Lemma survive_write p d t (m m' : gmap string node) q n :
  write_node p d t m = inr m' -> q <> p -> m !! q = Some n -> m' !! q = Some n.
Proof.
  unfold write_node. intros H Hne Hq.
  destruct (m !! p) as [[?|?]|]; try discriminate;
    destruct (m !! Path.dirname p) as [[?|?]|]; try discriminate;
    injection H as <-; rewrite lookup_insert_ne by congruence; exact Hq.
Qed.

Lemma survive_writeFileSync p d : W p -> steps (survive W) (writeFileSync p d) whatever.
Proof.
  intros Hp w. unfold writeFileSync.
  destruct (write_node p d (now w) (files w)) as [e|m'] eqn:E; cbn [fst snd].
  - split; [apply survive_log|]. intros; exact I.
  - split; [|intros; exact I]. split; [reflexivity|].
    intros q n Hq Hl. cbn [files set_files log].
    eapply survive_write; [exact E| |exact Hl]. intros ->. contradiction.
Qed.

Lemma survive_unlinkSync p : W p -> steps (survive W) (unlinkSync p) whatever.
Proof.
  intros Hp w. unfold unlinkSync.
  destruct (files w !! p) as [[t d|t]|] eqn:E; cbn [fst snd];
    (split; [|intros; exact I]); try apply survive_log.
  split; [reflexivity|]. intros q n Hq Hl. cbn [files set_files log].
  rewrite lookup_delete_ne; [exact Hl|]. intros ->. contradiction.
Qed.

Lemma survive_mkdirSync_recursive p : steps (survive W) (mkdirSync_recursive p) whatever.
Proof.
  intros w. unfold mkdirSync_recursive.
  destruct (is_file (files w) p); [|destruct (existsb _ _)]; cbn [fst snd];
    (split; [|intros; exact I]); try apply survive_log.
  split; [reflexivity|]. intros q n Hq Hl. cbn [files set_files log].
  rewrite mkdir_chain_lookup, Hl. reflexivity.
Qed.


End Survive.

Section Timely.
Import Fs Server Norm Step.

Lemma stays_timely_refl w : stays_timely w w.
Proof. split; [reflexivity|]. trivial. Qed.

Lemma stays_timely_trans a b c : stays_timely a b -> stays_timely b c -> stays_timely a c.
Proof. intros [Hn1 H1] [Hn2 H2]. split; [congruence|]. auto. Qed.

Lemma stays_timely_log ev w : stays_timely w (log ev w).
Proof. split; [reflexivity|]. trivial. Qed.

Lemma timely_set (m' : gmap string node) w :
  (forall q n, m' !! q = Some n -> files w !! q = Some n \/ mtime (stat_of n) = now w) ->
  stays_timely w (set_files m' w).
Proof.
  intros H. split; [reflexivity|]. intros Ht q n Hl. cbn [files set_files now] in *.
  destruct (H q n Hl) as [Hold | ->]; [exact (Ht q n Hold)|lia].
Qed.

Lemma write_node_stamp p d t (m m' : gmap string node) q n :
  write_node p d t m = inr m' -> m' !! q = Some n ->
  m !! q = Some n \/ mtime (stat_of n) = t.
Proof.
  unfold write_node. intros H Hl.
  assert (Hins : <[p := File t d]> m !! q = Some n -> m !! q = Some n \/ mtime (stat_of n) = t).
  { destruct (decide (p = q)) as [->|Hne].
    - rewrite lookup_insert_eq. intros E. injection E as <-. right. reflexivity.
    - rewrite lookup_insert_ne by exact Hne. tauto. }
  destruct (m !! p) as [[?|?]|]; try discriminate;
    destruct (m !! Path.dirname p) as [[?|?]|]; try discriminate;
    injection H as <-; exact (Hins Hl).
Qed.

Lemma timely_writeFileSync p d : steps stays_timely (writeFileSync p d) whatever.
Proof.
  intros w. unfold writeFileSync.
  destruct (write_node p d (now w) (files w)) as [e|m'] eqn:E; cbn [fst snd].
  - split; [apply stays_timely_log|]. intros; exact I.
  - split; [|intros; exact I].
    eapply stays_timely_trans; [apply (stays_timely_log (EvWrite p))|].
    apply (timely_set m' (log (EvWrite p) w)). intros q n Hl.
    eapply write_node_stamp; eassumption.
Qed.

Lemma timely_unlinkSync p : steps stays_timely (unlinkSync p) whatever.
Proof.
  intros w. unfold unlinkSync.
  destruct (files w !! p) as [[t d|t]|] eqn:E; cbn [fst snd];
    (split; [|intros; exact I]); try apply stays_timely_log.
  eapply stays_timely_trans; [apply (stays_timely_log (EvUnlink p))|].
  apply (timely_set _ (log (EvUnlink p) w)). intros q n Hl. left.
  cbn [files log]. destruct (decide (p = q)) as [->|Hne].
  - rewrite lookup_delete_eq in Hl. discriminate.
  - rewrite lookup_delete_ne in Hl by exact Hne. exact Hl.
Qed.

Lemma timely_mkdirSync_recursive p : steps stays_timely (mkdirSync_recursive p) whatever.
Proof.
  intros w. unfold mkdirSync_recursive.
  destruct (is_file (files w) p); [|destruct (existsb _ _)]; cbn [fst snd];
    (split; [|intros; exact I]); try apply stays_timely_log.
  eapply stays_timely_trans; [apply (stays_timely_log (EvMkdir p))|].
  apply (timely_set _ (log (EvMkdir p) w)). intros q n Hl.
  rewrite mkdir_chain_lookup in Hl. cbn [files log now] in *.
  destruct (files w !! q) as [x|]; [left; exact Hl|].
  destruct (existsb _ _); [|discriminate]. injection Hl as <-. right. reflexivity.
Qed.

Lemma apply_writes_stamp t ws (m : gmap string node) q n :
  apply_writes t ws m !! q = Some n -> m !! q = Some n \/ mtime (stat_of n) = t.
Proof.
  unfold apply_writes. revert m.
  induction ws as [|[p d] ws IH]; intros m Hl; cbn [fold_left fst snd] in Hl.
  - left. exact Hl.
  - destruct (write_node p d t m) as [e|m'] eqn:E; [apply IH; exact Hl|].
    destruct (IH _ Hl) as [Hm'|Ht]; [|right; exact Ht].
    eapply write_node_stamp; eassumption.
Qed.

Lemma timely_apply_writes w ws :
  stays_timely w (set_files (apply_writes (now w) ws (files w)) w).
Proof. apply timely_set. intros q n. apply apply_writes_stamp. Qed.

End Timely.

Section Unchanged.
Import Fs Step.

Lemma unchanged_refl w : unchanged w w.
Proof. split; reflexivity. Qed.

Lemma unchanged_trans a b c : unchanged a b -> unchanged b c -> unchanged a c.
Proof. intros [H1 H2] [H3 H4]. split; congruence. Qed.

Lemma unchanged_log ev w : unchanged w (log ev w).
Proof. split; reflexivity. Qed.

End Unchanged.

Section DirsFrom.
Import Fs Server Norm Step.

Variable D : string.

Lemma dirs_from_refl w : dirs_from D w w.
Proof. intros q H. left. exact H. Qed.

Lemma dirs_from_trans a b c : dirs_from D a b -> dirs_from D b c -> dirs_from D a c.
Proof.
  intros H1 H2 q Hq. destruct (H2 q Hq) as [Hb|Hin]; [apply H1, Hb|right; exact Hin].
Qed.

Lemma dirs_from_log ev w : dirs_from D w (log ev w).
Proof. intros q H. left. exact H. Qed.

Lemma is_dir_write p d t (m m' : gmap string node) q :
  write_node p d t m = inr m' -> is_dir m' q = true -> is_dir m q = true.
Proof.
  unfold write_node, is_dir. intros H.
  assert (Hins : match <[p := File t d]> m !! q with Some (Dir _) => true | _ => false end
                 = true ->
                 match m !! q with Some (Dir _) => true | _ => false end = true).
  { destruct (decide (p = q)) as [->|Hne].
    - rewrite lookup_insert_eq. discriminate.
    - rewrite lookup_insert_ne by exact Hne. trivial. }
  destruct (m !! p) as [[?|?]|]; try discriminate;
    destruct (m !! Path.dirname p) as [[?|?]|]; try discriminate;
    injection H as <-; exact Hins.
Qed.

Lemma dirs_from_writeFileSync p d : steps (dirs_from D) (writeFileSync p d) whatever.
Proof.
  intros w. unfold writeFileSync.
  destruct (write_node p d (now w) (files w)) as [e|m'] eqn:E; cbn [fst snd].
  - split; [apply dirs_from_log|]. intros; exact I.
  - split; [|intros; exact I]. intros q Hq. left. cbn [files set_files log] in Hq.
    eapply is_dir_write; eassumption.
Qed.

Lemma dirs_from_unlinkSync p : steps (dirs_from D) (unlinkSync p) whatever.
Proof.
  intros w. unfold unlinkSync.
  destruct (files w !! p) as [[t d|t]|] eqn:E; cbn [fst snd];
    (split; [|intros; exact I]); try apply dirs_from_log.
  intros q Hq. left. unfold is_dir in *. cbn [files set_files log] in Hq.
  destruct (decide (p = q)) as [->|Hne].
  - rewrite lookup_delete_eq in Hq. discriminate Hq.
  - rewrite lookup_delete_ne in Hq by exact Hne. exact Hq.
Qed.

Lemma dirs_from_mkdirSync_recursive : steps (dirs_from D) (mkdirSync_recursive D) whatever.
Proof.
  intros w. unfold mkdirSync_recursive.
  destruct (is_file (files w) D); [|destruct (existsb _ _)]; cbn [fst snd];
    (split; [|intros; exact I]); try apply dirs_from_log.
  intros q Hq. unfold is_dir in *. cbn [files set_files log] in Hq.
  rewrite mkdir_chain_lookup in Hq.
  destruct (files w !! q) as [n|]; [left; exact Hq|]. right.
  destruct (existsb (String.eqb q) (Path.ancestors D)) eqn:Hin; [|discriminate Hq].
  apply existsb_exists in Hin as (a & Ha & Eq). apply String.eqb_eq in Eq. subst a.
  exact Ha.
Qed.

Lemma dirs_from_apply_writes w ws :
  dirs_from D w (set_files (apply_writes (now w) ws (files w)) w).
Proof.
  intros q. cbn [files set_files]. unfold apply_writes.
  generalize (files w) as m.
  induction ws as [|[p d] ws IH]; intros m Hq; cbn [fold_left fst snd] in Hq;
    [left; exact Hq|].
  destruct (IH _ Hq) as [Hd|Hin]; [|right; exact Hin]. left.
  destruct (write_node p d (now w) m) as [e|m'] eqn:E; [exact Hd|].
  eapply is_dir_write; eassumption.
Qed.

End DirsFrom.

Ltac rel_side :=
  solve [ intros;
          first [ apply survive_refl | apply survive_log
                | apply stays_timely_refl | apply stays_timely_log
                | apply unchanged_refl | apply unchanged_log
                | apply dirs_from_refl | apply dirs_from_log
                | eapply dirs_from_trans; eassumption
                | eapply survive_trans; eassumption
                | eapply stays_timely_trans; eassumption
                | eapply unchanged_trans; eassumption ] ].

Ltac steps_go :=
  first
    [ apply steps_existsSync; rel_side
    | apply steps_statSync; rel_side
    | apply steps_readFileSync; rel_side
    | apply steps_readdirSync; rel_side
    | apply steps_spawn; rel_side
    | apply steps_timestamp; rel_side
    | apply steps_date_now; rel_side
    | apply dirs_from_mkdirSync_recursive
    | apply dirs_from_writeFileSync
    | apply dirs_from_unlinkSync
    | apply survive_mkdirSync_recursive
    | apply timely_mkdirSync_recursive
    | apply timely_writeFileSync
    | apply timely_unlinkSync
    | apply survive_writeFileSync
    | apply survive_unlinkSync
    | apply steps_ret; [rel_side|try exact I]
    | apply steps_throw; rel_side
    | apply steps_try_catch; [rel_side| |intros ?]
    | apply steps_bind; [rel_side| |intros ?]
    | match goal with
      | |- Step.steps _ (if ?b then _ else _) _ => destruct b
      | |- Step.steps _ (match ?x with _ => _ end) _ => destruct x
      end ].

Section HandlersStep.
Import Str Utils Fs Server Obs Norm Step.

Variables (dir fonts : string) (iso : Z -> string).

Lemma timely_convert_on_close pp op fh code out err :
  steps stays_timely (convert_on_close pp op fh code out err) whatever.
Proof. unfold convert_on_close. repeat steps_go. Qed.

Lemma timely_save_on_close pp cp op code out err :
  steps stays_timely (save_on_close pp cp op code out err) whatever.
Proof. unfold save_on_close. repeat steps_go. Qed.

Lemma timely_api_convert q :
  steps stays_timely (api_convert dir fonts iso q) (pending_steps stays_timely).
Proof.
  unfold api_convert. repeat steps_go.
  all: try (split; [intros; apply timely_convert_on_close|intros ? ? ?; discriminate]).
Qed.

Lemma timely_api_save req :
  steps stays_timely (api_save dir fonts iso req) (pending_steps stays_timely).
Proof.
  unfold api_save. repeat steps_go.
  all: try (split; [intros; apply timely_save_on_close|]).
  all: intros ? ? H; injection H as <-; apply steps_ret; [rel_side|exact I].
Qed.

(** Every request leaves a timely world timely. *)
Lemma convert_stays_timely (x2t : converter) q w :
  stays_timely w (snd (convert dir fonts iso x2t q w)).
Proof.
  unfold convert.
  apply (serve_steps stays_timely stays_timely_refl stays_timely_trans (fun _ => True)).
  - intros; apply timely_apply_writes.
  - intros; exact I.
  - apply timely_api_convert.
Qed.

Lemma save_stays_timely (x2t : converter) req w :
  stays_timely w (snd (save dir fonts iso x2t req w)).
Proof.
  unfold save.
  apply (serve_steps stays_timely stays_timely_refl stays_timely_trans (fun _ => True)).
  - intros; apply timely_apply_writes.
  - intros; exact I.
  - apply timely_api_save.
Qed.

End HandlersStep.

Section HandlersSurvive.
Import Str Utils Fs Server Obs Norm Step.

Variables (dir fonts : string) (iso : Z -> string).





End HandlersSurvive.
(* ===================================================================== *)
(** ** What a request leaves alone *)
(* ===================================================================== *)

Section Spare.
Import Str Utils Fs Server Obs Norm Step.

Variables (dir fonts : string) (iso : Z -> string).




End Spare.


(* ===================================================================== *)
(** ** The temporary files after the converter has run *)
(* ===================================================================== *)

Section Launched.
Import Str Utils Fs Server Obs Inv Norm Step.

Variables (dir fonts : string) (iso : Z -> string).

(** The two calls that prepare a directory, whatever is on disk. *)
Lemma prepare_cases d w :
  exists (r : result unit) w1,
    now w1 = now w /\
    forall B (k : unit -> M B),
      bind (existsSync d)
        (fun have => bind (if negb have then mkdirSync_recursive d else ret tt) k) w
      = match r with
        | Ok _ => k tt w1
        | Throw e => (Throw e, w1)
        end.
Proof.
  destruct (exists_node (files w) d) eqn:Hd.
  - exists (Ok tt), (log (EvExists d) w). split; [reflexivity|].
    intros B k. rewrite bind_existsSync, Hd. reflexivity.
  - destruct (mkdirSync_recursive d (log (EvExists d) w)) as [[[]|e] w1] eqn:E.
    + exists (Ok tt), w1. split.
      * unfold mkdirSync_recursive in E.
        destruct (is_file _ _); [discriminate|]. destruct (existsb _ _); [discriminate|].
        injection E as <-. reflexivity.
      * intros B k. rewrite bind_existsSync, Hd. cbn [negb]. unfold bind at 1.
        rewrite E. reflexivity.
    + exists (Throw e), w1. split.
      * unfold mkdirSync_recursive in E.
        destruct (is_file _ _); [|destruct (existsb _ _)]; try discriminate;
          injection E as _ <-; reflexivity.
      * intros B k. rewrite bind_existsSync, Hd. cbn [negb]. unfold bind at 1.
        rewrite E. reflexivity.
Qed.

(** When the save handler hands over to the converter, both temporary
    files are on disk and the child is the one with the two listeners. *)
Lemma api_save_waiting req w c w1 :
  api_save dir fonts iso req w = (Ok (Waiting c), w1) ->
  exists p,
    query_filepath req = Some p /\
    c = save_child dir (query_filehash req) p /\
    is_file (files w1) (save_changesBinPath dir (query_filehash req)) = true /\
    is_file (files w1) (save_paramsPath dir (query_filehash req)) = true.
Proof.
  destruct req as [q fh ct body0]. cbn [query_filepath query_filehash].
  destruct q as [[|a p']|]; try (intros E; discriminate E).
  intros E. exists (String a p'). split; [reflexivity|].
  unfold save_child, save_changesBinPath, save_paramsPath, save_hashDir.
  cbv beta iota zeta delta [api_save query_filepath query_filehash payload] in E.
  set (fp := String a p') in *.
  destruct (isAbsolutePath fp); [|discriminate E]. cbn [negb] in E.
  destruct (prepare_cases (Path.dirname fp) w) as (r & w0 & _ & Hrun).
  rewrite Hrun in E. destruct r as [[]|e]; [|discriminate E].
  unfold parsed_body in E. cbn [content_type payload] in E.
  destruct (is_octet_stream ct); [|discriminate E].
  destruct (isXLSXSignature body0).
  { unfold try_catch in E.
    destruct (bind (writeFileSync fp body0) _ w0) as [[[r|c']|e] w2] eqn:E2;
      try discriminate E.
    unfold bind, writeFileSync in E2.
    destruct (write_node fp body0 (now w0) (files w0)); [discriminate E2|].
    unfold statSync in E2. destruct (files _ !! fp); discriminate E2. }
  destruct (getOutputFormatInfo (toLowerCase (Path.extname fp))) as [fi|]; [|discriminate E].
  set (hashDir := match fh with Some (String _ _ as h) => _ | _ => _ end) in *.
  set (changes := Path.join [hashDir; "temp_changes.bin"]) in *.
  set (params := Path.join [hashDir; "params_save.xml"]) in *.
  destruct (write_node changes body0 (now w0) (files w0)) as [e|m1] eqn:Hw1.
  { rewrite (bind_writeFileSync_err _ _ e) in E by exact Hw1. discriminate E. }
  rewrite (bind_writeFileSync_ok _ _ m1) in E by exact Hw1.
  rewrite bind_timestamp in E.
  match type of E with context [writeFileSync params ?d] => set (xml := d) in E end.
  set (w2 := set_files m1 (log (EvWrite changes) w0)) in *.
  destruct (write_node params xml (now w2) (files w2)) as [e|m2] eqn:Hw2.
  { rewrite (bind_writeFileSync_err _ _ e) in E by exact Hw2. discriminate E. }
  rewrite (bind_writeFileSync_ok _ _ m2) in E by exact Hw2.
  rewrite bind_spawn in E. unfold ret in E. injection E as <- <-.
  split; [reflexivity|].
  pose proof (write_node_ok_lookup _ _ _ _ _ Hw1) as Hf1.
  pose proof (write_node_ok_lookup _ _ _ _ _ Hw2) as Hf2.
  split; unfold is_file; cbn [files log set_files]; [|rewrite Hf2; reflexivity].
  assert (Hkeep : is_file m2 changes = true).
  { eapply is_file_write; [exact Hw2|]. unfold is_file. subst w2.
    cbn [files set_files]. rewrite Hf1. reflexivity. }
  exact Hkeep.
Qed.

(** The same for the convert handler: the descriptor is on disk. *)
Lemma api_convert_waiting p w c w1 :
  api_convert dir fonts iso (Some p) w = (Ok (Waiting c), w1) ->
  c = convert_child dir p /\ is_file (files w1) (convert_paramsPath dir p) = true.
Proof.
  intros E.
  destruct (isAbsolutePath p) eqn:Habs.
  2:{ destruct p as [|a p']; [discriminate E|].
      cbv beta iota zeta delta [api_convert] in E. rewrite Habs in E. discriminate E. }
  destruct (files w !! p) as [n|] eqn:Hsrc.
  - destruct (cache_state_cases (files w) (convert_outputPath dir p) p n Hsrc)
      as [Hf|[Hs|(t & Hout & Hnew)]].
    + destruct (api_convert_hit dir fonts iso p w Habs Hf) as (t & d & _ & E').
      rewrite E in E'. discriminate E'.
    + destruct (api_convert_stale dir fonts iso p w Habs Hs)
        as (res & w1' & E' & seen & _ & [(e & -> & _)|(-> & _ & Hfile)]);
        rewrite E in E'; [discriminate E'|].
      injection E' as -> <-. split; [reflexivity|exact Hfile].
    + destruct (api_convert_directory_artifact dir fonts iso p w t n Habs Hsrc Hout Hnew)
        as (e & w1' & E').
      rewrite E in E'. discriminate E'.
  - destruct (absolute_nonempty p Habs) as (a & p' & ->).
    cbv beta iota zeta delta [api_convert] in E. rewrite Habs in E.
    cbv beta iota delta [negb] in E.
    rewrite bind_existsSync, (exists_node_none _ _ Hsrc) in E. discriminate E.
Qed.

(** X3. Once the save handler has launched the converter, its temporary
    files do not outlive the request: after a normal exit, a failure, a
    signal, or a failed spawn that leaves the child its streams, neither
    the descriptor [params_save.xml] nor the temporary binary
    [temp_changes.bin] exists when the request ends.  The one exception
    is a spawn that fails for want of file descriptors (EMFILE, ENFILE):
    the handler then throws before it registers its [close] listener,
    and both files stay. *)
Theorem save_removes_its_temporary_files :
  forall (x2t : converter) (req : save_request) (w : world) (c : child) (w1 : world),
    api_save dir fonts iso req w = (Ok (Waiting c), w1) ->
    let ended := outcome (x2t (command c) (args c) (files w1)) in
    let w' := snd (save dir fonts iso x2t req w) in
    (ended <> SpawnFailed SpEMFILE -> ended <> SpawnFailed SpENFILE ->
       exists_node (files w') (save_paramsPath dir (query_filehash req)) = false /\
       exists_node (files w') (save_changesBinPath dir (query_filehash req)) = false) /\
    (ended = SpawnFailed SpEMFILE \/ ended = SpawnFailed SpENFILE ->
       (exists message,
          fst (save dir fonts iso x2t req w) = Uncaught (TypeError message)) /\
       is_file (files w') (save_paramsPath dir (query_filehash req)) = true /\
       is_file (files w') (save_changesBinPath dir (query_filehash req)) = true).
Proof.
  intros x2t req w c w1 E ended w'. subst ended w'.
  destruct (api_save_waiting req w c w1 E) as (p & Hq & -> & Hfc & Hfp).
  unfold save. rewrite (serve_waiting _ _ _ _ _ E).
  unfold settle, save_child. cbn [command args error_listener close_listener].
  set (run := x2t _ _ _).
  assert (Hclose : forall code out err w2,
            files w2 = files w1 \/
            files w2 = apply_writes (now w1) (writes run) (files w1) ->
            let w3 := snd (finish (save_on_close (save_paramsPath dir (query_filehash req))
                                     (save_changesBinPath dir (query_filehash req)) p
                                     code out err w2)) in
            exists_node (files w3) (save_paramsPath dir (query_filehash req)) = false /\
            exists_node (files w3) (save_changesBinPath dir (query_filehash req)) = false).
  { intros code out err w2 Hw2. cbv zeta. rewrite finish_snd.
    apply save_close_unlinks; destruct Hw2 as [-> | ->];
      try apply is_file_apply_writes; assumption. }
  split.
  - intros H1 H2.
    destruct (outcome run) as [e|code|sig] eqn:Ho.
    + destruct e; cbn [has_stdio]; try (exfalso; congruence);
        cbv beta iota; cbn [ret]; apply Hclose; left; reflexivity.
    + apply Hclose. right. reflexivity.
    + apply Hclose. right. reflexivity.
  - intros [Ho | Ho]; rewrite Ho; cbn [has_stdio ret fst snd];
      (split; [eexists; reflexivity|split; assumption]).
Qed.

(** X4. Once the convert handler has launched the converter and the
    process did start, the descriptor [params_temp.xml] is gone when the
    request ends, whatever the exit code or the signal that ended it. *)
Theorem convert_removes_its_descriptor_after_a_run :
  forall (x2t : converter) (p : string) (w : world) (c : child) (w1 : world),
    api_convert dir fonts iso (Some p) w = (Ok (Waiting c), w1) ->
    (forall e, outcome (x2t (command c) (args c) (files w1)) <> SpawnFailed e) ->
    exists_node (files (snd (convert dir fonts iso x2t (Some p) w)))
      (convert_paramsPath dir p) = false.
Proof.
  intros x2t p w c w1 E Hran.
  destruct (api_convert_waiting p w c w1 E) as (-> & Hf).
  unfold convert. rewrite (serve_waiting _ _ _ _ _ E).
  unfold settle, convert_child in *. cbn [command args error_listener close_listener] in *.
  destruct (outcome _) as [e| |] eqn:Ho; [exfalso; exact (Hran e eq_refl)| |];
    rewrite finish_snd; apply convert_close_unlinks; cbn [files set_files];
    apply is_file_apply_writes; exact Hf.
Qed.

End Launched.

Lemma save_cleanup_witness :
  exists c w1,
    Server.api_save Sample.dir Sample.fonts Sample.iso
      (Server.SaveRequest (Some "/data/out.csv") None Sample.octet Sample.bin_payload) Sample.w0
    = (Fs.Ok (Server.Waiting c), w1) /\
    Fs.exists_node
      (Fs.files (snd (Server.save Sample.dir Sample.fonts Sample.iso Sample.x2t_missing
                        (Server.SaveRequest (Some "/data/out.csv") None Sample.octet Sample.bin_payload)
                        Sample.w0)))
      (Obs.save_changesBinPath Sample.dir None) = false /\
    Fs.is_file
      (Fs.files (snd (Server.save Sample.dir Sample.fonts Sample.iso Sample.x2t_exhausted
                        (Server.SaveRequest (Some "/data/out.csv") None Sample.octet Sample.bin_payload)
                        Sample.w0)))
      (Obs.save_changesBinPath Sample.dir None) = true.
Proof.
  eexists _, _.
  assert (E : Server.api_save Sample.dir Sample.fonts Sample.iso
                (Server.SaveRequest (Some "/data/out.csv") None Sample.octet Sample.bin_payload)
                Sample.w0
              = (Fs.Ok (Server.Waiting (Obs.save_child Sample.dir None "/data/out.csv")),
                 snd (Server.api_save Sample.dir Sample.fonts Sample.iso
                        (Server.SaveRequest (Some "/data/out.csv") None Sample.octet
                           Sample.bin_payload) Sample.w0))) by reflexivity.
  split; [exact E|]. split.
  - destruct (save_removes_its_temporary_files Sample.dir Sample.fonts Sample.iso
                Sample.x2t_missing _ _ _ _ E) as [Hgone _].
    apply Hgone; discriminate.
  - destruct (save_removes_its_temporary_files Sample.dir Sample.fonts Sample.iso
                Sample.x2t_exhausted _ _ _ _ E) as [_ Hstay].
    apply Hstay. left. reflexivity.
Defined.

Lemma convert_cleanup_witness :
  exists c w1,
    Server.api_convert Sample.dir Sample.fonts Sample.iso (Some Sample.source) Sample.w0
    = (Fs.Ok (Server.Waiting c), w1) /\
    Fs.exists_node
      (Fs.files (snd (Server.convert Sample.dir Sample.fonts Sample.iso Sample.x2t_fail
                        (Some Sample.source) Sample.w0)))
      (Obs.convert_paramsPath Sample.dir Sample.source) = false.
Proof.
  eexists _, _.
  assert (E : Server.api_convert Sample.dir Sample.fonts Sample.iso (Some Sample.source)
                Sample.w0
              = (Fs.Ok (Server.Waiting (Obs.convert_child Sample.dir Sample.source)),
                 snd (Server.api_convert Sample.dir Sample.fonts Sample.iso
                        (Some Sample.source) Sample.w0))) by (vm_compute; reflexivity).
  split; [exact E|].
  apply (convert_removes_its_descriptor_after_a_run Sample.dir Sample.fonts Sample.iso
           Sample.x2t_fail Sample.source Sample.w0 _ _ E).
  intros e. discriminate.
Defined.

(* ===================================================================== *)
(** ** A save and the conversion cache *)
(* ===================================================================== *)

Section Outdate.
Import Str Utils Fs Server Obs Inv Norm Step.

Variables (dir fonts : string) (iso : Z -> string).

(** A request that finds no artifact newer than the source is never
    answered as a cache hit. *)
Lemma stale_is_never_a_hit (x2t : converter) p w resp :
  isAbsolutePath p = true ->
  stale (files w) (convert_outputPath dir p) p = true ->
  fst (convert dir fonts iso x2t (Some p) w) = Replied resp ->
  header "X-Cache" resp <> Some "HIT".
Proof.
  intros Habs Hst Hr. unfold convert in Hr.
  destruct (api_convert_stale dir fonts iso p w Habs Hst)
    as (res & w1 & E & seen & _ & [(e & -> & _)|(-> & _ & _)]).
  - rewrite (serve_throw _ _ _ _ _ E) in Hr. discriminate Hr.
  - rewrite (serve_waiting _ _ _ _ _ E) in Hr.
    unfold settle, convert_child in Hr.
    cbn [command args error_listener close_listener] in Hr.
    destruct (outcome _); cbv beta iota in Hr; [discriminate Hr| |];
      rewrite finish_fst in Hr;
      match type of Hr with context [fst ?x] => destruct (fst x) eqn:Hx end;
      try discriminate Hr; injection Hr as ->;
      eapply convert_close_not_hit; eassumption.
Qed.

(** What a successful direct write leaves at the destination. *)
Lemma native_save_success (x2t : converter) req p w size :
  query_filepath req = Some p ->
  isXLSXSignature (payload req) = true ->
  fst (save dir fonts iso x2t req w) = Replied (Response 200 [] (JsonSaved p size)) ->
  files (snd (save dir fonts iso x2t req w)) !! p = Some (File (now w) (payload req)).
Proof.
  destruct req as [q fh ct body0]. cbn [query_filepath query_filehash payload].
  intros -> Hsig. unfold save, serve.
  destruct p as [|a p']; [intros H; discriminate H|].
  cbv beta iota zeta delta [api_save parsed_body query_filepath query_filehash payload
                             content_type].
  set (fp := String a p') in *.
  destruct (isAbsolutePath fp); [|intros H; discriminate H]. cbn [negb].
  destruct (prepare_cases (Path.dirname fp) w) as (r & w0 & Hnow & Hrun).
  rewrite Hrun. destruct r as [[]|e]; [|intros H; discriminate H].
  destruct (is_octet_stream ct); [|intros H; discriminate H].
  rewrite Hsig. unfold try_catch.
  destruct (write_node fp body0 (now w0) (files w0)) as [e|m'] eqn:Hw.
  - rewrite (bind_writeFileSync_err _ _ e) by exact Hw. intros H; discriminate H.
  - rewrite (bind_writeFileSync_ok _ _ m') by exact Hw.
    pose proof (write_node_ok_lookup _ _ _ _ _ Hw) as Hfile.
    rewrite (bind_statSync _ (File (now w0) body0)) by exact Hfile.
    unfold ret. cbn [fst snd files log set_files]. intros _.
    rewrite Hfile, Hnow. reflexivity.
Qed.

(** X5. After a successful direct save of a document, whatever artifact
    the cache holds for it is out of date: in a world where no time stamp
    lies in the future, the saved document carries the current time, no
    artifact is strictly newer, and the next convert request for the
    document is not answered from the cache. *)
Theorem native_save_outdates_the_cache :
  forall (x2t x2t' : converter) (req : save_request) (p : string) (w : world) (size : Z),
    query_filepath req = Some p ->
    isAbsolutePath p = true ->
    isXLSXSignature (payload req) = true ->
    timely w ->
    fst (save dir fonts iso x2t req w) = Replied (Response 200 [] (JsonSaved p size)) ->
    let w' := snd (save dir fonts iso x2t req w) in
    stale (files w') (convert_outputPath dir p) p = true /\
    forall (w2 : world) (resp : response),
      files w2 = files w' ->
      fst (convert dir fonts iso x2t' (Some p) w2) = Replied resp ->
      header "X-Cache" resp <> Some "HIT".
Proof.
  intros x2t x2t' req p w size Hq Habs Hsig Ht Hr w'.
  pose proof (native_save_success x2t req p w size Hq Hsig Hr) as Hfile.
  destruct (save_stays_timely dir fonts iso x2t req w) as [Hnow Htimely].
  specialize (Htimely Ht). fold w' in Hfile, Hnow, Htimely.
  assert (Hst : stale (files w') (convert_outputPath dir p) p = true).
  { unfold stale. rewrite Hfile.
    destruct (files w' !! convert_outputPath dir p) as [a|] eqn:Ha; [|reflexivity].
    cbn [stat_of mtime]. apply negb_true_iff. rewrite Z.gtb_ltb. apply Z.ltb_ge.
    rewrite <- Hnow. exact (Htimely _ _ Ha). }
  split; [exact Hst|].
  intros w2 resp Hf Hr2. eapply stale_is_never_a_hit; [exact Habs| |exact Hr2].
  rewrite Hf. exact Hst.
Qed.

End Outdate.

Lemma timely_sample : Norm.timely Sample.w_cached.
Proof.
  assert (H : bool_decide (map_Forall (fun (_ : string) n => (Fs.mtime (Fs.stat_of n) <= 100)%Z)
                             (Fs.files Sample.w_cached)) = true) by (vm_compute; reflexivity).
  exact (bool_decide_eq_true_1 _ H).
Qed.

Lemma native_save_outdates_witness :
  Utils.isAbsolutePath Sample.source = true /\
  Utils.isXLSXSignature Sample.zip_payload = true /\
  Obs.fresh (Fs.files Sample.w_cached)
    (Obs.convert_outputPath Sample.dir Sample.source) Sample.source = true /\
  Obs.stale
    (Fs.files (snd (Server.save Sample.dir Sample.fonts Sample.iso Sample.x2t_fail
                      (Server.SaveRequest (Some Sample.source) None Sample.octet Sample.zip_payload)
                      Sample.w_cached)))
    (Obs.convert_outputPath Sample.dir Sample.source) Sample.source = true.
Proof.
  split; [reflexivity|]. split; [reflexivity|]. split; [vm_compute; reflexivity|].
  refine (proj1 (native_save_outdates_the_cache Sample.dir Sample.fonts Sample.iso
                   Sample.x2t_fail Sample.x2t_fail
                   (Server.SaveRequest (Some Sample.source) None Sample.octet Sample.zip_payload)
                   Sample.source Sample.w_cached 5 eq_refl eq_refl eq_refl timely_sample _)).
  vm_compute. reflexivity.
Defined.
(* ===================================================================== *)
(** ** The guards of the convert route *)
(* ===================================================================== *)

Section ConvertGuards.
Import Str Utils Fs Server Obs.

Variables (dir fonts : string) (iso : Z -> string).

(** X6. The convert route validates before it converts.  A missing or
    empty [filepath] and a relative one are answered with status 400 and
    the world is exactly what it was: no filesystem call is made.  An
    absolute path with nothing on disk is answered with status 404 after a
    single existence test: nothing is created, written or spawned. *)
Theorem convert_rejects_before_touching_anything :
  forall (x2t : converter) (q : option string) (w : world),
    let r := fst (convert dir fonts iso x2t q w) in
    let w' := snd (convert dir fonts iso x2t q w) in
    (q = None \/ q = Some "" ->
       r = Replied (json_error 400 "filepath query parameter is required") /\ w' = w) /\
    (forall p, q = Some p -> p <> "" -> isAbsolutePath p = false ->
       r = Replied (json_error 400 "filepath must be an absolute path") /\ w' = w) /\
    (forall p, q = Some p -> isAbsolutePath p = true -> exists_node (files w) p = false ->
       r = Replied (json_error 404 "File not found at absolute path") /\
       files w' = files w /\ trace w' = trace w ++ [EvExists p]).
Proof.
  intros x2t q w r w'. subst r w'. split; [|split].
  - intros [->| ->]; split; reflexivity.
  - intros p -> Hne Hrel. destruct p as [|a p']; [contradiction|].
    unfold convert, serve. cbv beta iota zeta delta [api_convert]. rewrite Hrel.
    split; reflexivity.
  - intros p -> Habs Hmiss. destruct (absolute_nonempty p Habs) as (a & p' & ->).
    unfold convert, serve. cbv beta iota zeta delta [api_convert]. rewrite Habs.
    cbv beta iota delta [negb]. rewrite bind_existsSync, Hmiss.
    repeat split; reflexivity.
Qed.

End ConvertGuards.

Lemma convert_rejects_witness :
  Utils.isAbsolutePath "/data/missing.xlsx" = true /\
  Fs.exists_node (Fs.files Sample.w0) "/data/missing.xlsx" = false /\
  fst (Server.convert Sample.dir Sample.fonts Sample.iso Sample.x2t_ok
         (Some "/data/missing.xlsx") Sample.w0)
  = Server.Replied (Server.json_error 404 "File not found at absolute path") /\
  Fs.files (snd (Server.convert Sample.dir Sample.fonts Sample.iso Sample.x2t_ok
                   (Some "/data/missing.xlsx") Sample.w0))
  = Fs.files Sample.w0.
Proof.
  assert (Hmiss : Fs.exists_node (Fs.files Sample.w0) "/data/missing.xlsx" = false)
    by (vm_compute; reflexivity).
  split; [reflexivity|]. split; [exact Hmiss|].
  destruct (convert_rejects_before_touching_anything Sample.dir Sample.fonts Sample.iso
              Sample.x2t_ok (Some "/data/missing.xlsx") Sample.w0) as (_ & _ & H).
  destruct (H "/data/missing.xlsx" eq_refl eq_refl Hmiss) as (Hr & Hf & _).
  split; [exact Hr|exact Hf].
Defined.
(* ===================================================================== *)
(** ** The media routes *)
(* ===================================================================== *)

Section Media.
Import Str Utils Fs Server Obs Norm Step Routes.

Variable dir : string.


End Media.

Section MediaList.
Import Str Utils Fs Server Obs Norm Step Routes.

Variable dir : string.

Lemma clean_literal_test : clean_name "test" = true. Proof. reflexivity. Qed.
Lemma clean_literal_output : clean_name "output" = true. Proof. reflexivity. Qed.
Lemma clean_literal_media : clean_name "media" = true. Proof. reflexivity. Qed.

(** The working directory of a clean fingerprint, in normal form. *)
Lemma outputDir_render h :
  posix_absolute dir = true -> clean_name h = true ->
  outputDir_of dir h = render (segments dir ++ [chars "test"; chars "output"; chars h]) /\
  all_clean (segments dir ++ [chars "test"; chars "output"; chars h]).
Proof.
  intros Habs Hh. split.
  - unfold outputDir_of. rewrite join_absolute; [reflexivity|exact Habs|discriminate|].
    repeat constructor. exact Hh.
  - apply Forall_app. split; [apply segments_clean|].
    repeat constructor. exact Hh.
Qed.

Lemma mediaDir_render h :
  posix_absolute dir = true -> clean_name h = true ->
  exists S, all_clean S /\ mediaDir_of dir h = render S /\
    forall f, clean_name f = true ->
      Path.join [mediaDir_of dir h; f] = render (S ++ [chars f]).
Proof.
  intros Habs Hh. destruct (outputDir_render h Habs Hh) as [Ho Hc].
  exists ((segments dir ++ [chars "test"; chars "output"; chars h]) ++ [chars "media"]).
  assert (Hc' : all_clean ((segments dir ++ [chars "test"; chars "output"; chars h])
                           ++ [chars "media"])).
  { apply Forall_app. split; [exact Hc|]. repeat constructor. }
  assert (Hm : mediaDir_of dir h =
               render ((segments dir ++ [chars "test"; chars "output"; chars h])
                       ++ [chars "media"])).
  { unfold mediaDir_of. rewrite Ho. rewrite join_render; [reflexivity|exact Hc|discriminate|].
    repeat constructor. }
  split; [exact Hc'|]. split; [exact Hm|].
  intros f Hf. rewrite Hm. rewrite join_render; [reflexivity|exact Hc'|discriminate|].
  repeat constructor. exact Hf.
Qed.

Lemma render_snoc_ne S x : all_clean S -> clean_seg x = true -> render (S ++ [x]) <> render S.
Proof.
  intros Hc Hx E. apply render_inj in E; [|apply Forall_app; split; [exact Hc|repeat constructor; exact Hx]|exact Hc].
  apply (f_equal (@length _)) in E. rewrite length_app in E. cbn in E. lia.
Qed.

Lemma children_elem (m : gmap string node) d p n :
  m !! p = Some n -> Path.dirname p = d -> p <> d ->
  In (Path.basename p) (children m d).
Proof.
  intros Hl Hd Hne. unfold children. apply list_elem_of_In.
  apply list_elem_of_omap. exists (p, n). split; [apply elem_of_map_to_list; exact Hl|].
  unfold child_name. cbn [fst]. rewrite Hd, String.eqb_refl.
  destruct (String.eqb p d) eqn:E; [apply String.eqb_eq in E; contradiction|reflexivity].
Qed.




(** Whether [send] ignores a file is read off the first character of its
    name. *)
Lemma dotfile_render S x :
  all_clean S -> clean_seg x = true ->
  dotfile (render (S ++ [x])) =
  match x with c :: _ => Ascii.eqb c Path.dot | [] => false end.
Proof.
  intros Hc Hx. unfold dotfile. rewrite basename_render by assumption.
  rewrite chars_of_str. reflexivity.
Qed.

(** A regular file whose name does not begin with a dot is streamed. *)
Lemma sendFile_file hs path t d w :
  files w !! path = Some (File t d) -> dotfile path = false ->
  sendFile hs path w = (Ok (Reply 200 hs (SendFile path)), log (EvStat path) w).
Proof.
  intros Hf Hd. unfold sendFile. rewrite Hd. unfold try_catch.
  rewrite (bind_statSync _ (File t d)) by exact Hf. reflexivity.
Qed.


(** X8. An uploaded image shows up in the media list.  For a server
    directory that is an absolute path, a fingerprint and a file name that
    are plain path components: once the upload route has answered, the
    list route of the same fingerprint answers with status 200 and a list
    of names that contains the uploaded name. *)
Theorem media_upload_is_listed :
  forall (h f : string) (data : list Byte.byte) (w : world) (r : reply) (w1 : world),
    posix_absolute dir = true ->
    clean_name h = true ->
    clean_name f = true ->
    media_upload dir h (Some f) data w = (Ok r, w1) ->
    exists names,
      fst (media_list dir h w1) = Ok (Reply 200 [] (JsonNames names)) /\
      In f names.
Proof.
  intros h f data w r w1 Habs Hh Hf E.
  destruct (mediaDir_render h Habs Hh) as (S & Hc & Hm & Hj).
  specialize (Hj f Hf).
  assert (Hne : f <> "") by (intros ->; discriminate Hf).
  destruct f as [|a f']; [contradiction|].
  unfold media_upload in E. unfold bind at 1 in E. cbn [upload_name ret] in E.
  set (name := String a f') in *.
  fold (outputDir_of dir h) in E. fold (mediaDir_of dir h) in E.
  destruct (prepare_cases (outputDir_of dir h) w) as (r1 & wa & Hna & Hrun1).
  rewrite Hrun1 in E. destruct r1 as [[]|e]; [|discriminate E].
  destruct (prepare_cases (mediaDir_of dir h) wa) as (r2 & wb & Hnb & Hrun2).
  rewrite Hrun2 in E. destruct r2 as [[]|e]; [|discriminate E].
  set (imagePath := Path.join [mediaDir_of dir h; name]) in *.
  assert (Hdn : Path.dirname imagePath = mediaDir_of dir h).
  { rewrite Hj, Hm. apply dirname_render; [exact Hc|exact Hf]. }
  assert (Hbn : Path.basename imagePath = name).
  { rewrite Hj. rewrite basename_render by (exact Hc || exact Hf). apply str_chars. }
  assert (Hdiff : imagePath <> mediaDir_of dir h).
  { rewrite Hj, Hm. apply render_snoc_ne; [exact Hc|exact Hf]. }
  destruct (write_node imagePath data (now wb) (files wb)) as [e|m'] eqn:Hw.
  { rewrite (bind_writeFileSync_err _ _ e) in E by exact Hw. discriminate E. }
  rewrite (bind_writeFileSync_ok _ _ m') in E by exact Hw.
  unfold ret in E. injection E as _ <-.
  pose proof (write_node_ok_lookup _ _ _ _ _ Hw) as Hfile.
  assert (Hdir : exists t, m' !! mediaDir_of dir h = Some (Dir t)).
  { unfold write_node in Hw. rewrite Hdn in Hw.
    destruct (files wb !! imagePath) as [[?|?]|]; try discriminate Hw;
      destruct (files wb !! mediaDir_of dir h) as [[?|t]|] eqn:Hd; try discriminate Hw;
      injection Hw as <-; exists t; rewrite lookup_insert_ne by exact Hdiff; exact Hd. }
  destruct Hdir as (t & Hdir).
  exists (children m' (mediaDir_of dir h)). split.
  - unfold media_list. fold (outputDir_of dir h). fold (mediaDir_of dir h).
    rewrite bind_existsSync. cbn [files set_files log].
    rewrite (exists_node_some _ _ _ Hdir). cbn [negb].
    unfold try_catch, bind, readdirSync. cbn [files set_files log]. rewrite Hdir.
    reflexivity.
  - rewrite <- Hbn. eapply children_elem; eassumption.
Qed.

(** X9. The media list route always answers and changes nothing: an empty
    list when the fingerprint has no media directory, the names of its
    entries when it has one, and status 500 with a JSON error when the
    directory cannot be read because a regular file is in its place. *)
Theorem media_list_always_answers :
  forall (h : string) (w : world),
    fst (media_list dir h w) =
      Ok (match files w !! mediaDir_of dir h with
          | None => Reply 200 [] (JsonNames [])
          | Some (Dir _) => Reply 200 [] (JsonNames (children (files w) (mediaDir_of dir h)))
          | Some (File _ _) => Reply 500 [] (JsonFailure "Error reading media directory")
          end) /\
    files (snd (media_list dir h w)) = files w.
Proof.
  intros h w. unfold media_list. fold (outputDir_of dir h). fold (mediaDir_of dir h).
  rewrite bind_existsSync. unfold exists_node.
  destruct (files w !! mediaDir_of dir h) as [[t d|t]|] eqn:Hd; cbn [negb].
  - unfold try_catch, bind, readdirSync. cbn [files log]. rewrite Hd. split; reflexivity.
  - unfold try_catch, bind, readdirSync. cbn [files log]. rewrite Hd. split; reflexivity.
  - split; reflexivity.
Qed.

End MediaList.


Lemma media_listed_witness :
  Norm.posix_absolute Sample.dir = true /\
  Norm.clean_name Sample2.hash = true /\
  Norm.clean_name Sample2.image_name = true /\
  exists r w1,
    Routes.media_upload Sample.dir Sample2.hash (Some Sample2.image_name) Sample2.image Sample.w0
    = (Fs.Ok r, w1) /\
    exists names,
      fst (Routes.media_list Sample.dir Sample2.hash w1)
      = Fs.Ok (Routes.Reply 200 [] (Routes.JsonNames names)) /\
      In Sample2.image_name names.
Proof.
  split; [reflexivity|]. split; [reflexivity|]. split; [reflexivity|].
  eexists _, _.
  assert (E : Routes.media_upload Sample.dir Sample2.hash (Some Sample2.image_name)
                Sample2.image Sample.w0
              = (Fs.Ok (Routes.Reply 200 []
                          (Routes.JsonUploaded Sample2.image_name
                             ("/api/media/" +:+ Sample2.hash +:+ "/" +:+ Sample2.image_name))),
                 snd (Routes.media_upload Sample.dir Sample2.hash (Some Sample2.image_name)
                        Sample2.image Sample.w0))) by (vm_compute; reflexivity).
  split; [exact E|].
  exact (media_upload_is_listed Sample.dir Sample2.hash Sample2.image_name Sample2.image
           Sample.w0 _ _ eq_refl eq_refl eq_refl E).
Defined.
(* ===================================================================== *)
(** ** The routes that only read *)
(* ===================================================================== *)

Section ReadOnly.
Import Str Utils Fs Server Obs Norm Step Routes.

Variable dir : string.

Lemma unchanged_read_only {A} (c : M A) (Q : A -> Prop) :
  steps unchanged c Q -> read_only c.
Proof. intros H w. destruct (H w) as [[Hf _] _]. exact Hf. Qed.

(** X10. The routes that serve media, working-directory files, converted
    files, test files and HTML pages only read: whatever the request and
    whatever is on disk, also when the handler throws, no file or
    directory is created, changed or removed. *)
Theorem get_routes_change_nothing :
  (forall h f, read_only (media_get dir h f)) /\
  (forall h, read_only (media_list dir h)) /\
  (forall h p, read_only (doc_base dir h p)) /\
  (forall f, read_only (converted dir f)) /\
  (forall f, read_only (raw dir f)) /\
  (forall f, read_only (file dir f)) /\
  (forall p, read_only (inject_middleware dir p)).
Proof.
  repeat split; intros.
  - apply (unchanged_read_only _ whatever). unfold media_get, sendFile. repeat steps_go.
  - apply (unchanged_read_only _ whatever). unfold media_list. repeat steps_go.
  - apply (unchanged_read_only _ whatever). unfold doc_base, sendFile. repeat steps_go.
  - apply (unchanged_read_only _ whatever). unfold converted, sendFile. repeat steps_go.
  - apply (unchanged_read_only _ whatever). unfold raw, send_test_file. repeat steps_go.
  - apply (unchanged_read_only _ whatever). unfold file, send_test_file. repeat steps_go.
  - apply (unchanged_read_only _ whatever). unfold inject_middleware. repeat steps_go.
Qed.

End ReadOnly.
(* ===================================================================== *)
(** ** The working-directory file route stays inside the directory *)
(* ===================================================================== *)

Section Relative.
Import Str Path Norm.








End Relative.

Section Strip.
Import Str Path Norm Routes.









End Strip.

Section DocBase.
Import Str Utils Fs Server Obs Path Norm Step Routes.

Variable dir : string.


Lemma is_prefix_app_refl a b : is_prefix a (a ++ b) = true.
Proof.
  induction a as [|c a IH]; [destruct b; reflexivity|]. cbn. rewrite Ascii.eqb_refl. exact IH.
Qed.

Lemma startsWith_append d t : startsWith (d +:+ t) d = true.
Proof. unfold startsWith. rewrite chars_append. apply is_prefix_app_refl. Qed.

Lemma append_assoc a b c : (a +:+ b) +:+ c = a +:+ b +:+ c.
Proof.
  induction a as [|x a IH]; [reflexivity|].
  change (String x ((a +:+ b) +:+ c) = String x (a +:+ b +:+ c)). rewrite IH. reflexivity.
Qed.


Lemma inside_append d t : inside d (d +:+ "/" +:+ t) = true.
Proof.
  unfold inside. apply orb_true_iff. right.
  rewrite <- append_assoc. apply startsWith_append.
Qed.


Lemma join_with_app S T :
  S <> [] -> T <> [] ->
  join_with [slash] (S ++ T) = join_with [slash] S ++ slash :: join_with [slash] T.
Proof.
  intros HS HT. induction S as [|s S IH]; [contradiction|].
  destruct S as [|s' S'].
  - cbn [app]. rewrite join_with_cons by exact HT. reflexivity.
  - change ((s :: s' :: S') ++ T) with (s :: ((s' :: S') ++ T)).
    rewrite join_with_cons by (destruct S'; discriminate).
    rewrite IH by discriminate.
    rewrite (join_with_cons s (s' :: S')) by discriminate.
    rewrite <- app_assoc. reflexivity.
Qed.

Lemma render_app S T :
  S <> [] -> T <> [] ->
  render (S ++ T) = render S +:+ "/" +:+ str (join_with [slash] T).
Proof.
  intros HS HT. unfold render. rewrite join_with_app by assumption.
  rewrite <- (str_chars (str (slash :: join_with [slash] S) +:+ "/" +:+ _)).
  rewrite !chars_append, !chars_of_str. reflexivity.
Qed.





End DocBase.

(* ===================================================================== *)
(** ** The injection of the desktop stub *)
(* ===================================================================== *)

Section Inject.
Import Str Norm Routes.













End Inject.

(* ===================================================================== *)
(** ** The font metadata script *)
(* ===================================================================== *)

Section Fonts.
Import Str Utils Fs Server Obs Norm Step FontScript.

Variables (dir platform : string) (tool : converter).

(** Looking for the generator changes nothing and launches nothing. *)
Lemma locateBinary_cases w :
  exists r w1,
    locateBinary dir platform w = (Ok r, w1) /\
    files w1 = files w /\ now w1 = now w /\
    exists seen, trace w1 = trace w ++ seen /\ spawned seen = false.
Proof.
  unfold locateBinary, locate.
  repeat match goal with |- context [if String.eqb ?a ?b then _ else _] =>
           destruct (String.eqb a b) end;
    rewrite ?bind_existsSync;
    repeat match goal with |- context [exists_node ?m ?p] => destruct (exists_node m p) end;
    unfold ret; eexists _, _; (split; [reflexivity|]); cbn [files now trace log];
    (split; [reflexivity|]); (split; [reflexivity|]);
    first [ exists []; rewrite app_nil_r; split; reflexivity
          | eexists; split; reflexivity ].
Qed.

Lemma regenerate_success out w :
  exit_code (fst (regenerate dir platform tool out w)) = 0%Z ->
  exists_node (files (snd (regenerate dir platform tool out w))) (allFontsJs out) = true /\
  exists_node (files (snd (regenerate dir platform tool out w))) (fontSelectionBin out) = true.
Proof.
  destruct (regenerate dir platform tool out w) as [res w'] eqn:R. cbn [fst snd].
  unfold regenerate in R.
  destruct (locateBinary_cases w) as (r & w1 & E & _).
  unfold bind at 1 in R. rewrite E in R.
  destruct r as [msg|bin]; [injection R as <- _; intros H; discriminate H|].
  unfold bind at 1 in R.
  destruct (mkdirSync_recursive out w1) as [[[]|e] w2];
    [|injection R as <- _; intros H; discriminate H].
  unfold bind at 1 in R.
  destruct (mkdirSync_recursive (Path.join [out; "fonts"]) w2) as [[[]|e] w3];
    [|injection R as <- _; intros H; discriminate H].
  unfold bind at 1 in R.
  destruct (spawnSync tool bin _ w3) as [[status|e] w4];
    [|injection R as <- _; intros H; discriminate H].
  destruct (code_nonzero status); [injection R as <- _; intros H; discriminate H|].
  rewrite bind_existsSync in R.
  destruct (exists_node (files w4) (allFontsJs out)) eqn:Ha; cbn [negb] in R;
    [|injection R as <- _; intros H; discriminate H].
  rewrite bind_existsSync in R. rewrite files_log in R.
  destruct (exists_node (files w4) (fontSelectionBin out)) eqn:Hb; cbn [negb] in R;
    [|injection R as <- _; intros H; discriminate H].
  injection R as _ <-. intros _. rewrite !files_log. split; assumption.
Qed.

Lemma generate_some out w :
  out <> "" ->
  generate dir platform tool (Some out) w
  = bind (checkExistingFonts out)
      (fun existing => if existing then ret Finished else regenerate dir platform tool out) w.
Proof. destruct out; [contradiction|reflexivity]. Qed.

(** X13. A run of the font script that ends with exit code 0 leaves both
    metadata files on disk, whatever the platform, the tree and the
    generator: either both were there from the start, or the generator
    exited with 0 and the script then saw both files.  A generator that
    exits with 0 without writing them does not make the script succeed. *)
Theorem font_script_success_means_metadata :
  forall (env : option string) (w : world) (out : string),
    env = Some out ->
    exit_code (fst (generate dir platform tool env w)) = 0%Z ->
    exists_node (files (snd (generate dir platform tool env w))) (allFontsJs out) = true /\
    exists_node (files (snd (generate dir platform tool env w))) (fontSelectionBin out) = true.
Proof.
  intros env w out ->. destruct (String.eqb_spec out "") as [->|Hne];
    [intros H; discriminate H|].
  rewrite generate_some by exact Hne.
  unfold checkExistingFonts. rewrite bind_assoc, bind_existsSync.
  destruct (exists_node (files w) (allFontsJs out)) eqn:Ha.
  - rewrite bind_existsSync. rewrite files_log.
    destruct (exists_node (files w) (fontSelectionBin out)) eqn:Hb.
    + intros _. unfold ret. cbn [snd]. rewrite !files_log. split; assumption.
    + apply regenerate_success.
  - rewrite bind_ret. apply regenerate_success.
Qed.

Lemma locateBinary_missing w :
  (forall bin, expected_binary dir platform = Some bin ->
     exists_node (files w) bin = false) ->
  exists msg w1,
    locateBinary dir platform w = (Ok (inl msg), w1) /\
    files w1 = files w /\ spawned (trace w1) = spawned (trace w).
Proof.
  unfold expected_binary, locateBinary, locate. intros Hno.
  repeat match goal with |- context [if String.eqb ?a ?b then _ else _] =>
           destruct (String.eqb a b) end;
    rewrite ?bind_existsSync, ?(Hno _ eq_refl); unfold ret; eexists _, _;
    (split; [reflexivity|]); cbn [files trace log]; (split; [reflexivity|]);
    rewrite ?spawned_app; cbn; rewrite ?orb_false_r; reflexivity.
Qed.

(** X14. The font script does nothing it need not do.  With both metadata
    files on disk it ends with exit code 0 after two existence tests.
    Without [FONT_DATA_DIR] it fails at once.  Without a generator binary
    in the converter directory it fails before it creates the output
    directories.  In all three cases the tree is left as it was and the
    generator is not launched. *)
Theorem font_script_is_idle_without_need :
  forall (env : option string) (w : world),
    let r := fst (generate dir platform tool env w) in
    let w' := snd (generate dir platform tool env w) in
    (forall out, env = Some out -> out <> "" ->
       exists_node (files w) (allFontsJs out) = true ->
       exists_node (files w) (fontSelectionBin out) = true ->
       r = Ok Finished /\ files w' = files w /\
       trace w' = trace w ++ [EvExists (allFontsJs out); EvExists (fontSelectionBin out)]) /\
    (env = None \/ env = Some "" ->
       r = Ok (Failed "FONT_DATA_DIR environment variable is required") /\ w' = w) /\
    (forall out, env = Some out -> out <> "" ->
       exists_node (files w) (allFontsJs out)
         && exists_node (files w) (fontSelectionBin out) = false ->
       (forall bin, expected_binary dir platform = Some bin ->
          exists_node (files w) bin = false) ->
       exit_code r = 1%Z /\ files w' = files w /\ spawned (trace w') = spawned (trace w)).
Proof.
  intros env w r w'. subst r w'. split; [|split].
  - intros out -> Hne Ha Hb. rewrite generate_some by exact Hne.
    unfold checkExistingFonts. rewrite bind_assoc, bind_existsSync, Ha.
    rewrite bind_existsSync, files_log, Hb. unfold ret. cbn [fst snd].
    split; [reflexivity|]. split; [reflexivity|]. norm_world. reflexivity.
  - intros [-> | ->]; split; reflexivity.
  - intros out -> Hne Hnot Hno. rewrite generate_some by exact Hne.
    assert (Hrest : forall w0, files w0 = files w ->
              spawned (trace w0) = spawned (trace w) ->
              exit_code (fst (regenerate dir platform tool out w0)) = 1%Z /\
              files (snd (regenerate dir platform tool out w0)) = files w /\
              spawned (trace (snd (regenerate dir platform tool out w0)))
                = spawned (trace w)).
    { intros w0 Hf Hs. unfold regenerate.
      destruct (locateBinary_missing w0) as (msg & w1 & E & Hf1 & Hs1).
      { intros bin Hbin. rewrite Hf. apply Hno, Hbin. }
      unfold bind. rewrite E. unfold ret. cbn [fst snd exit_code].
      split; [reflexivity|]. split; congruence. }
    unfold checkExistingFonts. rewrite bind_assoc, bind_existsSync.
    destruct (exists_node (files w) (allFontsJs out)) eqn:Ha.
    + rewrite bind_existsSync, files_log.
      cbn [andb] in Hnot. rewrite Hnot.
      apply Hrest; [reflexivity|]. norm_world. rewrite !spawned_app. cbn.
      rewrite !orb_false_r. reflexivity.
    + rewrite bind_ret. apply Hrest; [reflexivity|].
      norm_world. rewrite spawned_app. cbn. rewrite orb_false_r. reflexivity.
Qed.

End Fonts.

Lemma font_script_success_witness :
  Fs.exists_node (Fs.files Sample2.w_tools) (FontScript.allFontsJs Sample2.fontdata) = false /\
  FontScript.exit_code
    (fst (FontScript.generate Sample2.scripts "linux" Sample2.gen_ok
            (Some Sample2.fontdata) Sample2.w_tools)) = 0%Z /\
  Fs.exists_node
    (Fs.files (snd (FontScript.generate Sample2.scripts "linux" Sample2.gen_ok
                      (Some Sample2.fontdata) Sample2.w_tools)))
    (FontScript.allFontsJs Sample2.fontdata) = true /\
  FontScript.exit_code
    (fst (FontScript.generate Sample2.scripts "linux" Sample2.gen_idle
            (Some Sample2.fontdata) Sample2.w_tools)) = 1%Z.
Proof.
  assert (Hexit : FontScript.exit_code
            (fst (FontScript.generate Sample2.scripts "linux" Sample2.gen_ok
                    (Some Sample2.fontdata) Sample2.w_tools)) = 0%Z)
    by (vm_compute; reflexivity).
  split; [vm_compute; reflexivity|]. split; [exact Hexit|].
  split; [|vm_compute; reflexivity].
  exact (proj1 (font_script_success_means_metadata Sample2.scripts "linux" Sample2.gen_ok
                  (Some Sample2.fontdata) Sample2.w_tools Sample2.fontdata eq_refl Hexit)).
Defined.

Lemma font_script_idle_witness :
  FontScript.exit_code
    (fst (FontScript.generate Sample2.scripts "linux" Sample2.gen_ok
            (Some Sample2.fontdata) Sample.w0)) = 1%Z /\
  Fs.files (snd (FontScript.generate Sample2.scripts "linux" Sample2.gen_ok
                   (Some Sample2.fontdata) Sample.w0)) = Fs.files Sample.w0.
Proof.
  destruct (font_script_is_idle_without_need Sample2.scripts "linux" Sample2.gen_ok
              (Some Sample2.fontdata) Sample.w0) as (_ & _ & H).
  destruct (H Sample2.fontdata eq_refl) as (Hexit & Hfiles & _).
  - discriminate.
  - vm_compute. reflexivity.
  - intros bin Hbin. vm_compute in Hbin. injection Hbin as <-. vm_compute. reflexivity.
  - split; assumption.
Defined.
(* ===================================================================== *)
(** ** A conversion fills the cache *)
(* ===================================================================== *)

Section Ensure.
Import Str Utils Fs Server Obs Norm.

Lemma ensure_dir_lookup t d (m : gmap string node) q :
  ensure_dir t d m !! q =
  match m !! q with
  | Some x => Some x
  | None =>
      if negb (exists_node m d) && existsb (String.eqb q) (Path.ancestors d)
      then Some (Dir t) else None
  end.
Proof.
  unfold ensure_dir. destruct (exists_node m d); cbn [negb andb].
  - destruct (m !! q); reflexivity.
  - apply mkdir_chain_lookup.
Qed.

Lemma ensure_dir_old t d (m : gmap string node) q x :
  m !! q = Some x -> ensure_dir t d m !! q = Some x.
Proof. intros H. rewrite ensure_dir_lookup, H. reflexivity. Qed.

Lemma ensure_dir_outside t d (m : gmap string node) q :
  ~ In q (Path.ancestors d) -> ensure_dir t d m !! q = m !! q.
Proof.
  intros Hq. rewrite ensure_dir_lookup. destruct (m !! q); [reflexivity|].
  destruct (existsb (String.eqb q) (Path.ancestors d)) eqn:E.
  - apply existsb_exists in E as (a & Ha & Eq). apply String.eqb_eq in Eq. subst a.
    contradiction.
  - rewrite andb_false_r. reflexivity.
Qed.

Lemma ensure_dir_is_dir t d (m : gmap string node) :
  creatable m d = true -> is_dir (ensure_dir t d m) d = true.
Proof.
  intros Hc. destruct (creatable_not_file _ _ Hc) as [Hnf _].
  unfold is_dir. rewrite ensure_dir_lookup. unfold exists_node, is_file in *.
  destruct (m !! d) as [[?|?]|]; [discriminate Hnf|reflexivity|]. cbn [negb andb].
  destruct (ancestors_head d) as [rest ->]. cbn [existsb]. rewrite String.eqb_refl.
  reflexivity.
Qed.

(** The two calls that prepare a directory, with the tree they leave. *)
Lemma prepare_exact d w :
  creatable (files w) d = true ->
  forall B (k : unit -> M B),
    bind (existsSync d)
      (fun have => bind (if negb have then mkdirSync_recursive d else ret tt) k) w
    = k tt (World (ensure_dir (now w) d (files w)) (now w)
              (trace w ++ EvExists d
                 :: (if exists_node (files w) d then [] else [EvMkdir d]))).
Proof.
  intros Hc B k. destruct (creatable_not_file _ _ Hc) as [Hnf Hchain].
  rewrite bind_existsSync. unfold ensure_dir.
  destruct (exists_node (files w) d) eqn:Hd; cbn [negb].
  - rewrite bind_ret. reflexivity.
  - unfold bind at 1, mkdirSync_recursive. rewrite !files_log, Hnf, Hchain.
    norm_world. reflexivity.
Qed.

End Ensure.

Section Fill.
Import Str Utils Fs Server Obs Norm Step.

Variables (dir fonts : string) (iso : Z -> string).

Lemma lower_hex_not_sep c : is_lower_hex c = true -> Path.not_sep c = true.
Proof.
  destruct c as [[] [] [] [] [] [] [] []]; intros H; try reflexivity; discriminate H.
Qed.

(** A fingerprint is a plain path component. *)
Lemma clean_hash p : clean_name (generateFileHash p) = true.
Proof.
  destruct (generateFileHash_shape p) as [Hlen Hhex].
  unfold clean_name, clean_seg.
  assert (Hnot : forall t, String.length t <> 32%nat ->
            Path.seg_is (chars (generateFileHash p)) t = false).
  { intros t Ht. destruct (Path.seg_is _ t) eqn:E; [|reflexivity].
    apply seg_is_iff in E. apply (f_equal str) in E. rewrite !str_chars in E.
    rewrite E in Hlen. contradiction. }
  rewrite !Hnot by (cbn; lia). cbn [negb andb].
  apply forallb_forall. intros c Hc. apply lower_hex_not_sep.
  rewrite forallb_forall in Hhex. apply Hhex, Hc.
Qed.

(** The paths of a convert request, in normal form. *)
Lemma convert_paths p :
  posix_absolute dir = true ->
  exists S,
    all_clean S /\ S <> [] /\
    convert_outputDir dir p = render S /\
    convert_outputPath dir p = render (S ++ [chars "Editor.bin"]) /\
    convert_paramsPath dir p = render (S ++ [chars "params_temp.xml"]).
Proof.
  intros Habs.
  destruct (outputDir_render dir (generateFileHash p) Habs (clean_hash p)) as [Ho Hc].
  exists (segments dir ++ [chars "test"; chars "output"; chars (generateFileHash p)]).
  split; [exact Hc|]. split; [destruct (segments dir); discriminate|].
  split; [exact Ho|].
  unfold convert_outputPath, convert_paramsPath.
  change (convert_outputDir dir p) with (Routes.outputDir_of dir (generateFileHash p)).
  rewrite Ho. split; (rewrite join_render; [reflexivity|exact Hc|discriminate|]);
    repeat constructor.
Qed.

Lemma render_last_ne S x y : all_clean S -> clean_seg x = true -> clean_seg y = true ->
  x <> y -> render (S ++ [x]) <> render (S ++ [y]).
Proof.
  intros Hc Hx Hy Hne E. apply render_inj in E.
  - apply app_inv_head in E. injection E as E. contradiction.
  - apply Forall_app. split; [exact Hc|repeat constructor; exact Hx].
  - apply Forall_app. split; [exact Hc|repeat constructor; exact Hy].
Qed.

Lemma write_node_ok p d t (m : gmap string node) :
  is_dir m p = false -> is_dir m (Path.dirname p) = true ->
  write_node p d t m = inr (<[p := File t d]> m).
Proof.
  unfold write_node, is_dir. intros Hp Hd.
  destruct (m !! p) as [[?|?]|]; try discriminate Hp;
    destruct (m !! Path.dirname p) as [[?|?]|]; try discriminate Hd; reflexivity.
Qed.

(** What the synchronous part of a convert request leaves behind on a
    miss, when the working directory can be created and nothing stands in
    the descriptor's place. *)
Lemma api_convert_miss_exact p w n :
  isAbsolutePath p = true ->
  files w !! p = Some n ->
  stale (files w) (convert_outputPath dir p) p = true ->
  creatable (files w) (convert_outputDir dir p) = true ->
  Path.dirname (convert_paramsPath dir p) = convert_outputDir dir p ->
  is_dir (ensure_dir (now w) (convert_outputDir dir p) (files w))
    (convert_paramsPath dir p) = false ->
  exists xml tr,
    api_convert dir fonts iso (Some p) w
    = (Ok (Waiting (convert_child dir p)),
       World (<[convert_paramsPath dir p := File (now w) xml]>
                (ensure_dir (now w) (convert_outputDir dir p) (files w)))
         (now w) tr).
Proof.
  intros Habs Hsrc Hstale Hcre Hdn Hpd.
  destruct (absolute_nonempty p Habs) as (a & p' & ->).
  unfold stale in Hstale.
  unfold convert_child, convert_paramsPath, convert_outputPath, convert_outputDir in *.
  cbv beta iota zeta delta [api_convert].
  set (fp := String a p') in *.
  set (h := generateFileHash fp) in *.
  set (od := Path.join [dir; "test"; "output"; h]) in *.
  set (out := Path.join [od; "Editor.bin"]) in *.
  set (params := Path.join [od; "params_temp.xml"]) in *.
  rewrite Habs. rewrite Hsrc in Hstale.
  cbv beta iota delta [negb].
  rewrite bind_existsSync, (exists_node_some _ _ _ Hsrc). cbv beta iota delta [negb].
  rewrite (bind_statSync _ n) by (rewrite files_log; exact Hsrc).
  rewrite bind_existsSync. rewrite !files_log.
  set (w2 := log (EvExists out) (log (EvStat fp) (log (EvExists fp) w))).
  assert (Hmiss : exists w3,
             files w3 = files w /\ now w3 = now w /\
             forall B (k : option response -> M B),
               bind (if exists_node (files w) out
                     then (let* cacheStat := statSync out in
                           if Z.gtb (mtime cacheStat) (mtime (stat_of n))
                           then (let* binaryData := readFileSync out in
                                 ret (Some (Response 200 (editor_bin_headers h "HIT")
                                              (Binary binaryData))))
                           else ret None)%fs
                     else ret None) k w2 = k None w3).
  { destruct (files w !! out) as [art|] eqn:Hout.
    - exists (log (EvStat out) w2). repeat split.
      intros B k. rewrite (exists_node_some _ _ _ Hout).
      rewrite bind_assoc, (bind_statSync _ art) by exact Hout.
      apply negb_true_iff in Hstale. rewrite Hstale. reflexivity.
    - exists w2. repeat split.
      intros B k. rewrite (exists_node_none _ _ Hout). reflexivity. }
  destruct Hmiss as (w3 & Hf3 & Hn3 & Hk). rewrite Hk. clear Hk.
  rewrite prepare_exact by (rewrite Hf3; exact Hcre).
  rewrite bind_timestamp. cbn [now]. rewrite Hf3, Hn3.
  match goal with |- context [writeFileSync params ?d] => set (xml := d) end.
  exists xml.
  rewrite (bind_writeFileSync_ok _ _
             (<[params := File (now w) xml]> (ensure_dir (now w) od (files w)))).
  2:{ cbn [now files]. apply write_node_ok; [exact Hpd|]. rewrite Hdn.
      apply ensure_dir_is_dir, Hcre. }
  rewrite bind_spawn. unfold ret. eexists. unfold set_files, log. cbn [files now trace].
  reflexivity.
Qed.


(** The tree the [close] listener of the convert path leaves. *)
Lemma convert_close_files pp op fh code out err w :
  is_file (files w) pp = true ->
  files (snd (convert_on_close pp op fh code out err w)) = delete pp (files w).
Proof.
  unfold is_file. intros H. destruct (files w !! pp) as [[t d|t]|] eqn:Hp; try discriminate.
  unfold convert_on_close, try_catch.
  unfold bind at 1. unfold unlinkSync at 1. rewrite Hp. cbn [ret].
  set (w1 := set_files (delete pp (files w)) (log (EvUnlink pp) w)).
  assert (Hw1 : files w1 = delete pp (files w)) by reflexivity.
  destruct (code_nonzero code); [exact Hw1|].
  rewrite bind_existsSync. destruct (exists_node (files w1) op); cbn [negb]; [|exact Hw1].
  unfold bind, readFileSync. rewrite files_log.
  destruct (files w1 !! op) as [[?|?]|]; exact Hw1.
Qed.

(** X15. A conversion fills the cache.  Take a source that is older than
    the clock, no usable artifact, a working directory that can be
    created, and a converter that exits with 0 and writes the artifact.
    Then the request is answered with the converter's bytes as a cache
    miss, and from then on every request for the same source is answered
    with the same bytes as a cache hit, without launching a converter and
    without touching the tree. *)
Theorem conversion_fills_the_cache :
  forall (x2t x2t' : converter) (p : string) (w : world) (n : node)
         (d : list Byte.byte),
    posix_absolute dir = true ->
    isAbsolutePath p = true ->
    files w !! p = Some n ->
    (mtime (stat_of n) < now w)%Z ->
    creatable (files w) (convert_outputDir dir p) = true ->
    stale (files w) (convert_outputPath dir p) p = true ->
    is_dir (files w) (convert_outputPath dir p) = false ->
    is_dir (files w) (convert_paramsPath dir p) = false ->
    p <> convert_outputPath dir p ->
    p <> convert_paramsPath dir p ->
    (forall cmd argv m,
       outcome (x2t cmd argv m) = Exited 0 /\
       writes (x2t cmd argv m) = [(convert_outputPath dir p, d)]) ->
    fst (convert dir fonts iso x2t (Some p) w)
    = Replied (Response 200 (editor_bin_headers (generateFileHash p) "MISS") (Binary d)) /\
    forall w2,
      files w2 = files (snd (convert dir fonts iso x2t (Some p) w)) ->
      fst (convert dir fonts iso x2t' (Some p) w2)
      = Replied (Response 200 (editor_bin_headers (generateFileHash p) "HIT") (Binary d)) /\
      files (snd (convert dir fonts iso x2t' (Some p) w2)) = files w2 /\
      spawned (trace (snd (convert dir fonts iso x2t' (Some p) w2))) = spawned (trace w2).
Proof.
  intros x2t x2t' p w n d Hdir Habs Hsrc Hnew Hcre Hst Hod_nd Hpd_nd Hp_out Hp_par Hx.
  destruct (convert_paths p Hdir) as (S & Hc & HS & Hod & Hout & Hpar).
  set (od := convert_outputDir dir p) in *.
  set (out := convert_outputPath dir p) in *.
  set (params := convert_paramsPath dir p) in *.
  assert (Hcx : clean_seg (chars "Editor.bin") = true) by reflexivity.
  assert (Hcy : clean_seg (chars "params_temp.xml") = true) by reflexivity.
  assert (Hdn_out : Path.dirname out = od)
    by (rewrite Hout, Hod; apply dirname_render; assumption).
  assert (Hdn_par : Path.dirname params = od)
    by (rewrite Hpar, Hod; apply dirname_render; assumption).
  assert (Hne : out <> params).
  { rewrite Hout, Hpar. apply render_last_ne; try assumption. discriminate. }
  assert (Hod_out : od <> out)
    by (rewrite Hod, Hout; intros E; symmetry in E; revert E; apply render_snoc_ne; assumption).
  assert (Hod_par : od <> params)
    by (rewrite Hod, Hpar; intros E; symmetry in E; revert E; apply render_snoc_ne; assumption).
  assert (Hanc_out : ~ In out (Path.ancestors od)).
  { rewrite Hod, Hout. intros Hin. exact (below_not_ancestor S _ _ Hc Hcx Hin eq_refl). }
  assert (Hanc_par : ~ In params (Path.ancestors od)).
  { rewrite Hod, Hpar. intros Hin. exact (below_not_ancestor S _ _ Hc Hcy Hin eq_refl). }
  set (m1 := ensure_dir (now w) od (files w)).
  assert (H1out : m1 !! out = files w !! out) by (apply ensure_dir_outside; exact Hanc_out).
  assert (H1par : m1 !! params = files w !! params)
    by (apply ensure_dir_outside; exact Hanc_par).
  assert (H1p : m1 !! p = Some n) by (apply ensure_dir_old; exact Hsrc).
  assert (H1od : is_dir m1 od = true) by (apply ensure_dir_is_dir; exact Hcre).
  destruct (api_convert_miss_exact p w n Habs Hsrc Hst Hcre Hdn_par) as (xml & tr & E).
  { change (is_dir m1 params = false). unfold is_dir. rewrite H1par. exact Hpd_nd. }
  change (api_convert dir fonts iso (Some p) w
          = (Ok (Waiting (convert_child dir p)),
             World (<[params := File (now w) xml]> m1) (now w) tr)) in E.
  set (m2 := <[params := File (now w) xml]> m1) in *.
  set (m3 := <[out := File (now w) d]> m2).
  assert (Hw3 : apply_writes (now w) [(out, d)] m2 = m3).
  { unfold apply_writes. cbn [fold_left fst snd]. rewrite write_node_ok; [reflexivity| |].
    - unfold is_dir, m2. rewrite lookup_insert_ne by (intros X; apply Hne; symmetry; exact X).
      rewrite H1out. exact Hod_nd.
    - rewrite Hdn_out. unfold is_dir, m2 in *.
      rewrite lookup_insert_ne by (intros X; apply Hod_par; symmetry; exact X). exact H1od. }
  assert (H3par : is_file m3 params = true).
  { unfold is_file, m3, m2. rewrite lookup_insert_ne by exact Hne.
    rewrite lookup_insert_eq. reflexivity. }
  assert (H4out : delete params m3 !! out = Some (File (now w) d)).
  { rewrite lookup_delete_ne by (intros X; apply Hne; symmetry; exact X).
    unfold m3. apply lookup_insert_eq. }
  assert (H4p : delete params m3 !! p = Some n).
  { rewrite lookup_delete_ne by (intros X; apply Hp_par; symmetry; exact X).
    unfold m3, m2.
    rewrite lookup_insert_ne by (intros X; apply Hp_out; symmetry; exact X).
    rewrite lookup_insert_ne by (intros X; apply Hp_par; symmetry; exact X). exact H1p. }
  (* the first request *)
  assert (Hrun : convert dir fonts iso x2t (Some p) w
                 = finish (convert_on_close params out (generateFileHash p) (Some 0%Z)
                             (stdout (x2t (x2tPath dir) [params] m2))
                             (stderr (x2t (x2tPath dir) [params] m2))
                             (World m3 (now w) tr))).
  { unfold convert. rewrite (serve_waiting _ _ _ _ _ E).
    unfold settle, convert_child. cbn [command args error_listener close_listener files now].
    fold params out.
    destruct (Hx (x2tPath dir) [params] m2) as [Ho Hw]. rewrite Ho, Hw. cbn [close_code].
    rewrite Hw3. reflexivity. }
  assert (Hfiles : files (snd (convert dir fonts iso x2t (Some p) w)) = delete params m3).
  { rewrite Hrun, finish_snd. apply convert_close_files. exact H3par. }
  split.
  - rewrite Hrun, finish_fst.
    rewrite (convert_close_success _ _ _ (Some 0%Z) _ _ _ eq_refl (now w) d).
    + reflexivity.
    + rewrite convert_close_files by exact H3par. exact H4out.
  - intros w2 Hf2. rewrite Hfiles in Hf2.
    assert (Hfresh : fresh (files w2) out p = true).
    { unfold fresh. rewrite Hf2, H4out, H4p. apply Z.gtb_lt. exact Hnew. }
    destruct (api_convert_hit dir fonts iso p w2 Habs Hfresh) as (t & d0 & Hl & E2).
    fold out in Hl, E2. rewrite Hf2, H4out in Hl. injection Hl as <- <-.
    unfold convert. rewrite (serve_sent _ _ _ _ _ E2). cbn [fst snd files trace].
    split; [reflexivity|]. split; [reflexivity|].
    rewrite spawned_app. cbn. apply orb_false_r.
Qed.

End Fill.

Lemma conversion_fills_the_cache_witness :
  Obs.stale (Fs.files Sample.w0) (Obs.convert_outputPath Sample.dir Sample.source)
    Sample.source = true /\
  fst (Server.convert Sample.dir Sample.fonts Sample.iso Sample.x2t_ok
         (Some Sample.source) Sample.w0)
  = Server.Replied
      (Server.Response 200
         (Server.editor_bin_headers (Utils.generateFileHash Sample.source) "MISS")
         (Server.Binary Sample.artifact)) /\
  fst (Server.convert Sample.dir Sample.fonts Sample.iso Sample.x2t_fail
         (Some Sample.source)
         (snd (Server.convert Sample.dir Sample.fonts Sample.iso Sample.x2t_ok
                 (Some Sample.source) Sample.w0)))
  = Server.Replied
      (Server.Response 200
         (Server.editor_bin_headers (Utils.generateFileHash Sample.source) "HIT")
         (Server.Binary Sample.artifact)).
Proof.
  assert (Hst : Obs.stale (Fs.files Sample.w0)
                  (Obs.convert_outputPath Sample.dir Sample.source) Sample.source = true)
    by (vm_compute; reflexivity).
  split; [exact Hst|].
  destruct (conversion_fills_the_cache Sample.dir Sample.fonts Sample.iso
              Sample.x2t_ok Sample.x2t_fail Sample.source Sample.w0
              (Fs.File 10 [Byte.x61; Byte.x2c; Byte.x62]) Sample.artifact) as [H1 H2].
  - reflexivity.
  - reflexivity.
  - vm_compute. reflexivity.
  - reflexivity.
  - vm_compute. reflexivity.
  - exact Hst.
  - vm_compute. reflexivity.
  - vm_compute. reflexivity.
  - vm_compute. discriminate.
  - vm_compute. discriminate.
  - intros cmd argv m. split; reflexivity.
  - split; [exact H1|]. exact (proj1 (H2 _ eq_refl)).
Defined.
(* ===================================================================== *)
(** ** The launch of a conversion *)
(* ===================================================================== *)

Section Launch.
Import Str Utils Fs Server Obs Inv Norm Step.

Variables (dir fonts : string) (iso : Z -> string).

(** With a stale cache the convert handler arrives at the preparation of
    the run after read-only calls. *)
Lemma api_convert_after_check p w n :
  isAbsolutePath p = true ->
  files w !! p = Some n ->
  stale (files w) (convert_outputPath dir p) p = true ->
  exists seen,
    spawned seen = false /\
    api_convert dir fonts iso (Some p) w
    = convert_launch dir fonts iso p (World (files w) (now w) (trace w ++ seen)).
Proof.
  intros Habs Hsrc Hstale.
  destruct (absolute_nonempty p Habs) as (a & p' & ->).
  unfold stale in Hstale.
  unfold convert_launch, convert_child, convert_paramsPath, convert_outputPath,
    convert_outputDir in *.
  cbv beta iota zeta delta [api_convert].
  set (fp := String a p') in *.
  set (h := generateFileHash fp) in *.
  set (od := Path.join [dir; "test"; "output"; h]) in *.
  set (out := Path.join [od; "Editor.bin"]) in *.
  set (params := Path.join [od; "params_temp.xml"]) in *.
  rewrite Habs. rewrite Hsrc in Hstale.
  cbv beta iota delta [negb].
  rewrite bind_existsSync, (exists_node_some _ _ _ Hsrc). cbv beta iota delta [negb].
  rewrite (bind_statSync _ n) by (rewrite files_log; exact Hsrc).
  rewrite bind_existsSync. rewrite !files_log.
  destruct (files w !! out) as [art|] eqn:Hout.
  - exists [EvExists fp; EvStat fp; EvExists out; EvStat out]. split; [reflexivity|].
    rewrite (exists_node_some _ _ _ Hout).
    rewrite bind_assoc, (bind_statSync _ art) by exact Hout.
    apply negb_true_iff in Hstale. rewrite Hstale. rewrite bind_ret.
    assert (Hw : log (EvStat out) (log (EvExists out) (log (EvStat fp) (log (EvExists fp) w)))
                 = World (files w) (now w)
                     (trace w ++ [EvExists fp; EvStat fp; EvExists out; EvStat out]))
      by (norm_world; reflexivity).
    rewrite <- Hw. reflexivity.
  - exists [EvExists fp; EvStat fp; EvExists out]. split; [reflexivity|].
    rewrite (exists_node_none _ _ Hout). rewrite bind_ret.
    assert (Hw : log (EvExists out) (log (EvStat fp) (log (EvExists fp) w))
                 = World (files w) (now w) (trace w ++ [EvExists fp; EvStat fp; EvExists out]))
      by (norm_world; reflexivity).
    rewrite <- Hw. reflexivity.
Qed.

(** The two calls that prepare a directory that is there, or that can be
    created. *)
Lemma prepare_ready d w :
  is_dir (files w) d = true \/
  (exists_node (files w) d = false /\ creatable (files w) d = true) ->
  is_dir (ensure_dir (now w) d (files w)) d = true /\
  forall B (k : unit -> M B),
    bind (existsSync d)
      (fun have => bind (if negb have then mkdirSync_recursive d else ret tt) k) w
    = k tt (World (ensure_dir (now w) d (files w)) (now w)
              (trace w ++ EvExists d
                 :: (if exists_node (files w) d then [] else [EvMkdir d]))).
Proof.
  intros [Hd|[_ Hc]].
  - assert (He : exists_node (files w) d = true).
    { unfold is_dir, exists_node in *. destruct (files w !! d); [reflexivity|discriminate]. }
    unfold ensure_dir. rewrite He. split; [exact Hd|].
    intros B k. rewrite bind_existsSync, He. cbn [negb]. rewrite bind_ret. reflexivity.
  - split; [apply ensure_dir_is_dir, Hc|]. intros B k. apply prepare_exact, Hc.
Qed.

(** The run is prepared when the working directory is there or can be
    created and no directory stands in the descriptor's place. *)
Lemma convert_launch_ready p w :
  Path.dirname (convert_paramsPath dir p) = convert_outputDir dir p ->
  convert_paramsPath dir p <> convert_outputDir dir p ->
  is_dir (files w) (convert_outputDir dir p) = true \/
  (exists_node (files w) (convert_outputDir dir p) = false /\
   creatable (files w) (convert_outputDir dir p) = true) ->
  is_dir (ensure_dir (now w) (convert_outputDir dir p) (files w))
    (convert_paramsPath dir p) = false ->
  let xml :=
    bytes_of (convert_xmlConfig p (convert_outputPath dir p) (Path.basename p) fonts
                (themeDir dir) (iso (now w))) in
  let w1 :=
    World (<[convert_paramsPath dir p := File (now w) xml]>
             (ensure_dir (now w) (convert_outputDir dir p) (files w)))
      (now w)
      (trace w ++
       (EvExists (convert_outputDir dir p)
          :: (if exists_node (files w) (convert_outputDir dir p) then []
              else [EvMkdir (convert_outputDir dir p)])
          ++ [EvWrite (convert_paramsPath dir p)])
       ++ [EvSpawn (x2tPath dir) [convert_paramsPath dir p]]) in
  convert_launch dir fonts iso p w = (Ok (Waiting (convert_child dir p)), w1) /\
  is_dir (files w1) (convert_outputDir dir p) = true.
Proof.
  intros Hdn Hne Hready Hpd xml w1. subst w1.
  destruct (prepare_ready _ w Hready) as [Hod Hrun].
  split.
  - unfold convert_launch. cbv zeta. rewrite Hrun. rewrite bind_timestamp. cbn [now].
    fold xml.
    rewrite (bind_writeFileSync_ok _ _
               (<[convert_paramsPath dir p := File (now w) xml]>
                  (ensure_dir (now w) (convert_outputDir dir p) (files w)))).
    2:{ cbn [now files]. apply write_node_ok; [exact Hpd|]. rewrite Hdn. exact Hod. }
    rewrite bind_spawn. unfold ret, set_files, log. cbn [files now trace].
    destruct (exists_node (files w) (convert_outputDir dir p));
      rewrite <- ?app_assoc; reflexivity.
  - cbn [files]. unfold is_dir. rewrite lookup_insert_ne by exact Hne. exact Hod.
Qed.

(** The run is not prepared when a file stands in the place of the
    working directory or of one of its ancestors, or a directory in the
    place of the descriptor: the handler throws, and nothing is
    launched. *)
Lemma convert_launch_blocked p w :
  Path.dirname (convert_paramsPath dir p) = convert_outputDir dir p ->
  is_file (files w) (convert_outputDir dir p) = true \/
  (exists_node (files w) (convert_outputDir dir p) = false /\
   creatable (files w) (convert_outputDir dir p) = false) \/
  is_dir (files w) (convert_paramsPath dir p) = true ->
  exists e w1 seen,
    convert_launch dir fonts iso p w = (Throw e, w1) /\
    trace w1 = trace w ++ seen /\ spawned seen = false.
Proof.
  intros Hdn Hblocked. unfold convert_launch. cbv zeta.
  set (od := convert_outputDir dir p) in *.
  set (params := convert_paramsPath dir p) in *.
  rewrite bind_existsSync.
  assert (Hwrite : forall (m : gmap string node) d t,
            is_file m od = true \/ is_dir m params = true ->
            exists e, write_node params d t m = inl e).
  { intros m d t H. unfold write_node, is_file, is_dir in *. rewrite Hdn.
    destruct (m !! params) as [[?|?]|]; destruct (m !! od) as [[?|?]|];
      destruct H as [H|H]; try discriminate H; eauto. }
  destruct (exists_node (files w) od) eqn:Hex; cbn [negb].
  - rewrite bind_ret, bind_timestamp.
    match goal with |- context [writeFileSync params ?d] => set (xml := d) end.
    destruct (Hwrite (files (log (EvExists od) w)) xml (now (log (EvExists od) w)))
      as [e He].
    { rewrite files_log. destruct Hblocked as [H|[[H _]|H]]; [left; exact H| |right; exact H].
      discriminate H. }
    rewrite (bind_writeFileSync_err _ _ e) by exact He.
    eexists _, _, [EvExists od; EvWrite params]. split; [reflexivity|].
    split; [norm_world; reflexivity|reflexivity].
  - unfold bind at 1, mkdirSync_recursive. rewrite !files_log.
    destruct (is_file (files w) od) eqn:Hf.
    { eexists _, _, [EvExists od; EvMkdir od]. split; [reflexivity|].
      split; [norm_world; reflexivity|reflexivity]. }
    destruct (existsb (is_file (files w)) (Path.ancestors od)) eqn:Hchain.
    { eexists _, _, [EvExists od; EvMkdir od]. split; [reflexivity|].
      split; [norm_world; reflexivity|reflexivity]. }
    rewrite bind_timestamp.
    match goal with |- context [writeFileSync params ?d] => set (xml := d) end.
    match goal with
    | |- context [bind (writeFileSync params xml) _ ?w0] => set (w2 := w0)
    end.
    destruct (Hwrite (files w2) xml (now w2)) as [e He].
    { right. destruct Hblocked as [H|[[_ H]|H]].
      - discriminate H.
      - unfold creatable in H. rewrite Hchain in H. discriminate H.
      - subst w2. cbn [files set_files]. apply dirs_kept_mkdir. exact H. }
    rewrite (bind_writeFileSync_err _ _ e) by exact He.
    eexists _, _, [EvExists od; EvMkdir od; EvWrite params]. split; [reflexivity|].
    split; [subst w2; norm_world; reflexivity|reflexivity].
Qed.

(** What is on disk when the preparation has handed over to the
    converter: the descriptor, written at the time of the request. *)
Lemma convert_launch_waiting p w c w1 :
  convert_launch dir fonts iso p w = (Ok (Waiting c), w1) ->
  c = convert_child dir p /\
  now w1 = now w /\
  files w1 !! convert_paramsPath dir p
  = Some (File (now w)
            (bytes_of (convert_xmlConfig p (convert_outputPath dir p) (Path.basename p)
                         fonts (themeDir dir) (iso (now w))))).
Proof.
  unfold convert_launch. cbv zeta. intros E.
  destruct (prepare_cases (convert_outputDir dir p) w) as (r & w0 & Hnow & Hrun).
  rewrite Hrun in E. destruct r as [[]|e]; [|discriminate E].
  rewrite bind_timestamp in E. rewrite Hnow in E.
  match type of E with context [writeFileSync _ ?d] => set (xml := d) in * end.
  destruct (write_node (convert_paramsPath dir p) xml (now w0) (files w0)) as [e|m1] eqn:Hw.
  { rewrite (bind_writeFileSync_err _ _ e) in E by exact Hw. discriminate E. }
  rewrite (bind_writeFileSync_ok _ _ m1) in E by exact Hw.
  rewrite bind_spawn in E. unfold ret in E. injection E as <- <-.
  split; [reflexivity|]. split; [exact Hnow|].
  cbn [files log set_files]. rewrite (write_node_ok_lookup _ _ _ _ _ Hw), Hnow. reflexivity.
Qed.

(** The descriptor of a convert request that has launched the converter. *)
Lemma api_convert_descriptor p w c w1 :
  api_convert dir fonts iso (Some p) w = (Ok (Waiting c), w1) ->
  c = convert_child dir p /\
  now w1 = now w /\
  files w1 !! convert_paramsPath dir p
  = Some (File (now w)
            (bytes_of (convert_xmlConfig p (convert_outputPath dir p) (Path.basename p)
                         fonts (themeDir dir) (iso (now w))))).
Proof.
  intros E.
  destruct (isAbsolutePath p) eqn:Habs.
  2:{ destruct p as [|a p']; [discriminate E|].
      cbv beta iota zeta delta [api_convert] in E. rewrite Habs in E. discriminate E. }
  destruct (files w !! p) as [n|] eqn:Hsrc.
  - destruct (cache_state_cases (files w) (convert_outputPath dir p) p n Hsrc)
      as [Hf|[Hs|(t & Hout & Hnew)]].
    + destruct (api_convert_hit dir fonts iso p w Habs Hf) as (t & d & _ & E').
      rewrite E in E'. discriminate E'.
    + destruct (api_convert_after_check p w n Habs Hsrc Hs) as (seen & _ & E').
      rewrite E in E'. symmetry in E'.
      apply convert_launch_waiting in E'. exact E'.
    + destruct (api_convert_directory_artifact dir fonts iso p w t n Habs Hsrc Hout Hnew)
        as (e & w1' & E').
      rewrite E in E'. discriminate E'.
  - destruct (absolute_nonempty p Habs) as (a & p' & ->).
    cbv beta iota zeta delta [api_convert] in E. rewrite Habs in E.
    cbv beta iota delta [negb] in E.
    rewrite bind_existsSync, (exists_node_none _ _ Hsrc) in E. discriminate E.
Qed.

End Launch.
(* ===================================================================== *)
(** ** The cache rule *)
(* ===================================================================== *)

Section CacheRule.
Import Str Utils Fs Server Obs Inv Norm Step.

Variables (dir fonts : string) (iso : Z -> string).

(** Where the paths of a convert request lie. *)
Lemma convert_paths_apart p :
  posix_absolute dir = true ->
  Path.dirname (convert_paramsPath dir p) = convert_outputDir dir p /\
  convert_paramsPath dir p <> convert_outputDir dir p /\
  convert_outputPath dir p <> convert_paramsPath dir p /\
  ~ In (convert_paramsPath dir p) (Path.ancestors (convert_outputDir dir p)).
Proof.
  intros Hdir.
  destruct (convert_paths dir p Hdir) as (S & Hc & HS & Hod & Hout & Hpar).
  assert (Hcx : clean_seg (chars "Editor.bin") = true) by reflexivity.
  assert (Hcy : clean_seg (chars "params_temp.xml") = true) by reflexivity.
  rewrite Hod, Hout, Hpar. repeat split.
  - apply dirname_render; assumption.
  - apply render_snoc_ne; assumption.
  - apply render_last_ne; try assumption. discriminate.
  - intros Hin. exact (below_not_ancestor S _ _ Hc Hcy Hin eq_refl).
Qed.

(** What the [close] listener of the convert path answers after a run,
    read off the tree the converter left. *)
Lemma convert_settled (x2t : converter) p w1 :
  convert_outputPath dir p <> convert_paramsPath dir p ->
  is_file (files w1) (convert_paramsPath dir p) = true ->
  let run := x2t (x2tPath dir) [convert_paramsPath dir p] (files w1) in
  let left := apply_writes (now w1) (writes run) (files w1) in
  let r := fst (settle x2t (convert_child dir p) w1) in
  (outcome run = Exited 0 ->
     forall t d, left !! convert_outputPath dir p = Some (File t d) ->
       r = Replied (Response 200 (editor_bin_headers (generateFileHash p) "MISS")
                      (Binary d))) /\
  (outcome run = Exited 0 ->
     left !! convert_outputPath dir p = None ->
     r = Replied (send_text 500 "Conversion failed: output file not created")) /\
  (forall code, outcome run = Exited code -> code <> 0%Z ->
     r = Replied (send_text 500 ("Conversion failed: " +:+ stderr run))).
Proof.
  intros Hne Hpar run left r. subst r.
  unfold settle, convert_child. cbn [command args error_listener close_listener].
  fold run. fold left.
  set (w2 := set_files left w1).
  assert (Hp2 : is_file (files w2) (convert_paramsPath dir p) = true)
    by (apply is_file_apply_writes; exact Hpar).
  assert (Hfiles : forall code,
            files (snd (convert_on_close (convert_paramsPath dir p)
                          (convert_outputPath dir p) (generateFileHash p) code
                          (stdout run) (stderr run) w2))
              !! convert_outputPath dir p
            = left !! convert_outputPath dir p).
  { intros code. rewrite convert_close_files by exact Hp2.
    rewrite lookup_delete_ne by (intros X; apply Hne; symmetry; exact X). reflexivity. }
  split; [|split].
  - intros Ho t d Hl. rewrite Ho. cbn [close_code]. rewrite finish_fst.
    rewrite (convert_close_success _ _ _ (Some 0%Z) _ _ _ eq_refl t d);
      [reflexivity|]. rewrite Hfiles. exact Hl.
  - intros Ho Hl. rewrite Ho. cbn [close_code]. rewrite finish_fst.
    pose proof (convert_close_cases (convert_paramsPath dir p) (convert_outputPath dir p)
                  (generateFileHash p) (Some 0%Z) (stdout run) (stderr run) w2) as H.
    specialize (Hfiles (Some 0%Z)).
    destruct (convert_on_close _ _ _ (Some 0%Z) _ _ w2) as [res w3].
    destruct H as (_ & Hb & _). cbn [fst snd] in *. rewrite Hb; [reflexivity|reflexivity|].
    unfold exists_node. rewrite Hfiles, Hl. reflexivity.
  - intros code Ho Hcode. rewrite Ho. cbn [close_code]. rewrite finish_fst.
    pose proof (convert_close_cases (convert_paramsPath dir p) (convert_outputPath dir p)
                  (generateFileHash p) (Some code) (stdout run) (stderr run) w2) as H.
    destruct (convert_on_close _ _ _ (Some code) _ _ w2) as [res w3].
    destruct H as (Ha & _). cbn [fst]. rewrite Ha; [reflexivity|].
    cbn [code_nonzero]. apply negb_true_iff, Z.eqb_neq, Hcode.
Qed.

(** C1 (amended). For a convert request on an existing absolute source
    path.  The request is served from the cache (the bytes of
    [Editor.bin] returned unchanged, after read-only calls and no spawn)
    when the artifact is a file whose modification time is strictly
    greater than the source's, and a response marked as a cache hit is
    only ever sent in that case.  When there is no artifact, or its
    modification time is equal to or older than the source's, and the
    server directory is an absolute path:

    - if the working directory is there or can be created, and no
      directory stands in the place of the descriptor, the handler leaves
      the working directory and the descriptor on disk and launches the
      converter once; the bytes the converter left at the artifact's path
      are returned as a cache miss when it exits with code 0, the
      missing-output failure is answered when it exits with code 0 and
      left nothing there, and the conversion failure when it exits with
      another code;

    - otherwise (a file in the place of the working directory or of one
      of its ancestors, or a directory in the place of the descriptor)
      the handler throws and no converter is launched. *)
Theorem cache_hit_iff_fresh_else_convert :
  forall (x2t : converter) (p : string) (w : world),
    isAbsolutePath p = true ->
    exists_node (files w) p = true ->
    let od := convert_outputDir dir p in
    let out := convert_outputPath dir p in
    let params := convert_paramsPath dir p in
    let r := fst (convert dir fonts iso x2t (Some p) w) in
    let w' := snd (convert dir fonts iso x2t (Some p) w) in
    (fresh (files w) out p = true ->
       exists t d,
         files w !! out = Some (File t d) /\
         r = Replied (Response 200 (editor_bin_headers (generateFileHash p) "HIT") (Binary d)) /\
         files w' = files w /\
         trace w' = trace w ++ [EvExists p; EvStat p; EvExists out; EvStat out; EvRead out]) /\
    (forall resp, r = Replied resp -> header "X-Cache" resp = Some "HIT" ->
       fresh (files w) out p = true) /\
    (stale (files w) out p = true ->
     posix_absolute dir = true ->
     is_dir (files w) od = true \/
     (exists_node (files w) od = false /\ creatable (files w) od = true) ->
     is_dir (files w) params = false ->
     exists w1 seen,
       api_convert dir fonts iso (Some p) w = (Ok (Waiting (convert_child dir p)), w1) /\
       is_dir (files w1) od = true /\
       files w1 !! params
       = Some (File (now w)
                 (bytes_of (convert_xmlConfig p out (Path.basename p) fonts (themeDir dir)
                              (iso (now w))))) /\
       trace w1 = trace w ++ seen ++ [EvSpawn (x2tPath dir) [params]] /\
       spawned seen = false /\
       let run := x2t (x2tPath dir) [params] (files w1) in
       let left := apply_writes (now w1) (writes run) (files w1) in
       (outcome run = Exited 0 ->
          forall t d, left !! out = Some (File t d) ->
            r = Replied (Response 200 (editor_bin_headers (generateFileHash p) "MISS")
                           (Binary d))) /\
       (outcome run = Exited 0 -> left !! out = None ->
          r = Replied (send_text 500 "Conversion failed: output file not created")) /\
       (forall code, outcome run = Exited code -> code <> 0%Z ->
          r = Replied (send_text 500 ("Conversion failed: " +:+ stderr run)))) /\
    (stale (files w) out p = true ->
     posix_absolute dir = true ->
     is_file (files w) od = true \/
     (exists_node (files w) od = false /\ creatable (files w) od = false) \/
     is_dir (files w) params = true ->
     exists e seen,
       r = Uncaught e /\ trace w' = trace w ++ seen /\ spawned seen = false).
Proof.
  intros x2t p w Habs Hex od out params r w'. subst r w'.
  assert (Hsrc : exists n, files w !! p = Some n).
  { unfold exists_node in Hex. destruct (files w !! p) as [n|]; [eauto|discriminate]. }
  destruct Hsrc as [n Hsrc].
  split; [|split; [|split]].
  - intros Hfresh.
    destruct (api_convert_hit dir fonts iso p w Habs Hfresh) as (t & d & Hout & E).
    exists t, d. unfold convert. rewrite (serve_sent _ _ _ _ _ E).
    repeat split. exact Hout.
  - intros resp Hr Hhit.
    destruct (cache_state_cases (files w) out p n Hsrc) as [Hf|[Hst|(t & Hout & Hnew)]];
      [exact Hf|exfalso|exfalso].
    + destruct (api_convert_after_check dir fonts iso p w n Habs Hsrc Hst)
        as (seen0 & _ & E0).
      unfold convert, serve in Hr. rewrite E0 in Hr.
      destruct (convert_launch dir fonts iso p _) as [[[r0|c]|e] w1] eqn:E1;
        cbn [fst] in Hr.
      * unfold convert_launch in E1. cbv zeta in E1.
        destruct (prepare_cases (convert_outputDir dir p)
                    (World (files w) (now w) (trace w ++ seen0)))
          as (pr & w0 & _ & Hrun).
        rewrite Hrun in E1. destruct pr as [[]|e]; [|discriminate E1].
        rewrite bind_timestamp in E1.
        match type of E1 with context [writeFileSync ?q ?d] =>
          destruct (write_node q d (now w0) (files w0)) as [e|m1] eqn:Hw end.
        { rewrite (bind_writeFileSync_err _ _ e) in E1 by exact Hw. discriminate E1. }
        rewrite (bind_writeFileSync_ok _ _ m1) in E1 by exact Hw.
        rewrite bind_spawn in E1. discriminate E1.
      * apply convert_launch_waiting in E1 as (-> & _ & _).
        unfold settle, convert_child in Hr.
        cbn [command args error_listener close_listener] in Hr.
        destruct (outcome _); cbv beta iota in Hr; cbn [fst] in Hr;
          [discriminate Hr| |];
          rewrite finish_fst in Hr;
          match type of Hr with context [fst ?x] => destruct (fst x) eqn:Hx end;
          try discriminate Hr; injection Hr as ->;
          apply convert_close_not_hit in Hx; contradiction.
      * discriminate Hr.
    + destruct (api_convert_directory_artifact dir fonts iso p w t n Habs Hsrc Hout Hnew)
        as (e & w1 & E).
      unfold convert in Hr. rewrite (serve_throw _ _ _ _ _ E) in Hr. discriminate Hr.
  - intros Hst Hdir Hready Hpd.
    destruct (convert_paths_apart p Hdir) as (Hdn & Hne & Hout & Hanc).
    destruct (api_convert_after_check dir fonts iso p w n Habs Hsrc Hst)
      as (seen0 & Hs0 & E0).
    destruct (convert_launch_ready dir fonts iso p
                (World (files w) (now w) (trace w ++ seen0)) Hdn Hne Hready)
      as [E1 Hdir1].
    { cbn [files now]. unfold is_dir. rewrite ensure_dir_outside by exact Hanc.
      exact Hpd. }
    cbn [files now trace] in E1, Hdir1. rewrite E1 in E0.
    match type of E0 with _ = (_, ?x) => set (w1 := x) in * end.
    exists w1,
      (seen0 ++ EvExists od
         :: (if exists_node (files w) od then [] else [EvMkdir od]) ++ [EvWrite params]).
    split; [exact E0|]. split; [exact Hdir1|].
    split; [apply lookup_insert_eq|].
    split; [subst w1 od params; cbn [trace]; rewrite <- !app_assoc; reflexivity|].
    split.
    { rewrite spawned_app, Hs0. destruct (exists_node (files w) od); reflexivity. }
    unfold convert. rewrite (serve_waiting _ _ _ _ _ E0).
    apply convert_settled; [exact Hout|].
    unfold is_file. subst w1. cbn [files]. rewrite lookup_insert_eq. reflexivity.
  - intros Hst Hdir Hblocked.
    destruct (convert_paths_apart p Hdir) as (Hdn & _).
    destruct (api_convert_after_check dir fonts iso p w n Habs Hsrc Hst)
      as (seen0 & Hs0 & E0).
    destruct (convert_launch_blocked dir fonts iso p
                (World (files w) (now w) (trace w ++ seen0)) Hdn Hblocked)
      as (e & w1 & seen & E1 & Ht & Hs).
    rewrite E1 in E0. unfold convert. rewrite (serve_throw _ _ _ _ _ E0).
    exists e, (seen0 ++ seen). cbn [fst snd]. split; [reflexivity|].
    split; [rewrite Ht; cbn [trace]; rewrite <- app_assoc; reflexivity|].
    rewrite spawned_app, Hs0, Hs. reflexivity.
Qed.

End CacheRule.

Lemma cache_hit_witness :
  fst (Server.convert Sample.dir Sample.fonts Sample.iso Sample.x2t_fail
         (Some Sample.source) Sample.w_cached)
  = Server.Replied
      (Server.Response 200
         (Server.editor_bin_headers (Utils.generateFileHash Sample.source) "HIT")
         (Server.Binary Sample.artifact)) /\
  fst (Server.convert Sample.dir Sample.fonts Sample.iso Sample.x2t_ok
         (Some Sample.source) Sample.w0)
  = Server.Replied
      (Server.Response 200
         (Server.editor_bin_headers (Utils.generateFileHash Sample.source) "MISS")
         (Server.Binary Sample.artifact)) /\
  fst (Server.convert Sample.dir Sample.fonts Sample.iso Sample.x2t_idle
         (Some Sample.source) Sample.w0)
  = Server.Replied (Server.send_text 500 "Conversion failed: output file not created") /\
  exists e,
    fst (Server.convert Sample.dir Sample.fonts Sample.iso Sample.x2t_ok
           (Some Sample.source) Sample.w_blocked)
    = Server.Uncaught e.
Proof.
  assert (Habs : Utils.isAbsolutePath Sample.source = true) by reflexivity.
  assert (Hex : Fs.exists_node (Fs.files Sample.w_cached) Sample.source = true)
    by (vm_compute; reflexivity).
  assert (Hex0 : Fs.exists_node (Fs.files Sample.w0) Sample.source = true)
    by (vm_compute; reflexivity).
  assert (Hfresh : Obs.fresh (Fs.files Sample.w_cached)
            (Obs.convert_outputPath Sample.dir Sample.source) Sample.source = true)
    by (vm_compute; reflexivity).
  assert (Hstale : Obs.stale (Fs.files Sample.w0)
            (Obs.convert_outputPath Sample.dir Sample.source) Sample.source = true)
    by (vm_compute; reflexivity).
  assert (Hready : Fs.is_dir (Fs.files Sample.w0)
                     (Server.convert_outputDir Sample.dir Sample.source) = true \/
                   (Fs.exists_node (Fs.files Sample.w0)
                      (Server.convert_outputDir Sample.dir Sample.source) = false /\
                    Obs.creatable (Fs.files Sample.w0)
                      (Server.convert_outputDir Sample.dir Sample.source) = true))
    by (right; split; vm_compute; reflexivity).
  assert (Hpd : Fs.is_dir (Fs.files Sample.w0)
                  (Obs.convert_paramsPath Sample.dir Sample.source) = false)
    by (vm_compute; reflexivity).
  split; [|split; [|split]].
  - destruct (cache_hit_iff_fresh_else_convert Sample.dir Sample.fonts Sample.iso
                Sample.x2t_fail Sample.source Sample.w_cached Habs Hex) as [Hhit _].
    destruct (Hhit Hfresh) as (t & d & Hfile & Hr & _).
    rewrite Hr. clear Hr Hhit.
    assert (Hd : Fs.files Sample.w_cached
                   !! Obs.convert_outputPath Sample.dir Sample.source
                 = Some (Fs.File 50 Sample.artifact)) by (vm_compute; reflexivity).
    rewrite Hd in Hfile. injection Hfile as _ <-. reflexivity.
  - destruct (cache_hit_iff_fresh_else_convert Sample.dir Sample.fonts Sample.iso
                Sample.x2t_ok Sample.source Sample.w0 Habs Hex0) as (_ & _ & Hmiss & _).
    destruct (Hmiss Hstale eq_refl Hready Hpd) as (w1 & seen & E & _ & _ & _ & _ & Hok & _).
    symmetry in E. apply pair_projections in E as [_ ->].
    apply (Hok eq_refl 100%Z Sample.artifact). vm_compute. reflexivity.
  - destruct (cache_hit_iff_fresh_else_convert Sample.dir Sample.fonts Sample.iso
                Sample.x2t_idle Sample.source Sample.w0 Habs Hex0) as (_ & _ & Hmiss & _).
    destruct (Hmiss Hstale eq_refl Hready Hpd)
      as (w1 & seen & E & _ & _ & _ & _ & _ & Hno & _).
    symmetry in E. apply pair_projections in E as [_ ->].
    apply (Hno eq_refl). vm_compute. reflexivity.
  - assert (Hexb : Fs.exists_node (Fs.files Sample.w_blocked) Sample.source = true)
      by (vm_compute; reflexivity).
    destruct (cache_hit_iff_fresh_else_convert Sample.dir Sample.fonts Sample.iso
                Sample.x2t_ok Sample.source Sample.w_blocked Habs Hexb)
      as (_ & _ & _ & Hblocked).
    destruct Hblocked as (e & seen & Hr & _).
    + vm_compute. reflexivity.
    + reflexivity.
    + left. vm_compute. reflexivity.
    + exists e. exact Hr.
Defined.
(* ===================================================================== *)
(** ** How the run of the converter is reported *)
(* ===================================================================== *)

Section ExitRule.
Import Str Utils Fs Server Obs Inv Norm Step.

Variables (dir fonts : string) (iso : Z -> string).

Lemma served_status_finish (x : result response * world) :
  served_status (fst (finish x)) = status_of (fst x).
Proof. destruct x as [[r|e] w]; reflexivity. Qed.

Lemma failed_spawn_code e : code_nonzero (Some (uv_code e)) = true.
Proof. destruct e; reflexivity. Qed.

Lemma exit_code_zero code : code_nonzero (Some code) = false <-> code = 0%Z.
Proof.
  cbn [code_nonzero]. rewrite negb_false_iff. apply Z.eqb_eq.
Qed.

(** The verdict of the convert path on the child it launched. *)
Lemma convert_verdict (x2t : converter) p w1 :
  let run := x2t (x2tPath dir) [convert_paramsPath dir p] (files w1) in
  let r := fst (settle x2t (convert_child dir p) w1) in
  let w' := snd (settle x2t (convert_child dir p) w1) in
  let out := convert_outputPath dir p in
  (forall code, outcome run = Exited code -> code <> 0%Z ->
     r = Replied (send_text 500 ("Conversion failed: " +:+ stderr run))) /\
  (forall signal, outcome run = Killed signal ->
     r = Replied (send_text 500 ("Conversion failed: " +:+ stderr run))) /\
  (outcome run = Exited 0 -> exists_node (files w') out = false ->
     r = Replied (send_text 500 "Conversion failed: output file not created")) /\
  (outcome run = Exited 0 -> forall t d, files w' !! out = Some (File t d) ->
     r = Replied (Response 200 (editor_bin_headers (generateFileHash p) "MISS")
                    (Binary d))) /\
  (served_status r = Some 200%Z <->
     outcome run = Exited 0 /\ is_file (files w') out = true).
Proof.
  intros run r w' out. subst r w'.
  unfold settle, convert_child. cbn [command args error_listener close_listener].
  fold run. fold out.
  destruct (outcome run) as [e|code|signal] eqn:Ho; cbv beta iota.
  - cbn [fst snd served_status].
    repeat split; intros; try discriminate.
    match goal with H : _ /\ _ |- _ => destruct H as [H _]; discriminate H end.
  - cbn [close_code]. rewrite finish_snd, served_status_finish.
    set (w2 := set_files _ w1).
    pose proof (convert_close_cases (convert_paramsPath dir p) out (generateFileHash p)
                  (Some code) (stdout run) (stderr run) w2) as H.
    pose proof (convert_close_success (convert_paramsPath dir p) out (generateFileHash p)
                  (Some code) (stdout run) (stderr run) w2) as Hok.
    rewrite finish_fst.
    destruct (convert_on_close _ _ _ (Some code) _ _ w2) as [res w3].
    destruct H as (Ha & Hb & Hc). cbn [fst snd] in *.
    split; [|split; [|split; [|split]]].
    + intros c Hc0 Hne. injection Hc0 as <-. rewrite Ha; [reflexivity|].
      cbn [code_nonzero]. apply negb_true_iff, Z.eqb_neq, Hne.
    + intros signal Hs. discriminate Hs.
    + intros Hc0 Hno. injection Hc0 as ->. rewrite Hb; [reflexivity|reflexivity|exact Hno].
    + intros Hc0 t d Hl. injection Hc0 as ->. rewrite (Hok eq_refl t d Hl). reflexivity.
    + rewrite Hc. rewrite exit_code_zero. split.
      * intros [-> Hf]. split; [reflexivity|exact Hf].
      * intros [Hc0 Hf]. injection Hc0 as ->. split; [reflexivity|exact Hf].
  - cbn [close_code]. rewrite finish_snd, served_status_finish.
    set (w2 := set_files _ w1).
    pose proof (convert_close_cases (convert_paramsPath dir p) out (generateFileHash p)
                  None (stdout run) (stderr run) w2) as H.
    rewrite finish_fst.
    destruct (convert_on_close _ _ _ None _ _ w2) as [res w3].
    destruct H as (Ha & _ & Hc). cbn [fst snd] in *.
    split; [|split; [|split; [|split]]]; try (intros; discriminate).
    + intros s _. rewrite Ha; reflexivity.
    + rewrite Hc. split; intros [H _]; discriminate H.
Qed.

(** The verdict of the save path on the child it launched. *)
Lemma save_verdict (x2t : converter) h p w1 :
  let run := x2t (x2tPath dir) [save_paramsPath dir h] (files w1) in
  let r := fst (settle x2t (save_child dir h p) w1) in
  let w' := snd (settle x2t (save_child dir h p) w1) in
  (forall code, outcome run = Exited code -> code <> 0%Z ->
     r = Replied (send_text 500 "Save failed: conversion error")) /\
  (forall signal, outcome run = Killed signal ->
     r = Replied (send_text 500 "Save failed: conversion error")) /\
  (outcome run = Exited 0 -> exists_node (files w') p = false ->
     r = Replied (send_text 500 "Save failed: no output file")) /\
  (outcome run = Exited 0 -> forall n, files w' !! p = Some n ->
     r = Replied (Response 200 [] (JsonSaved p (size (stat_of n))))) /\
  (served_status r = Some 200%Z <->
     outcome run = Exited 0 /\ exists_node (files w') p = true).
Proof.
  intros run r w'. subst r w'.
  unfold settle, save_child. cbn [command args error_listener close_listener].
  fold run.
  assert (Hsaved : forall code out err w2 n,
            code_nonzero code = false ->
            files (snd (save_on_close (save_paramsPath dir h) (save_changesBinPath dir h) p
                          code out err w2)) !! p = Some n ->
            fst (save_on_close (save_paramsPath dir h) (save_changesBinPath dir h) p
                   code out err w2)
            = Ok (Response 200 [] (JsonSaved p (size (stat_of n))))).
  { intros code out err w2 n Hc. run_listener; rewrite ?Hc; simpl; run_listener;
      intros H; try congruence;
      match goal with
      | Hx : ?l = Some _, H : ?l = Some n |- _ => rewrite Hx in H; injection H as <-
      end; reflexivity. }
  destruct (outcome run) as [e|code|signal] eqn:Ho; cbv beta iota.
  - destruct (has_stdio e); cbn [ret fst snd].
    + rewrite finish_snd, served_status_finish, finish_fst.
      pose proof (save_close_cases (save_paramsPath dir h) (save_changesBinPath dir h) p
                    (Some (uv_code e)) "" "" w1) as H.
      destruct (save_on_close _ _ _ (Some (uv_code e)) _ _ w1) as [res w3].
      destruct H as (_ & _ & Hc). cbn [fst snd] in *.
      split; [|split; [|split; [|split]]]; try (intros; discriminate).
      rewrite Hc, failed_spawn_code. split; intros [H _]; discriminate H.
    + cbn [served_status].
      split; [|split; [|split; [|split]]]; try (intros; discriminate).
      split; [intros H; discriminate H|intros [H _]; discriminate H].
  - cbn [close_code]. rewrite finish_snd, served_status_finish, finish_fst.
    set (w2 := set_files _ w1).
    pose proof (save_close_cases (save_paramsPath dir h) (save_changesBinPath dir h) p
                  (Some code) (stdout run) (stderr run) w2) as H.
    pose proof (Hsaved (Some code) (stdout run) (stderr run) w2) as Hok.
    destruct (save_on_close _ _ _ (Some code) _ _ w2) as [res w3].
    destruct H as (Ha & Hb & Hc). cbn [fst snd] in *.
    split; [|split; [|split; [|split]]].
    + intros c Hc0 Hne. injection Hc0 as <-. rewrite Ha; [reflexivity|].
      cbn [code_nonzero]. apply negb_true_iff, Z.eqb_neq, Hne.
    + intros signal Hs. discriminate Hs.
    + intros Hc0 Hno. injection Hc0 as ->. rewrite Hb; [reflexivity|reflexivity|exact Hno].
    + intros Hc0 n Hl. injection Hc0 as ->. rewrite (Hok n eq_refl Hl). reflexivity.
    + rewrite Hc. rewrite exit_code_zero. split.
      * intros [-> Hf]. split; [reflexivity|exact Hf].
      * intros [Hc0 Hf]. injection Hc0 as ->. split; [reflexivity|exact Hf].
  - cbn [close_code]. rewrite finish_snd, served_status_finish, finish_fst.
    set (w2 := set_files _ w1).
    pose proof (save_close_cases (save_paramsPath dir h) (save_changesBinPath dir h) p
                  None (stdout run) (stderr run) w2) as H.
    destruct (save_on_close _ _ _ None _ _ w2) as [res w3].
    destruct H as (Ha & _ & Hc). cbn [fst snd] in *.
    split; [|split; [|split; [|split]]]; try (intros; discriminate).
    + intros s _. rewrite Ha; reflexivity.
    + rewrite Hc. split; intros [H _]; discriminate H.
Qed.

(** What the converter printed changes neither the status nor the final
    state of a convert request. *)
Lemma convert_verdict_streams (x2t x2t' : converter) p w1 :
  let run := x2t (x2tPath dir) [convert_paramsPath dir p] (files w1) in
  let run' := x2t' (x2tPath dir) [convert_paramsPath dir p] (files w1) in
  outcome run' = outcome run -> writes run' = writes run ->
  snd (settle x2t' (convert_child dir p) w1) = snd (settle x2t (convert_child dir p) w1) /\
  served_status (fst (settle x2t' (convert_child dir p) w1))
  = served_status (fst (settle x2t (convert_child dir p) w1)).
Proof.
  intros run run' Ho Hw.
  unfold settle, convert_child. cbn [command args error_listener close_listener].
  fold run run'. rewrite Ho, Hw.
  destruct (outcome run) as [e|code|signal]; cbv beta iota.
  - split; reflexivity.
  - rewrite !finish_snd, !served_status_finish. apply convert_close_ignores_streams.
  - rewrite !finish_snd, !served_status_finish. apply convert_close_ignores_streams.
Qed.

(** What the converter printed changes nothing at all in a save request. *)
Lemma save_verdict_streams (x2t x2t' : converter) h p w1 :
  let run := x2t (x2tPath dir) [save_paramsPath dir h] (files w1) in
  let run' := x2t' (x2tPath dir) [save_paramsPath dir h] (files w1) in
  outcome run' = outcome run -> writes run' = writes run ->
  settle x2t' (save_child dir h p) w1 = settle x2t (save_child dir h p) w1.
Proof.
  intros run run' Ho Hw.
  unfold settle, save_child. cbn [command args error_listener close_listener].
  fold run run'. rewrite Ho, Hw.
  destruct (outcome run) as [e|code|signal]; reflexivity.
Qed.

(** C4 (amended). How a run of the converter is reported depends on the
    way the process ended and on the presence of the destination alone.
    For a convert request and for a save request that have launched the
    converter: an exit with a non-zero code, and an end by a signal, are
    answered with the conversion failure (which on the convert path
    quotes the standard error text); an exit with code 0 and no
    destination on disk is answered with the missing-output failure; an
    exit with code 0 and the destination on disk is answered with the
    success; and the answer has status 200 exactly when the process
    exited with code 0 and the destination is there (a regular file on
    the convert path).  Two converters that end alike and write the same
    files, whatever they print, lead to the same status and the same
    final state.  The two failures are told apart by their text: always
    on the save path, and on the convert path exactly when the quoted
    standard error is not itself the text [output file not created]. *)
Theorem exit_code_alone_decides_success :
  forall (x2t : converter),
    (forall (p : string) (w : world) (c : child) (w1 : world),
       api_convert dir fonts iso (Some p) w = (Ok (Waiting c), w1) ->
       let run := x2t (command c) (args c) (files w1) in
       let r := fst (convert dir fonts iso x2t (Some p) w) in
       let w' := snd (convert dir fonts iso x2t (Some p) w) in
       let out := convert_outputPath dir p in
       (forall code, outcome run = Exited code -> code <> 0%Z ->
          r = Replied (send_text 500 ("Conversion failed: " +:+ stderr run))) /\
       (forall signal, outcome run = Killed signal ->
          r = Replied (send_text 500 ("Conversion failed: " +:+ stderr run))) /\
       (outcome run = Exited 0 -> exists_node (files w') out = false ->
          r = Replied (send_text 500 "Conversion failed: output file not created")) /\
       (outcome run = Exited 0 -> forall t d, files w' !! out = Some (File t d) ->
          r = Replied (Response 200 (editor_bin_headers (generateFileHash p) "MISS")
                         (Binary d))) /\
       (served_status r = Some 200%Z <->
          outcome run = Exited 0 /\ is_file (files w') out = true) /\
       (forall x2t' : converter,
          outcome (x2t' (command c) (args c) (files w1)) = outcome run ->
          writes (x2t' (command c) (args c) (files w1)) = writes run ->
          snd (convert dir fonts iso x2t' (Some p) w) = w' /\
          served_status (fst (convert dir fonts iso x2t' (Some p) w)) = served_status r)) /\
    (forall (req : save_request) (w : world) (c : child) (w1 : world),
       api_save dir fonts iso req w = (Ok (Waiting c), w1) ->
       exists p,
         query_filepath req = Some p /\
         let run := x2t (command c) (args c) (files w1) in
         let r := fst (save dir fonts iso x2t req w) in
         let w' := snd (save dir fonts iso x2t req w) in
         (forall code, outcome run = Exited code -> code <> 0%Z ->
            r = Replied (send_text 500 "Save failed: conversion error")) /\
         (forall signal, outcome run = Killed signal ->
            r = Replied (send_text 500 "Save failed: conversion error")) /\
         (outcome run = Exited 0 -> exists_node (files w') p = false ->
            r = Replied (send_text 500 "Save failed: no output file")) /\
         (outcome run = Exited 0 -> forall n, files w' !! p = Some n ->
            r = Replied (Response 200 [] (JsonSaved p (size (stat_of n))))) /\
         (served_status r = Some 200%Z <->
            outcome run = Exited 0 /\ exists_node (files w') p = true) /\
         (forall x2t' : converter,
            outcome (x2t' (command c) (args c) (files w1)) = outcome run ->
            writes (x2t' (command c) (args c) (files w1)) = writes run ->
            save dir fonts iso x2t' req w = save dir fonts iso x2t req w)) /\
    send_text 500 "Save failed: conversion error"
      <> send_text 500 "Save failed: no output file" /\
    (forall err,
       send_text 500 ("Conversion failed: " +:+ err)
       = send_text 500 "Conversion failed: output file not created"
       <-> err = "output file not created").
Proof.
  intros x2t. split; [|split; [|split]].
  - intros p w c w1 E run r w' out. subst run r w' out.
    destruct (api_convert_waiting dir fonts iso p w c w1 E) as (-> & _).
    unfold convert. rewrite !(serve_waiting _ _ _ _ _ E).
    cbn [command args convert_child].
    destruct (convert_verdict x2t p w1) as (H1 & H2 & H3 & H4 & H5).
    split; [exact H1|]. split; [exact H2|]. split; [exact H3|]. split; [exact H4|].
    split; [exact H5|].
    intros x2t' Ho Hw. rewrite (serve_waiting _ _ _ _ _ E).
    apply convert_verdict_streams; assumption.
  - intros req w c w1 E.
    destruct (api_save_waiting dir fonts iso req w c w1 E) as (p & Hq & -> & _).
    exists p. split; [exact Hq|].
    unfold save. rewrite !(serve_waiting _ _ _ _ _ E).
    cbn [command args save_child].
    destruct (save_verdict x2t (query_filehash req) p w1) as (H1 & H2 & H3 & H4 & H5).
    split; [exact H1|]. split; [exact H2|]. split; [exact H3|]. split; [exact H4|].
    split; [exact H5|].
    intros x2t' Ho Hw. rewrite (serve_waiting _ _ _ _ _ E).
    apply save_verdict_streams; assumption.
  - discriminate.
  - intros err. split.
    + intros H. injection H. trivial.
    + intros ->. reflexivity.
Qed.

End ExitRule.

Lemma exit_code_witness :
  fst (Server.convert Sample.dir Sample.fonts Sample.iso Sample.x2t_ok
         (Some Sample.source) Sample.w0)
  = Server.Replied
      (Server.Response 200
         (Server.editor_bin_headers (Utils.generateFileHash Sample.source) "MISS")
         (Server.Binary Sample.artifact)) /\
  fst (Server.convert Sample.dir Sample.fonts Sample.iso Sample.x2t_fail
         (Some Sample.source) Sample.w0)
  = Server.Replied (Server.send_text 500 "Conversion failed: cannot open input") /\
  fst (Server.save Sample.dir Sample.fonts Sample.iso Sample.x2t_fail
         (Server.SaveRequest (Some "/data/out.csv") None Sample.octet Sample.bin_payload)
         Sample.w0)
  = Server.Replied (Server.send_text 500 "Save failed: conversion error") /\
  fst (Server.save Sample.dir Sample.fonts Sample.iso Sample.x2t_idle
         (Server.SaveRequest (Some "/data/out.csv") None Sample.octet Sample.bin_payload)
         Sample.w0)
  = Server.Replied (Server.send_text 500 "Save failed: no output file").
Proof.
  assert (Ec : Server.api_convert Sample.dir Sample.fonts Sample.iso (Some Sample.source)
                 Sample.w0
               = (Fs.Ok (Server.Waiting (Obs.convert_child Sample.dir Sample.source)),
                  snd (Server.api_convert Sample.dir Sample.fonts Sample.iso
                         (Some Sample.source) Sample.w0))) by (vm_compute; reflexivity).
  assert (Es : Server.api_save Sample.dir Sample.fonts Sample.iso
                 (Server.SaveRequest (Some "/data/out.csv") None Sample.octet
                    Sample.bin_payload) Sample.w0
               = (Fs.Ok (Server.Waiting (Obs.save_child Sample.dir None "/data/out.csv")),
                  snd (Server.api_save Sample.dir Sample.fonts Sample.iso
                         (Server.SaveRequest (Some "/data/out.csv") None Sample.octet
                            Sample.bin_payload) Sample.w0))) by reflexivity.
  split; [|split; [|split]].
  - destruct (exit_code_alone_decides_success Sample.dir Sample.fonts Sample.iso
                Sample.x2t_ok) as (Hc & _).
    destruct (Hc _ _ _ _ Ec) as (_ & _ & _ & Hok & _).
    apply (Hok eq_refl 100%Z Sample.artifact). vm_compute. reflexivity.
  - destruct (exit_code_alone_decides_success Sample.dir Sample.fonts Sample.iso
                Sample.x2t_fail) as (Hc & _).
    destruct (Hc _ _ _ _ Ec) as (Hfail & _).
    apply (Hfail 1%Z eq_refl). discriminate.
  - destruct (exit_code_alone_decides_success Sample.dir Sample.fonts Sample.iso
                Sample.x2t_fail) as (_ & Hs & _).
    destruct (Hs _ _ _ _ Es) as (p & Hq & Hfail & _).
    apply (Hfail 1%Z eq_refl). discriminate.
  - destruct (exit_code_alone_decides_success Sample.dir Sample.fonts Sample.iso
                Sample.x2t_idle) as (_ & Hs & _).
    destruct (Hs _ _ _ _ Es) as (p & Hq & _ & _ & Hno & _).
    injection Hq as <-. apply (Hno eq_refl). vm_compute. reflexivity.
Defined.

(** C4, where the two failures are not told apart.  One converter exits
    with code 1 and prints [output file not created] on its standard
    error; another exits with code 0 and writes nothing.  The convert
    handler answers both requests with the same status and the same
    text. *)
Lemma two_failures_answered_alike :
  (forall cmd argv m, Server.outcome (Sample.x2t_mimic cmd argv m) = Server.Exited 1) /\
  (forall cmd argv m, Server.outcome (Sample.x2t_idle cmd argv m) = Server.Exited 0) /\
  Fs.exists_node
    (Fs.files (snd (Server.convert Sample.dir Sample.fonts Sample.iso Sample.x2t_idle
                      (Some Sample.source) Sample.w0)))
    (Obs.convert_outputPath Sample.dir Sample.source) = false /\
  fst (Server.convert Sample.dir Sample.fonts Sample.iso Sample.x2t_mimic
         (Some Sample.source) Sample.w0)
  = Server.Replied (Server.send_text 500 "Conversion failed: output file not created") /\
  fst (Server.convert Sample.dir Sample.fonts Sample.iso Sample.x2t_idle
         (Some Sample.source) Sample.w0)
  = fst (Server.convert Sample.dir Sample.fonts Sample.iso Sample.x2t_mimic
           (Some Sample.source) Sample.w0).
Proof.
  split; [reflexivity|]. split; [reflexivity|].
  split; [vm_compute; reflexivity|]. split; vm_compute; reflexivity.
Qed.
(* ===================================================================== *)
(** ** The descriptors the handlers write *)
(* ===================================================================== *)

Section CharsKept.
Import Str Utils Fs Server Obs Norm.

(** The functions of [path] only rearrange the characters of their
    arguments, adding separators and dots. *)
Variable P : ascii -> bool.
Hypothesis Pslash : P "/"%char = true.
Hypothesis Pdot : P "."%char = true.

Lemma take_while_kept (f : ascii -> bool) l :
  forallb P l = true -> forallb P (take_while f l) = true.
Proof.
  induction l as [|c l IH]; cbn; [reflexivity|].
  intros H. apply andb_prop in H as [Hc Hl].
  destruct (f c); [|reflexivity]. cbn. rewrite Hc. apply IH, Hl.
Qed.

Lemma drop_while_kept (f : ascii -> bool) l :
  forallb P l = true -> forallb P (drop_while f l) = true.
Proof.
  induction l as [|c l IH]; cbn; [reflexivity|].
  intros H. destruct (f c); [|exact H].
  apply andb_prop in H as [_ Hl]. apply IH, Hl.
Qed.

Lemma basename_kept p :
  forallb P (chars p) = true -> forallb P (chars (Path.basename p)) = true.
Proof.
  intros H. unfold Path.basename, Path.last_component. rewrite chars_of_str.
  rewrite forallb_rev. apply take_while_kept, drop_while_kept.
  rewrite forallb_rev. exact H.
Qed.

Lemma split_on_kept sep l :
  forallb P l = true -> Forall (fun s => forallb P s = true) (split_on sep l).
Proof.
  induction l as [|c l IH]; cbn [split_on forallb].
  - intros _. repeat constructor.
  - intros H. apply andb_prop in H as [Hc Hl]. specialize (IH Hl).
    destruct (Ascii.eqb c sep).
    + constructor; [reflexivity|exact IH].
    + destruct (split_on sep l) as [|x xs].
      * repeat constructor. cbn. rewrite Hc. reflexivity.
      * inversion IH; subst. constructor; [|assumption].
        cbn. rewrite Hc. assumption.
Qed.

Lemma step_kept allow acc seg :
  Forall (fun s => forallb P s = true) acc -> forallb P seg = true ->
  Forall (fun s => forallb P s = true) (Path.normalize_step allow acc seg).
Proof.
  intros Hacc Hseg. unfold Path.normalize_step.
  destruct (Path.seg_is seg "" || Path.seg_is seg "."); [exact Hacc|].
  destruct (Path.seg_is seg "..").
  - destruct acc as [|top below].
    + destruct allow; repeat constructor. exact Hseg.
    + inversion Hacc; subst.
      destruct (Path.seg_is top ".."); [destruct allow|]; try assumption.
      constructor; assumption.
  - constructor; assumption.
Qed.

Lemma fold_kept allow segs acc :
  Forall (fun s => forallb P s = true) acc ->
  Forall (fun s => forallb P s = true) segs ->
  Forall (fun s => forallb P s = true) (fold_left (Path.normalize_step allow) segs acc).
Proof.
  revert acc. induction segs as [|s segs IH]; intros acc Hacc Hsegs; [exact Hacc|].
  inversion Hsegs; subst. cbn [fold_left]. apply IH; [|assumption].
  apply step_kept; assumption.
Qed.

Lemma join_with_kept sep ws :
  forallb P sep = true -> Forall (fun s => forallb P s = true) ws ->
  forallb P (join_with sep ws) = true.
Proof.
  intros Hsep. induction ws as [|x ws IH]; intros H; [reflexivity|].
  inversion H; subst. cbn [join_with]. destruct ws as [|y ws']; [assumption|].
  rewrite !forallb_app. rewrite IH by assumption.
  rewrite Hsep. rewrite andb_true_r. assumption.
Qed.

Lemma normalize_kept p :
  forallb P (chars p) = true -> forallb P (chars (Path.normalize p)) = true.
Proof.
  intros H. unfold Path.normalize.
  destruct (chars p) as [|c0 rest] eqn:E.
  { cbn. rewrite Pdot. reflexivity. }
  set (body := Path.normalize_segments _ _).
  assert (Hbody : forallb P body = true).
  { subst body. unfold Path.normalize_segments. apply join_with_kept.
    - unfold Path.slash. cbn. rewrite Pslash. reflexivity.
    - apply Forall_rev. apply fold_kept; [constructor|]. apply split_on_kept. exact H. }
  destruct body as [|b body'].
  - destruct (Path.is_sep c0); [|destruct (match rev _ with [] => _ | _ => _ end)];
      cbn; rewrite ?Pslash, ?Pdot; reflexivity.
  - rewrite chars_of_str. set (L := b :: body') in *.
    destruct (match rev _ with [] => _ | _ => _ end); destruct (Path.is_sep c0);
      unfold Path.slash; cbn [forallb]; rewrite ?forallb_app; cbn [forallb];
      rewrite ?Pslash, ?Hbody; reflexivity.
Qed.

Lemma join_kept parts :
  Forall (fun s => forallb P (chars s) = true) parts ->
  forallb P (chars (Path.join parts)) = true.
Proof.
  intros H. unfold Path.join.
  assert (Hf : Forall (fun s => forallb P (chars s) = true)
                 (filter (fun s => negb (String.eqb s "")) parts)).
  { induction H as [|x l Hx Hl IH]; cbn; [constructor|].
    destruct (negb (String.eqb x "")); [constructor|]; assumption. }
  destruct (filter _ parts) as [|x l].
  - cbn. rewrite Pdot. reflexivity.
  - apply normalize_kept. rewrite chars_of_str. apply join_with_kept.
    + unfold Path.slash. cbn. rewrite Pslash. reflexivity.
    + apply Forall_map. exact Hf.
Qed.

End CharsKept.

Section Written.
Import Str Utils Fs Server Obs Inv Norm Step.

Variables (dir fonts : string) (iso : Z -> string).

Lemma lt_free_join parts :
  Forall (fun s => lt_free s = true) parts -> lt_free (Path.join parts) = true.
Proof. apply join_kept; reflexivity. Qed.

Lemma lt_free_hash p : lt_free (generateFileHash p) = true.
Proof.
  destruct (generateFileHash_shape p) as [_ Hhex]. unfold lt_free.
  apply forallb_forall. intros c Hc. rewrite forallb_forall in Hhex.
  specialize (Hhex c Hc).
  destruct c as [[] [] [] [] [] [] [] []]; try reflexivity; discriminate Hhex.
Qed.

(** The extension of a path is that of its last component. *)
Lemma extname_basename p : Path.extname (Path.basename p) = Path.extname p.
Proof.
  unfold Path.extname, Path.basename. rewrite chars_of_str.
  assert (H : Path.last_component (Path.last_component (chars p))
              = Path.last_component (chars p)).
  { unfold Path.last_component. rewrite rev_involutive.
    set (t := take_while Path.not_sep (drop_while Path.is_sep (rev (chars p)))).
    assert (Ht : forallb Path.not_sep t = true).
    { subst t. generalize (drop_while Path.is_sep (rev (chars p))).
      intros l. induction l as [|c l IH]; cbn; [reflexivity|].
      destruct (Path.not_sep c) eqn:Hc; [|reflexivity]. cbn. rewrite Hc. exact IH. }
    assert (Hd : drop_while Path.is_sep t = t).
    { destruct t as [|c t']; [reflexivity|]. cbn in *.
      apply andb_prop in Ht as [Hc _]. unfold Path.not_sep in Hc.
      apply negb_true_iff in Hc. rewrite Hc. reflexivity. }
    rewrite Hd, take_while_not_sep_all by exact Ht. reflexivity. }
  rewrite H. reflexivity.
Qed.

(** The descriptor of a save request that has launched the converter. *)
Lemma api_save_descriptor req w c w1 :
  api_save dir fonts iso req w = (Ok (Waiting c), w1) ->
  exists p fi,
    query_filepath req = Some p /\
    getOutputFormatInfo (toLowerCase (Path.extname p)) = Some fi /\
    files w1 !! save_paramsPath dir (query_filehash req)
    = Some (File (now w)
              (bytes_of (save_xmlConfig (save_changesBinPath dir (query_filehash req)) p
                           (Path.basename p) (toLowerCase (Path.extname p)) (code fi)
                           fonts (themeDir dir) (iso (now w))))).
Proof.
  destruct req as [q fh ct body0]. cbn [query_filepath query_filehash].
  destruct q as [[|a p']|]; try (intros E; discriminate E).
  intros E. exists (String a p').
  unfold save_changesBinPath, save_paramsPath, save_hashDir.
  cbv beta iota zeta delta [api_save query_filepath query_filehash payload] in E.
  set (fp := String a p') in *.
  destruct (isAbsolutePath fp); [|discriminate E]. cbn [negb] in E.
  destruct (prepare_cases (Path.dirname fp) w) as (r & w0 & Hnow & Hrun).
  rewrite Hrun in E. destruct r as [[]|e]; [|discriminate E].
  unfold parsed_body in E. cbn [content_type payload] in E.
  destruct (is_octet_stream ct); [|discriminate E].
  destruct (isXLSXSignature body0).
  { unfold try_catch in E.
    destruct (bind (writeFileSync fp body0) _ w0) as [[[r|c']|e] w2] eqn:E2;
      try discriminate E.
    unfold bind, writeFileSync in E2.
    destruct (write_node fp body0 (now w0) (files w0)); [discriminate E2|].
    unfold statSync in E2. destruct (files _ !! fp); discriminate E2. }
  destruct (getOutputFormatInfo (toLowerCase (Path.extname fp))) as [fi|]; [|discriminate E].
  exists fi. split; [reflexivity|]. split; [reflexivity|].
  set (hashDir := match fh with Some (String _ _ as h) => _ | _ => _ end) in *.
  set (changes := Path.join [hashDir; "temp_changes.bin"]) in *.
  set (params := Path.join [hashDir; "params_save.xml"]) in *.
  destruct (write_node changes body0 (now w0) (files w0)) as [e|m1] eqn:Hw1.
  { rewrite (bind_writeFileSync_err _ _ e) in E by exact Hw1. discriminate E. }
  rewrite (bind_writeFileSync_ok _ _ m1) in E by exact Hw1.
  rewrite bind_timestamp in E. cbn [now set_files log] in E. rewrite Hnow in E.
  match type of E with context [writeFileSync params ?d] => set (xml := d) in * end.
  set (w2 := set_files m1 (log (EvWrite changes) w0)) in *.
  destruct (write_node params xml (now w2) (files w2)) as [e|m2] eqn:Hw2.
  { rewrite (bind_writeFileSync_err _ _ e) in E by exact Hw2. discriminate E. }
  rewrite (bind_writeFileSync_ok _ _ m2) in E by exact Hw2.
  rewrite bind_spawn in E. unfold ret in E. injection E as <- <-.
  cbn [files log set_files].
  rewrite (write_node_ok_lookup _ _ _ _ _ Hw2). subst w2. cbn [now set_files log].
  rewrite Hnow. reflexivity.
Qed.

(** C7 (amended). The descriptor a handler has written when it launches
    the converter is the file named on the command line of the child.
    Provided none of the values the handler puts into it contains an
    opening angle bracket (the file path of the request, the server
    directory, the font directory, the fingerprint of a save request and
    the rendering of the clock), the tags [m_nCsvTxtEncoding] and
    [m_nCsvDelimiter] occur in that file if and only if the lower-cased
    extension of the file path is [.csv] (the source on the convert path,
    the destination on the save path), and when it is they occur as the
    elements with the values 46 and 4. *)
Theorem csv_fields_appear_exactly_for_csv :
  (forall (p : string) (w : world) (c : child) (w1 : world),
     api_convert dir fonts iso (Some p) w = (Ok (Waiting c), w1) ->
     exists xml,
       args c = [convert_paramsPath dir p] /\
       files w1 !! convert_paramsPath dir p = Some (File (now w) (bytes_of xml)) /\
       (lt_free p = true -> lt_free dir = true -> lt_free fonts = true ->
        lt_free (iso (now w)) = true ->
        (forall tag, In tag csv_tags ->
           (includes tag xml = true <-> toLowerCase (Path.extname p) = ".csv")) /\
        (forall element, In element csv_elements ->
           toLowerCase (Path.extname p) = ".csv" -> includes element xml = true))) /\
  (forall (req : save_request) (w : world) (c : child) (w1 : world),
     api_save dir fonts iso req w = (Ok (Waiting c), w1) ->
     exists p xml,
       query_filepath req = Some p /\
       args c = [save_paramsPath dir (query_filehash req)] /\
       files w1 !! save_paramsPath dir (query_filehash req)
       = Some (File (now w) (bytes_of xml)) /\
       (lt_free p = true -> lt_free dir = true -> lt_free fonts = true ->
        lt_free (iso (now w)) = true ->
        match query_filehash req with
        | Some filehash => lt_free filehash = true
        | None => True
        end ->
        (forall tag, In tag csv_tags ->
           (includes tag xml = true <-> toLowerCase (Path.extname p) = ".csv")) /\
        (forall element, In element csv_elements ->
           toLowerCase (Path.extname p) = ".csv" -> includes element xml = true))).
Proof.
  split.
  - intros p w c w1 E.
    destruct (api_convert_descriptor dir fonts iso p w c w1 E) as (-> & _ & Hfile).
    eexists. split; [reflexivity|]. split; [exact Hfile|].
    intros Hp Hdir Hfonts Hts.
    assert (Hall : forall tag, In tag (csv_tags ++ csv_elements) ->
              includes tag
                (convert_xmlConfig p (convert_outputPath dir p) (Path.basename p) fonts
                   (themeDir dir) (iso (now w)))
              = String.eqb (toLowerCase (Path.extname p)) ".csv").
    { intros tag Ht. rewrite <- (extname_basename p).
      apply convert_descriptor_tags; try assumption.
      - apply lt_free_join. repeat constructor.
        apply lt_free_join. repeat constructor; try assumption. apply lt_free_hash.
      - apply basename_kept. exact Hp.
      - apply lt_free_join. repeat constructor; assumption. }
    split.
    + intros tag Ht. rewrite Hall by (apply in_or_app; left; exact Ht).
      apply String.eqb_eq.
    + intros element He Hcsv. rewrite Hall by (apply in_or_app; right; exact He).
      apply String.eqb_eq, Hcsv.
  - intros req w c w1 E.
    destruct (api_save_waiting dir fonts iso req w c w1 E) as (p0 & Hq0 & -> & _).
    destruct (api_save_descriptor req w _ w1 E) as (p & fi & Hq & Hfi & Hfile).
    exists p. eexists. split; [exact Hq|]. split; [reflexivity|]. split; [exact Hfile|].
    intros Hp Hdir Hfonts Hts Hhash.
    assert (Hhd : lt_free (save_hashDir dir (query_filehash req)) = true).
    { unfold save_hashDir. destruct (query_filehash req) as [[|a h]|].
      - apply lt_free_join. repeat constructor; assumption.
      - apply lt_free_join. repeat constructor; [|exact Hhash].
        apply lt_free_join. repeat constructor; assumption.
      - apply lt_free_join. repeat constructor; assumption. }
    assert (Hall : forall tag, In tag (csv_tags ++ csv_elements) ->
              includes tag
                (save_xmlConfig (save_changesBinPath dir (query_filehash req)) p
                   (Path.basename p) (toLowerCase (Path.extname p)) (code fi) fonts
                   (themeDir dir) (iso (now w)))
              = String.eqb (toLowerCase (Path.extname p)) ".csv").
    { intros tag Ht.
      apply save_descriptor_tags; try assumption.
      - apply lt_free_join. repeat constructor. exact Hhd.
      - apply basename_kept. exact Hp.
      - apply lt_free_join. repeat constructor; assumption. }
    split.
    + intros tag Ht. rewrite Hall by (apply in_or_app; left; exact Ht).
      apply String.eqb_eq.
    + intros element He Hcsv. rewrite Hall by (apply in_or_app; right; exact He).
      apply String.eqb_eq, Hcsv.
Qed.

End Written.

Lemma csv_fields_witness :
  (exists c w1 xml,
     Server.api_convert Sample.dir Sample.fonts Sample.iso (Some Sample.source) Sample.w0
     = (Fs.Ok (Server.Waiting c), w1) /\
     Fs.files w1 !! Obs.convert_paramsPath Sample.dir Sample.source
     = Some (Fs.File 100 (Server.bytes_of xml)) /\
     Str.includes "<m_nCsvTxtEncoding>46</m_nCsvTxtEncoding>" xml = true /\
     Str.includes "<m_nCsvDelimiter>4</m_nCsvDelimiter>" xml = true) /\
  (exists c w1 xml,
     Server.api_save Sample.dir Sample.fonts Sample.iso
       (Server.SaveRequest (Some "/data/out.xlsx") None Sample.octet Sample.bin_payload)
       Sample.w0
     = (Fs.Ok (Server.Waiting c), w1) /\
     Fs.files w1 !! Obs.save_paramsPath Sample.dir None
     = Some (Fs.File 100 (Server.bytes_of xml)) /\
     Str.includes "<m_nCsvTxtEncoding>" xml = false /\
     Str.includes "<m_nCsvDelimiter>" xml = false).
Proof.
  assert (Ec : Server.api_convert Sample.dir Sample.fonts Sample.iso (Some Sample.source)
                 Sample.w0
               = (Fs.Ok (Server.Waiting (Obs.convert_child Sample.dir Sample.source)),
                  snd (Server.api_convert Sample.dir Sample.fonts Sample.iso
                         (Some Sample.source) Sample.w0))) by (vm_compute; reflexivity).
  assert (Es : Server.api_save Sample.dir Sample.fonts Sample.iso
                 (Server.SaveRequest (Some "/data/out.xlsx") None Sample.octet
                    Sample.bin_payload) Sample.w0
               = (Fs.Ok (Server.Waiting (Obs.save_child Sample.dir None "/data/out.xlsx")),
                  snd (Server.api_save Sample.dir Sample.fonts Sample.iso
                         (Server.SaveRequest (Some "/data/out.xlsx") None Sample.octet
                            Sample.bin_payload) Sample.w0))) by reflexivity.
  destruct (csv_fields_appear_exactly_for_csv Sample.dir Sample.fonts Sample.iso)
    as [Hconvert Hsave].
  split.
  - destruct (Hconvert _ _ _ _ Ec) as (xml & _ & Hfile & Htags).
    destruct Htags as [_ Hel]; try reflexivity.
    eexists _, _, xml. split; [exact Ec|]. split; [exact Hfile|].
    split; apply Hel; try reflexivity; cbn; tauto.
  - destruct (Hsave _ _ _ _ Es) as (p & xml & Hq & _ & Hfile & Htags).
    injection Hq as <-.
    destruct Htags as [Htag _]; try reflexivity; try exact I.
    eexists _, _, xml. split; [exact Es|]. split; [exact Hfile|].
    split.
    + destruct (Str.includes "<m_nCsvTxtEncoding>" xml) eqn:Hi; [|reflexivity].
      apply (Htag "<m_nCsvTxtEncoding>") in Hi; [discriminate Hi|cbn; tauto].
    + destruct (Str.includes "<m_nCsvDelimiter>" xml) eqn:Hi; [|reflexivity].
      apply (Htag "<m_nCsvDelimiter>") in Hi; [discriminate Hi|cbn; tauto].
Defined.

(** C7, where a value brings the text of a field with it.  The
    destination of this save request is an [.xlsx] file, below a
    directory whose name ends with the text of the encoding field.  The
    template does not escape the path, so the descriptor of this job,
    which is not a CSV job, contains the element [m_nCsvTxtEncoding] with
    the value 46; it does not contain the delimiter field. *)
Lemma field_text_in_a_path_reaches_the_descriptor :
  Str.toLowerCase (Path.extname "/data/<m_nCsvTxtEncoding>46</m_nCsvTxtEncoding>.xlsx")
  = ".xlsx" /\
  exists c w1 xml,
    Server.api_save Sample.dir Sample.fonts Sample.iso
      (Server.SaveRequest (Some "/data/<m_nCsvTxtEncoding>46</m_nCsvTxtEncoding>.xlsx")
         None Sample.octet Sample.bin_payload)
      Sample.w0
    = (Fs.Ok (Server.Waiting c), w1) /\
    Server.args c = [Obs.save_paramsPath Sample.dir None] /\
    Fs.files w1 !! Obs.save_paramsPath Sample.dir None
    = Some (Fs.File 100 (Server.bytes_of xml)) /\
    Str.includes "<m_nCsvTxtEncoding>" xml = true /\
    Str.includes "<m_nCsvTxtEncoding>46</m_nCsvTxtEncoding>" xml = true /\
    Str.includes "<m_nCsvDelimiter>" xml = false.
Proof.
  split; [vm_compute; reflexivity|].
  exists (Obs.save_child Sample.dir None
            "/data/<m_nCsvTxtEncoding>46</m_nCsvTxtEncoding>.xlsx"),
    (snd (Server.api_save Sample.dir Sample.fonts Sample.iso
            (Server.SaveRequest
               (Some "/data/<m_nCsvTxtEncoding>46</m_nCsvTxtEncoding>.xlsx")
               None Sample.octet Sample.bin_payload)
            Sample.w0)),
    (Server.save_xmlConfig (Obs.save_changesBinPath Sample.dir None)
       "/data/<m_nCsvTxtEncoding>46</m_nCsvTxtEncoding>.xlsx"
       (Path.basename "/data/<m_nCsvTxtEncoding>46</m_nCsvTxtEncoding>.xlsx")
       ".xlsx" 257 Sample.fonts (Server.themeDir Sample.dir) (Sample.iso 100)).
  split; [reflexivity|]. split; [reflexivity|].
  split; [vm_compute; reflexivity|].
  split; [vm_compute; reflexivity|]. split; vm_compute; reflexivity.
Qed.
(* ===================================================================== *)
(** ** From a conversion to the save that follows it *)
(* ===================================================================== *)

Section Handoff.
Import Str Utils Fs Server Obs Inv Norm Step.

Variables (dir fonts : string) (iso : Z -> string).

Lemma write_node_parent p d t (m m' : gmap string node) :
  write_node p d t m = inr m' -> Path.dirname p <> p ->
  is_dir m' (Path.dirname p) = true.
Proof.
  unfold write_node, is_dir. intros H Hne.
  destruct (m !! p) as [[?|?]|]; try discriminate H;
    destruct (m !! Path.dirname p) as [[?|?]|] eqn:Hd; try discriminate H;
    injection H as <-; rewrite lookup_insert_ne by (intros X; apply Hne; symmetry; exact X);
    rewrite Hd; reflexivity.
Qed.

(** When the convert handler hands over to the converter, the parent of
    the descriptor is a directory. *)
Lemma api_convert_waiting_dir p w c w1 :
  api_convert dir fonts iso (Some p) w = (Ok (Waiting c), w1) ->
  Path.dirname (convert_paramsPath dir p) <> convert_paramsPath dir p ->
  is_dir (files w1) (Path.dirname (convert_paramsPath dir p)) = true.
Proof.
  intros E Hne. unfold convert_paramsPath, convert_outputDir in *.
  destruct p as [|a p']; [discriminate E|].
  cbv beta iota zeta delta [api_convert] in E.
  set (fp := String a p') in *.
  set (h := generateFileHash fp) in *.
  set (od := Path.join [dir; "test"; "output"; h]) in *.
  set (out := Path.join [od; "Editor.bin"]) in *.
  set (params := Path.join [od; "params_temp.xml"]) in *.
  destruct (isAbsolutePath fp); [|discriminate E]. cbv beta iota delta [negb] in E.
  rewrite bind_existsSync in E.
  destruct (exists_node (files w) fp) eqn:Hex; [|discriminate E].
  cbv beta iota delta [negb] in E. unfold exists_node in Hex.
  destruct (files w !! fp) as [n|] eqn:Hsrc; [|discriminate Hex].
  rewrite (bind_statSync _ n) in E by (rewrite files_log; exact Hsrc).
  rewrite bind_existsSync in E. rewrite !files_log in E.
  set (w2 := log (EvExists out) (log (EvStat fp) (log (EvExists fp) w))) in *.
  unfold bind at 1 in E.
  match type of E with context [match ?c w2 with _ => _ end] =>
    destruct (c w2) as [[[r|]|e] w3] eqn:Ecache end; try discriminate E.
  rewrite bind_existsSync in E.
  unfold bind at 1 in E.
  match type of E with context [match ?c ?x with _ => _ end] =>
    destruct (c x) as [[[]|e] w4] end; [|discriminate E].
  rewrite bind_timestamp in E.
  match type of E with context [writeFileSync params ?d] => set (xml := d) in E end.
  destruct (write_node params xml (now w4) (files w4)) as [e|m'] eqn:Hw.
  { rewrite (bind_writeFileSync_err _ _ e) in E by exact Hw. discriminate E. }
  rewrite (bind_writeFileSync_ok _ _ m') in E by exact Hw.
  rewrite bind_spawn in E. unfold ret in E. injection E as _ <-.
  cbn [files set_files log]. eapply write_node_parent; eassumption.
Qed.


Lemma save_hashDir_some h :
  h <> "" ->
  save_hashDir dir (Some h) = Path.join [Path.join [dir; "test"; "output"]; h].
Proof. destruct h; [contradiction|reflexivity]. Qed.

(** The directory the save handler derives from a fingerprint is the
    working directory the convert handler derives from the path. *)
Lemma save_hashDir_is_outputDir p :
  posix_absolute dir = true ->
  save_hashDir dir (Some (generateFileHash p)) = convert_outputDir dir p.
Proof.
  intros Habs. pose proof (clean_hash p) as Hh.
  rewrite save_hashDir_some by (intros E; rewrite E in Hh; discriminate Hh).
  destruct (outputDir_render dir (generateFileHash p) Habs Hh) as [Ho _].
  change (convert_outputDir dir p) with (Routes.outputDir_of dir (generateFileHash p)).
  rewrite Ho. rewrite (join_absolute dir ["test"; "output"]);
    [|exact Habs|discriminate|repeat constructor].
  rewrite join_render.
  - rewrite <- app_assoc. reflexivity.
  - apply Forall_app. split; [apply segments_clean|repeat constructor].
  - discriminate.
  - repeat constructor. exact Hh.
Qed.

(** X16. A successful conversion hands the save that follows it its
    working directory.  In a tree where every node's parent is a
    directory, when a convert request is answered with status 200 (from
    the cache or after a run of the converter), the fingerprint in its
    [X-File-Hash] header, passed back as [filehash], makes the save
    handler work in the directory of the conversion, and that directory
    exists when the response is sent. *)
Theorem convert_reply_names_the_save_directory :
  forall (x2t : converter) (p : string) (w : world) (resp : response),
    posix_absolute dir = true ->
    isAbsolutePath p = true ->
    well_formed (files w) ->
    fst (convert dir fonts iso x2t (Some p) w) = Replied resp ->
    status resp = 200%Z ->
    exists h,
      header "X-File-Hash" resp = Some h /\
      save_hashDir dir (Some h) = convert_outputDir dir p /\
      is_dir (files (snd (convert dir fonts iso x2t (Some p) w))) (save_hashDir dir (Some h))
        = true.
Proof.
  intros x2t p w resp Hdir Habs Hwf Hr Hok.
  exists (generateFileHash p). rewrite (save_hashDir_is_outputDir p Hdir).
  destruct (convert_paths dir p Hdir) as (S & Hc & HS & Hod & Hout & Hpar).
  assert (Hcx : clean_seg (chars "Editor.bin") = true) by reflexivity.
  assert (Hcy : clean_seg (chars "params_temp.xml") = true) by reflexivity.
  assert (Hdn_out : Path.dirname (convert_outputPath dir p) = convert_outputDir dir p)
    by (rewrite Hout, Hod; apply dirname_render; assumption).
  assert (Hdn_par : Path.dirname (convert_paramsPath dir p) = convert_outputDir dir p)
    by (rewrite Hpar, Hod; apply dirname_render; assumption).
  unfold convert in *.
  destruct (files w !! p) as [n|] eqn:Hsrc.
  - destruct (cache_state_cases (files w) (convert_outputPath dir p) p n Hsrc)
      as [Hf|[Hs|(t & Hdir_art & Hnew)]].
    + (* served from the cache *)
      destruct (api_convert_hit dir fonts iso p w Habs Hf) as (t & d & Hfile & E).
      rewrite (serve_sent _ _ _ _ _ E) in *. cbn [fst snd files] in *.
      injection Hr as <-. split; [reflexivity|]. split; [reflexivity|].
      rewrite <- Hdn_out. apply (Hwf _ _ Hfile).
      rewrite Hout. unfold render. intros X. apply (f_equal chars) in X.
      rewrite chars_of_str in X. cbn in X. injection X as X.
      destruct S as [|s S']; [contradiction|]. 
      inversion Hc as [|? ? Hs _]; subst. destruct s; [discriminate Hs|].
      destruct S'; discriminate X.
    + (* converted *)
      destruct (api_convert_stale dir fonts iso p w Habs Hs)
        as (res & w1 & E & seen & _ & [(e & -> & _)|(-> & _ & _)]).
      * rewrite (serve_throw _ _ _ _ _ E) in Hr. discriminate Hr.
      * rewrite (serve_waiting _ _ _ _ _ E) in *.
        split; [|split; [reflexivity|]].
        -- unfold settle, convert_child in Hr.
           cbn [command args error_listener close_listener] in Hr.
           destruct (outcome _); cbv beta iota in Hr; [discriminate Hr| |];
             rewrite finish_fst in Hr;
             match type of Hr with context [fst ?x] => destruct (fst x) eqn:Hx end;
             try discriminate Hr; injection Hr as ->;
             eapply convert_close_ok_header; eassumption.
        -- destruct (settle_extends x2t (convert_child dir p) w1) as (Hkept & _).
           { split; [intros; apply keeps_convert_on_close|intros f e Hf; discriminate Hf]. }
           apply Hkept. rewrite <- Hdn_par.
           apply (api_convert_waiting_dir p w _ w1 E).
           rewrite Hdn_par, Hod, Hpar. intros X. symmetry in X. revert X.
           apply render_snoc_ne; assumption.
    + destruct (api_convert_directory_artifact dir fonts iso p w t n Habs Hsrc Hdir_art Hnew)
        as (e & w1 & E).
      rewrite (serve_throw _ _ _ _ _ E) in Hr. discriminate Hr.
  - destruct (absolute_nonempty p Habs) as (a & p' & ->).
    cbv beta iota zeta delta [api_convert serve] in Hr. rewrite Habs in Hr.
    cbv beta iota delta [negb] in Hr.
    rewrite bind_existsSync, (exists_node_none _ _ Hsrc) in Hr.
    cbn in Hr. injection Hr as <-. discriminate Hok.
Qed.

End Handoff.

Lemma well_formed_sample : Norm.well_formed (Fs.files Sample.w_cached).
Proof.
  assert (H : bool_decide
                (map_Forall (fun (p : string) (_ : Fs.node) =>
                               p <> "/" ->
                               Fs.is_dir (Fs.files Sample.w_cached) (Path.dirname p) = true)
                   (Fs.files Sample.w_cached)) = true) by (vm_compute; reflexivity).
  exact (bool_decide_eq_true_1 _ H).
Qed.

Lemma convert_reply_witness :
  exists resp,
    fst (Server.convert Sample.dir Sample.fonts Sample.iso Sample.x2t_fail
           (Some Sample.source) Sample.w_cached) = Server.Replied resp /\
    Server.status resp = 200%Z /\
    exists h,
      Obs.header "X-File-Hash" resp = Some h /\
      Obs.save_hashDir Sample.dir (Some h) = Server.convert_outputDir Sample.dir Sample.source /\
      Fs.is_dir
        (Fs.files (snd (Server.convert Sample.dir Sample.fonts Sample.iso Sample.x2t_fail
                          (Some Sample.source) Sample.w_cached)))
        (Obs.save_hashDir Sample.dir (Some h)) = true.
Proof.
  eexists.
  assert (E : fst (Server.convert Sample.dir Sample.fonts Sample.iso Sample.x2t_fail
                     (Some Sample.source) Sample.w_cached)
              = Server.Replied
                  (Server.Response 200
                     (Server.editor_bin_headers (Utils.generateFileHash Sample.source) "HIT")
                     (Server.Binary Sample.artifact))) by (vm_compute; reflexivity).
  split; [exact E|]. split; [reflexivity|].
  exact (convert_reply_names_the_save_directory Sample.dir Sample.fonts Sample.iso
           Sample.x2t_fail Sample.source Sample.w_cached _ eq_refl eq_refl
           well_formed_sample E eq_refl).
Defined.
(* ===================================================================== *)
(** ** Fingerprints keep the temporary files of documents apart *)
(* ===================================================================== *)

Section Separate.
Import Str Utils Fs Server Obs Norm.

Variable dir : string.

Lemma save_paths h :
  posix_absolute dir = true -> clean_name h = true ->
  save_changesBinPath dir (Some h)
  = render (segments dir ++ [chars "test"; chars "output"; chars h; chars "temp_changes.bin"]) /\
  save_paramsPath dir (Some h)
  = render (segments dir ++ [chars "test"; chars "output"; chars h; chars "params_save.xml"]).
Proof.
  intros Habs Hh. unfold save_changesBinPath, save_paramsPath.
  assert (Hd : save_hashDir dir (Some h)
               = render (segments dir ++ [chars "test"; chars "output"; chars h])).
  { rewrite save_hashDir_some by (intros E; rewrite E in Hh; discriminate Hh).
    rewrite (join_absolute dir ["test"; "output"]);
      [|exact Habs|discriminate|repeat constructor].
    rewrite join_render.
    - rewrite <- app_assoc. reflexivity.
    - apply Forall_app. split; [apply segments_clean|repeat constructor].
    - discriminate.
    - repeat constructor. exact Hh. }
  rewrite Hd.
  assert (Hc : all_clean (segments dir ++ [chars "test"; chars "output"; chars h])).
  { apply Forall_app. split; [apply segments_clean|repeat constructor; exact Hh]. }
  split; (rewrite join_render; [rewrite <- app_assoc; reflexivity|exact Hc|discriminate|]);
    repeat constructor.
Qed.

Lemma save_paths_shared :
  posix_absolute dir = true ->
  save_changesBinPath dir None
  = render (segments dir ++ [chars "test"; chars "output"; chars "temp_changes.bin"]) /\
  save_paramsPath dir None
  = render (segments dir ++ [chars "test"; chars "output"; chars "params_save.xml"]).
Proof.
  intros Habs. unfold save_changesBinPath, save_paramsPath, save_hashDir.
  rewrite (join_absolute dir ["test"; "output"]);
    [|exact Habs|discriminate|repeat constructor].
  assert (Hc : all_clean (segments dir ++ [chars "test"; chars "output"])).
  { apply Forall_app. split; [apply segments_clean|repeat constructor]. }
  split; (rewrite join_render; [rewrite <- app_assoc; reflexivity|exact Hc|discriminate|]);
    repeat constructor.
Qed.

(** X17. Fingerprints keep the temporary files of different documents
    apart.  For a server directory that is an absolute path and two
    different fingerprints that are plain path components, none of the two
    temporary files of a save under one fingerprint is a temporary file of
    a save under the other, and none is a temporary file of a save without
    fingerprint; saves without fingerprint all share one pair of paths. *)
Theorem fingerprints_separate_temporary_files :
  forall (h1 h2 : string),
    posix_absolute dir = true ->
    clean_name h1 = true -> clean_name h2 = true -> h1 <> h2 ->
    let temps := fun fh => [save_changesBinPath dir fh; save_paramsPath dir fh] in
    (forall q, In q (temps (Some h1)) -> ~ In q (temps (Some h2))) /\
    (forall q, In q (temps (Some h1)) -> ~ In q (temps None)) /\
    temps (Some "") = temps None.
Proof.
  intros h1 h2 Habs H1 H2 Hne temps. subst temps.
  destruct (save_paths h1 Habs H1) as [Ec1 Ep1].
  destruct (save_paths h2 Habs H2) as [Ec2 Ep2].
  destruct save_paths_shared as [Ec0 Ep0]; [exact Habs|].
  assert (Hcl : forall h x, clean_name h = true -> clean_seg x = true ->
            all_clean (segments dir ++ [chars "test"; chars "output"; chars h; x])).
  { intros h x Hh Hx. apply Forall_app. split; [apply segments_clean|].
    repeat constructor; assumption. }
  assert (Hcl0 : forall x, clean_seg x = true ->
            all_clean (segments dir ++ [chars "test"; chars "output"; x])).
  { intros x Hx. apply Forall_app. split; [apply segments_clean|].
    repeat constructor; assumption. }
  assert (Hinj : forall s t, chars s = chars t -> s = t).
  { intros s t E. rewrite <- (str_chars s), <- (str_chars t), E. reflexivity. }
  split; [|split; [|reflexivity]].
  - intros q Hq Hq'. cbn [In] in Hq, Hq'.
    rewrite Ec1, Ep1 in Hq. rewrite Ec2, Ep2 in Hq'.
    destruct Hq as [<-|[<-|[]]]; destruct Hq' as [E|[E|[]]];
      apply render_inj in E; try (apply Hcl; (assumption || reflexivity));
      apply app_inv_head in E; injection E as E; apply Hne; symmetry; apply Hinj, E.
  - intros q Hq Hq'. cbn [In] in Hq, Hq'.
    rewrite Ec1, Ep1 in Hq. rewrite Ec0, Ep0 in Hq'.
    destruct Hq as [<-|[<-|[]]]; destruct Hq' as [E|[E|[]]];
      apply render_inj in E;
      try (apply Hcl; (assumption || reflexivity));
      try (apply Hcl0; reflexivity);
      apply (f_equal (@length _)) in E; rewrite !length_app in E; cbn in E; lia.
Qed.

End Separate.

Lemma fingerprints_separate_witness :
  Norm.clean_name Sample2.hash = true /\
  Norm.clean_name (Utils.generateFileHash Sample.source) = true /\
  Sample2.hash <> Utils.generateFileHash Sample.source /\
  forall q,
    In q [Obs.save_changesBinPath Sample.dir (Some Sample2.hash);
          Obs.save_paramsPath Sample.dir (Some Sample2.hash)] ->
    ~ In q [Obs.save_changesBinPath Sample.dir (Some (Utils.generateFileHash Sample.source));
            Obs.save_paramsPath Sample.dir (Some (Utils.generateFileHash Sample.source))].
Proof.
  assert (H2 : Norm.clean_name (Utils.generateFileHash Sample.source) = true)
    by (vm_compute; reflexivity).
  assert (Hne : Sample2.hash <> Utils.generateFileHash Sample.source)
    by (vm_compute; discriminate).
  split; [reflexivity|]. split; [exact H2|]. split; [exact Hne|].
  exact (proj1 (fingerprints_separate_temporary_files Sample.dir Sample2.hash
                  (Utils.generateFileHash Sample.source) eq_refl eq_refl H2 Hne)).
Defined.
(* ===================================================================== *)
(** ** The Document Server compatibility endpoint *)
(* ===================================================================== *)

Section DocServerFacts.
Import Str Utils Fs Server Obs Norm Step Routes DocServer.

Variables (dir : string) (iso : Z -> string) (PORT : Z).
Variable fmt : string -> option Z.
Variable tok : string -> string + payload.
Variables pathname uri : string -> string + string.

Lemma refusal_failure st m : (st = 400 \/ st = 404 \/ st = 500)%Z -> refusal (failure st m).
Proof. intros H. exists st, m, NoDetails. split; [reflexivity|exact H]. Qed.

Lemma refusal_internal e : refusal (internal_error e).
Proof. eexists _, _, _. split; [reflexivity|]. right; right; reflexivity. Qed.

Lemma read_payload_return body r : read_payload tok body = Return r -> refusal r.
Proof.
  unfold read_payload. destruct body as [b|]; [|discriminate].
  destruct (present (token b)) as [tk|]; [|discriminate].
  destruct (negb _).
  - intros E. injection E as <-. apply refusal_failure. left; reflexivity.
  - destruct (tok _); discriminate.
Qed.

Lemma required_cases p :
  (exists r, required p = Return r /\ refusal r) \/
  (exists k o u, required p = Go (k, o, u) /\ present (outputtype p) = Some o /\ k <> "").
Proof.
  unfold required.
  destruct (present (filetype p)); [|left; eexists; split; [reflexivity|apply refusal_failure; tauto]].
  destruct (present (key p)) as [k|] eqn:Hk;
    [|left; eexists; split; [reflexivity|apply refusal_failure; tauto]].
  destruct (present (outputtype p)) as [o|];
    [|left; eexists; split; [reflexivity|apply refusal_failure; tauto]].
  destruct (present (url p)) as [u|];
    [|left; eexists; split; [reflexivity|apply refusal_failure; tauto]].
  right. exists k, o, u. split; [reflexivity|]. split; [reflexivity|].
  unfold present in Hk. destruct (key p) as [[|? ?]|]; try discriminate Hk.
  injection Hk as <-. discriminate.
Qed.

Lemma locate_return u r : locate pathname uri u = Return r -> refusal r.
Proof.
  unfold locate. destruct (_ || _); [|discriminate].
  destruct (pathname u); [discriminate|].
  destruct (files_capture _).
  - destruct (decode_pieces _ _); discriminate.
  - intros E. injection E as <-. apply refusal_failure. left; reflexivity.
Qed.

Lemma bind_date_now {B} (k : Z -> M B) w : bind date_now k w = k (now w) w.
Proof. reflexivity. Qed.

(** The filesystem part of the handler: it answers with a refusal, throws
    an [fs] error, or launches the child of the request with the
    descriptor on disk. *)
Lemma launch_cases k o inp ttl w :
  let r := launch dir iso PORT fmt k o inp ttl w in
  (exists a, fst r = Ok (Answered a) /\ refusal a) \/
  (exists e, fst r = Throw e) \/
  (fst r = Ok (Launched (converter_job dir PORT k o (now w))) /\
   is_file (files (snd r)) (paramsPath_of dir k (now w)) = true).
Proof.
  cbv zeta. unfold launch. rewrite bind_existsSync.
  destruct (exists_node (files w) inp); cbn [negb].
  2:{ left. eexists. split; [reflexivity|]. apply refusal_failure. tauto. }
  assert (Hbad : forall w',
            (exists a, fst (ret (Answered (failure 400 ("Unsupported output format: " +:+ o))) w')
                       = Ok (Answered a) /\ refusal a)).
  { intros w'. eexists. split; [reflexivity|]. apply refusal_failure. tauto. }
  destruct (fmt o) as [c|]; [|left; apply Hbad].
  assert (Hrun : forall c,
    let r := (let outputDir := Path.join [dir; "converted"] in
      bind (existsSync outputDir) (fun haveDir =>
      bind (if negb haveDir then mkdirSync_recursive outputDir else ret tt) (fun _ =>
      bind date_now (fun t =>
        let fileHash := Md5.hexdigest (k +:+ decimal t) in
        let outputFilename := fileHash +:+ "." +:+ o in
        let outputPath := Path.join [outputDir; outputFilename] in
        let paramsPath := Path.join [outputDir; "params_" +:+ fileHash +:+ ".xml"] in
        let shownTitle := match present ttl with Some s => s | None => Path.basename inp end in
        bind (timestamp iso) (fun ts =>
        let xmlConfig := converter_xmlConfig k inp outputPath shownTitle c (themeDir dir) ts in
        bind (writeFileSync paramsPath (bytes_of xmlConfig)) (fun _ =>
        let x2tPath := Path.join [dir; "converter"; "x2t"] in
        bind (spawn x2tPath [paramsPath]) (fun _ =>
        ret (Launched (Job x2tPath [paramsPath]
               (converter_on_close PORT paramsPath outputPath outputFilename o))))))))))
      (log (EvExists inp) w) in
    (exists e, fst r = Throw e) \/
    (fst r = Ok (Launched (converter_job dir PORT k o (now w))) /\
     is_file (files (snd r)) (paramsPath_of dir k (now w)) = true)).
  { intros c0. cbv zeta.
    destruct (prepare_cases (Path.join [dir; "converted"]) (log (EvExists inp) w))
      as (r & w0 & Hnow & Hgo).
    rewrite Hgo. destruct r as [[]|e]; [|left; eexists; reflexivity].
    rewrite bind_date_now, bind_timestamp.
    change (now (log (EvExists inp) w)) with (now w) in Hnow. rewrite Hnow.
    match goal with |- context [writeFileSync ?p ?d] => set (pp := p); set (xml := d) end.
    destruct (write_node pp xml (now w0) (files w0)) as [e|m1] eqn:Hw.
    { rewrite (bind_writeFileSync_err _ _ e) by exact Hw. left. eexists; reflexivity. }
    rewrite (bind_writeFileSync_ok _ _ m1) by exact Hw. rewrite bind_spawn.
    right. split; [reflexivity|].
    cbn [snd ret files log set_files]. unfold is_file.
    change (paramsPath_of dir k (now w)) with pp.
    rewrite (write_node_ok_lookup _ _ _ _ _ Hw). reflexivity. }
  destruct c as [|c|c]; [left; apply Hbad|right; apply Hrun|right; apply Hrun].
Qed.

(** The synchronous part of the handler never throws. *)
Lemma api_converter_cases body w :
  let r := api_converter dir iso PORT fmt tok pathname uri body w in
  (exists a, fst r = Ok (Answered a) /\ refusal a) \/
  (exists k o, fst r = Ok (Launched (converter_job dir PORT k o (now w))) /\
     is_file (files (snd r)) (paramsPath_of dir k (now w)) = true).
Proof.
  cbv zeta. unfold api_converter.
  destruct (read_payload tok body) as [p|r|e] eqn:Hp.
  2:{ left. exists r. split; [reflexivity|]. eapply read_payload_return, Hp. }
  2:{ left. eexists. split; [reflexivity|apply refusal_internal]. }
  destruct (required_cases p) as [(r & -> & Hr)|(k & o & u & -> & _)].
  { left. exists r. split; [reflexivity|exact Hr]. }
  destruct (locate pathname uri u) as [inp|r|e] eqn:Hl.
  2:{ left. exists r. split; [reflexivity|]. eapply locate_return, Hl. }
  2:{ left. eexists. split; [reflexivity|apply refusal_internal]. }
  unfold try_catch.
  destruct (launch_cases k o inp (title p) w) as [(a & E & Ha)|[(e & E)|[E Hf]]];
    destruct (launch dir iso PORT fmt k o inp (title p) w) as [[s|e'] w1];
    cbn [fst snd] in *; try discriminate E.
  - left. exists a. split; [exact E|exact Ha].
  - left. eexists. split; [reflexivity|apply refusal_internal].
  - right. exists k, o. split; [exact E|exact Hf].
Qed.

(** The [close] listener never throws; it removes the descriptor, and it
    reports success only after it has seen the output file. *)
Lemma converter_close_cases pp op name o code out err w :
  exists r w',
    converter_on_close PORT pp op name o code out err w = (Ok r, w') /\
    (is_file (files w) pp = true -> exists_node (files w') pp = false) /\
    (refusal r \/
     (r = Answer 200
            (Converted ("http://localhost:" +:+ decimal PORT +:+ "/converted/" +:+ name) o) /\
      exists_node (files w') op = true)).
Proof.
  unfold converter_on_close.
  assert (Hun : exists w1,
            (is_file (files w) pp = true -> exists_node (files w1) pp = false) /\
            forall B (k : unit -> M B),
              bind (try_catch (unlinkSync pp) (fun _ => ret tt)) k w = k tt w1).
  { unfold is_file. destruct (files w !! pp) as [[t d|t]|] eqn:E.
    - exists (set_files (delete pp (files w)) (log (EvUnlink pp) w)). split.
      + intros _. unfold exists_node. cbn [files set_files].
        rewrite lookup_delete_eq. reflexivity.
      + intros B k. unfold bind, try_catch, unlinkSync. rewrite E. reflexivity.
    - exists (log (EvUnlink pp) w). split; [discriminate|].
      intros B k. unfold bind, try_catch, unlinkSync. rewrite E. reflexivity.
    - exists (log (EvUnlink pp) w). split; [discriminate|].
      intros B k. unfold bind, try_catch, unlinkSync. rewrite E. reflexivity. }
  destruct Hun as (w1 & Hgone & Hgo). rewrite Hgo.
  destruct (code_nonzero code).
  { eexists _, w1. split; [reflexivity|]. split; [exact Hgone|]. left.
    eexists _, _, _. split; [reflexivity|]. tauto. }
  rewrite bind_existsSync. destruct (exists_node (files w1) op) eqn:Hop; cbn [negb].
  - eexists _, _. split; [reflexivity|]. split; [exact Hgone|]. right.
    split; [reflexivity|exact Hop].
  - eexists _, _. split; [reflexivity|]. split; [exact Hgone|]. left.
    apply refusal_failure. tauto.
Qed.

(** A name made of a digest, a dot and an output type without separator
    is a plain path component. *)
Lemma clean_digest_name (pre s suf : string) :
  forallb Path.not_sep (chars pre) = true ->
  forallb Path.not_sep (chars suf) = true ->
  clean_name (pre +:+ Md5.hexdigest s +:+ suf) = true.
Proof.
  intros Hpre Hsuf.
  destruct (generateFileHash_shape s) as [Hlen Hhex].
  change (generateFileHash s) with (Md5.hexdigest s) in Hlen, Hhex.
  set (h := Md5.hexdigest s) in *.
  unfold clean_name, clean_seg.
  assert (Hl : (32 <= String.length (pre +:+ h +:+ suf))%nat).
  { rewrite <- (str_chars (pre +:+ h +:+ suf)). rewrite !chars_append.
    rewrite <- (str_chars h) in Hlen.
    assert (Hsl : forall l, String.length (str l) = length l).
    { induction l as [|c l IH]; [reflexivity|]. cbn. rewrite <- IH. reflexivity. }
    rewrite Hsl in *. rewrite !length_app. lia. }
  assert (Hnot : forall t, (String.length t < 32)%nat ->
            Path.seg_is (chars (pre +:+ h +:+ suf)) t = false).
  { intros t Ht. destruct (Path.seg_is _ t) eqn:E; [|reflexivity].
    apply seg_is_iff in E. apply (f_equal str) in E. rewrite !str_chars in E.
    rewrite E in Hl. lia. }
  rewrite !Hnot by (cbn; lia). cbn [negb andb].
  rewrite !chars_append, !forallb_app, Hpre, Hsuf. cbn [andb]. rewrite andb_true_r.
  apply forallb_forall. intros c Hc. apply lower_hex_not_sep.
  rewrite forallb_forall in Hhex. apply Hhex, Hc.
Qed.

Lemma settle_launched (x2t : converter) k o t w :
  let j := converter_job dir PORT k o t in
  (exists e, outcome (x2t (jcommand j) (jargs j) (files w)) = SpawnFailed e /\
             DocServer.settle x2t j w = (ErrorEvent e, w)) \/
  ((forall e, outcome (x2t (jcommand j) (jargs j) (files w)) <> SpawnFailed e) /\
   exists r w',
     DocServer.settle x2t j w = (Responded r, w') /\
     (is_file (files w) (paramsPath_of dir k t) = true ->
      exists_node (files w') (paramsPath_of dir k t) = false) /\
     (refusal r \/
      (r = Answer 200
             (Converted ("http://localhost:" +:+ decimal PORT +:+ "/converted/"
                         +:+ outputFilename_of k o t) o) /\
       exists_node (files w') (outputPath_of dir k o t) = true))).
Proof.
  cbv zeta. unfold DocServer.settle.
  set (j := converter_job dir PORT k o t).
  set (run := x2t (jcommand j) (jargs j) (files w)).
  set (w1 := set_files (apply_writes (now w) (writes run) (files w)) w).
  assert (Hran : forall code,
    exists r w',
      match jclose j code (stdout run) (stderr run) w1 with
      | (Ok r0, w2) => (Responded r0, w2)
      | (Throw e, w2) => (Escaped e, w2)
      end = (Responded r, w') /\
      (is_file (files w) (paramsPath_of dir k t) = true ->
       exists_node (files w') (paramsPath_of dir k t) = false) /\
      (refusal r \/
       (r = Answer 200
              (Converted ("http://localhost:" +:+ decimal PORT +:+ "/converted/"
                          +:+ outputFilename_of k o t) o) /\
        exists_node (files w') (outputPath_of dir k o t) = true))).
  { intros code. subst j. cbn [jclose converter_job].
    destruct (converter_close_cases (paramsPath_of dir k t) (outputPath_of dir k o t)
                (outputFilename_of k o t) o code (stdout run) (stderr run) w1)
      as (r & w' & -> & Hgone & Hr).
    exists r, w'. split; [reflexivity|]. split; [|exact Hr].
    intros Hf. apply Hgone. subst w1. cbn [files set_files].
    apply is_file_apply_writes, Hf. }
  destruct (outcome run) as [e|c|s] eqn:Ho.
  - left. exists e. split; reflexivity.
  - right. split; [discriminate|]. apply Hran.
  - right. split; [discriminate|]. apply Hran.
Qed.

(** The paths of a conversion, in normal form. *)
Lemma converted_paths k o t :
  posix_absolute dir = true ->
  forallb Path.not_sep (chars o) = true ->
  let S := segments dir ++ [chars "converted"] in
  let name := outputFilename_of k o t in
  all_clean S /\ clean_name name = true /\
  Path.join [dir; "converted"] = render S /\
  outputPath_of dir k o t = render (S ++ [chars name]) /\
  Path.join [dir; "converted"; name] = render (S ++ [chars name]).
Proof.
  intros Habs Ho S name.
  assert (Hn : clean_name name = true).
  { subst name. unfold outputFilename_of.
    change (Md5.hexdigest (k +:+ decimal t) +:+ "." +:+ o)
      with ("" +:+ Md5.hexdigest (k +:+ decimal t) +:+ ("." +:+ o)).
    apply clean_digest_name; [reflexivity|].
    rewrite chars_append, forallb_app, Ho. reflexivity. }
  assert (Hc : all_clean S).
  { apply Forall_app. split; [apply segments_clean|repeat constructor]. }
  assert (HD : Path.join [dir; "converted"] = render S).
  { rewrite (join_absolute dir ["converted"]); [reflexivity|exact Habs|discriminate|].
    repeat constructor. }
  split; [exact Hc|]. split; [exact Hn|]. split; [exact HD|]. split.
  - unfold outputPath_of. fold name. rewrite HD.
    rewrite join_render; [reflexivity|exact Hc|discriminate|repeat constructor; exact Hn].
  - rewrite (join_absolute dir ["converted"; name]);
      [|exact Habs|discriminate|repeat constructor; exact Hn].
    subst S. rewrite <- app_assoc. reflexivity.
Qed.

(** The name of an output file begins with a digit of the digest. *)
Lemma outputFilename_no_dot k o t :
  match chars (outputFilename_of k o t) with
  | c :: _ => Ascii.eqb c Path.dot
  | [] => false
  end = false.
Proof.
  unfold outputFilename_of. rewrite chars_append.
  destruct (generateFileHash_shape (k +:+ decimal t)) as [Hlen Hhex].
  change (generateFileHash (k +:+ decimal t)) with (Md5.hexdigest (k +:+ decimal t))
    in Hlen, Hhex.
  destruct (chars (Md5.hexdigest (k +:+ decimal t))) as [|c rest] eqn:E.
  - rewrite <- (str_chars (Md5.hexdigest (k +:+ decimal t))), E in Hlen. discriminate Hlen.
  - cbn [app]. cbn [forallb] in Hhex. apply andb_true_iff in Hhex as [Hc _].
    destruct c as [[] [] [] [] [] [] [] []]; try reflexivity; discriminate Hc.
Qed.

(** A request makes no directory but the one that holds the converted
    files, and its ancestors. *)
Lemma converter_request_dirs (x2t : converter) body w :
  dirs_from (Path.join [dir; "converted"]) w
    (snd (converter_request dir iso PORT fmt tok pathname uri x2t body w)).
Proof.
  set (D := Path.join [dir; "converted"]).
  assert (Hclose : forall pp op name o code out err,
            steps (dirs_from D) (converter_on_close PORT pp op name o code out err)
              whatever).
  { intros. unfold converter_on_close. repeat steps_go. }
  assert (Hh : steps (dirs_from D) (api_converter dir iso PORT fmt tok pathname uri body)
                 (fun st => match st with
                            | Answered _ => True
                            | Launched j =>
                                forall code out err,
                                  steps (dirs_from D) (jclose j code out err) whatever
                            end)).
  { unfold api_converter.
    destruct (read_payload tok body) as [p|r|e]; try (apply steps_ret; [rel_side|exact I]).
    destruct (required p) as [[[k o] u]|r|e]; try (apply steps_ret; [rel_side|exact I]).
    destruct (locate pathname uri u) as [inp|r|e];
      try (apply steps_ret; [rel_side|exact I]).
    apply steps_try_catch; [rel_side| |intros ?; apply steps_ret; [rel_side|exact I]].
    unfold launch. fold D. repeat steps_go.
    all: intros code out err; cbn [jclose]; apply Hclose. }
  unfold converter_request. destruct (Hh w) as [HR HQ].
  destruct (api_converter dir iso PORT fmt tok pathname uri body w) as [[[a|j]|e] w1];
    cbn [fst snd] in *; try exact HR.
  specialize (HQ _ eq_refl). unfold DocServer.settle.
  set (run := x2t (jcommand j) (jargs j) (files w1)).
  assert (Hran : forall code,
            dirs_from D w
              (snd (match jclose j code (stdout run) (stderr run)
                            (set_files (apply_writes (now w1) (writes run) (files w1)) w1)
                    with
                    | (Ok r, w2) => (Responded r, w2)
                    | (Throw e, w2) => (Escaped e, w2)
                    end))).
  { intros code. destruct (HQ code (stdout run) (stderr run)
                             (set_files (apply_writes (now w1) (writes run) (files w1)) w1))
      as [Hc _].
    destruct (jclose j code _ _ _) as [[r|e] w2]; cbn [fst snd] in *;
      (eapply dirs_from_trans; [exact HR|]);
      (eapply dirs_from_trans; [apply dirs_from_apply_writes|exact Hc]). }
  destruct (outcome run); [exact HR|apply Hran|apply Hran].
Qed.

(** X18. A converted document can be downloaded under the URL of the
    reply.  For a server directory that is an absolute path, an output
    type without separator, and a tree in which the directory of the
    converted files holds no directory: when a request to the
    compatibility endpoint is answered with [error: 0], the URL of the
    answer ends in [/converted/] and a file name made of a digest, a dot
    and the output type; that name is the name of a regular file in the
    directory of the converted files; and from then on the download
    route, given that name, answers with status 200 and that file. *)
Theorem converter_result_can_be_downloaded :
  forall (x2t : converter) (body : option request_body) (w : world) (u ft : string),
    posix_absolute dir = true ->
    forallb Path.not_sep (chars ft) = true ->
    (forall name, clean_name name = true ->
       is_dir (files w) (Path.join [dir; "converted"; name]) = false) ->
    fst (converter_request dir iso PORT fmt tok pathname uri x2t body w)
    = Responded (Answer 200 (Converted u ft)) ->
    exists name digest,
      name = digest +:+ "." +:+ ft /\
      u = "http://localhost:" +:+ decimal PORT +:+ "/converted/" +:+ name /\
      is_file
        (files (snd (converter_request dir iso PORT fmt tok pathname uri x2t body w)))
        (Path.join [dir; "converted"; name]) = true /\
      forall w2,
        files w2 = files (snd (converter_request dir iso PORT fmt tok pathname uri x2t body w)) ->
        exists hs,
          fst (converted dir name w2)
          = Ok (Reply 200 hs (SendFile (Path.join [dir; "converted"; name]))).
Proof.
  intros x2t body w u ft Habs Hft Hnodir E.
  pose proof (converter_request_dirs x2t body w) as Hdirs.
  unfold converter_request in *.
  assert (Hno : forall st c, ~ refusal (Answer st (Converted c ft))).
  { intros st c (st' & m & d & Hr & _). discriminate Hr. }
  destruct (api_converter_cases body w) as [(a & Ha & Hr)|(k & o & Hl & _)];
    destruct (api_converter dir iso PORT fmt tok pathname uri body w) as [[[a'|j]|e] w1];
    cbn [fst snd] in *; try discriminate.
  { injection Ha as ->. injection E as ->. exfalso. eapply Hno, Hr. }
  injection Hl as ->.
  destruct (settle_launched x2t k o (now w) w1)
    as [(e & _ & Hs)|(_ & r & w' & Hs & _ & Hr)]; rewrite Hs in *; cbn [fst snd] in *.
  { discriminate E. }
  injection E as ->. destruct Hr as [Hr|[Hr Hout]]; [exfalso; eapply Hno, Hr|].
  injection Hr as -> <-.
  destruct (converted_paths k ft (now w) Habs Hft) as (Hc & Hn & HD & Hop & Hjoin).
  set (name := outputFilename_of k ft (now w)) in *.
  set (q := Path.join [dir; "converted"; name]) in *.
  assert (Eq : outputPath_of dir k ft (now w) = q) by (rewrite Hop, Hjoin; reflexivity).
  rewrite Eq in Hout.
  assert (Hfile : is_file (files w') q = true).
  { unfold exists_node in Hout. unfold is_file.
    destruct (files w' !! q) as [[t d|t]|] eqn:Hq; [reflexivity| |discriminate Hout].
    exfalso. assert (Hd : is_dir (files w') q = true) by (unfold is_dir; rewrite Hq; reflexivity).
    destruct (Hdirs q Hd) as [Hold|Hanc].
    - pose proof (Hnodir name Hn) as Hx. change (is_dir (files w) q = false) in Hx.
      rewrite Hx in Hold. discriminate Hold.
    - rewrite HD in Hanc. revert Hanc. intros Hanc.
      eapply (below_not_ancestor _ (chars name) q Hc Hn Hanc). exact Hjoin. }
  exists name, (Md5.hexdigest (k +:+ decimal (now w))).
  split; [reflexivity|]. split; [reflexivity|]. split; [exact Hfile|].
  intros w2 Hw2. unfold converted. fold q.
  assert (Hfile2 : is_file (files w2) q = true) by (rewrite Hw2; exact Hfile).
  unfold is_file in Hfile2. destruct (files w2 !! q) as [[t d|t]|] eqn:Hq;
    try discriminate Hfile2.
  rewrite bind_existsSync, (exists_node_some _ _ _ Hq). cbn [negb].
  assert (Hnd : dotfile q = false).
  { rewrite Hjoin, dotfile_render by (exact Hc || exact Hn).
    apply outputFilename_no_dot. }
  eexists. rewrite (sendFile_file _ _ t d) by (rewrite ?files_log; assumption).
  reflexivity.
Qed.


(** X20. The compatibility endpoint removes its descriptor.  Once the
    handler has launched the converter, the descriptor named on the
    command line is on disk; and when the process did start, that file is
    gone when the request ends, whatever the exit code or the signal. *)
Theorem converter_removes_its_descriptor :
  forall (x2t : converter) (body : option request_body) (w : world) (j : job) (w1 : world),
    api_converter dir iso PORT fmt tok pathname uri body w = (Ok (Launched j), w1) ->
    (forall e, outcome (x2t (jcommand j) (jargs j) (files w1)) <> SpawnFailed e) ->
    exists paramsPath,
      jargs j = [paramsPath] /\
      is_file (files w1) paramsPath = true /\
      exists_node
        (files (snd (converter_request dir iso PORT fmt tok pathname uri x2t body w)))
        paramsPath = false.
Proof.
  intros x2t body w j w1 E Hrun. unfold converter_request.
  destruct (api_converter_cases body w) as [(a & Ha & _)|(k & o & Hl & Hf)];
    rewrite E in *; cbn [fst snd] in *; [discriminate Ha|].
  injection Hl as ->.
  exists (paramsPath_of dir k (now w)). split; [reflexivity|]. split; [exact Hf|].
  destruct (settle_launched x2t k o (now w) w1)
    as [(e & He & _)|(_ & r & w' & Hs & Hgone & _)].
  - exfalso. exact (Hrun e He).
  - rewrite Hs. cbn [snd]. apply Hgone, Hf.
Qed.

End DocServerFacts.

Lemma no_directory_in_sample :
  forall name, Norm.clean_name name = true ->
    Fs.is_dir (Fs.files Sample.w0) (Path.join [Sample.dir; "converted"; name]) = false.
Proof.
  intros name Hn.
  assert (Hj : Path.join [Sample.dir; "converted"; name]
               = Norm.render ((Norm.segments Sample.dir ++ [Str.chars "converted"])
                              ++ [Str.chars name])).
  { rewrite (join_absolute Sample.dir ["converted"; name]);
      [|reflexivity|discriminate|repeat constructor; exact Hn].
    rewrite <- app_assoc. reflexivity. }
  assert (Hin : Norm.inside "/srv/app/converted" (Path.join [Sample.dir; "converted"; name])
                = true).
  { rewrite Hj.
    rewrite (render_app (Norm.segments Sample.dir ++ [Str.chars "converted"])
               [Str.chars name]) by (vm_compute; discriminate).
    change (Norm.render (Norm.segments Sample.dir ++ [Str.chars "converted"]))
      with "/srv/app/converted".
    apply inside_append. }
  assert (Hall : bool_decide
                   (map_Forall (fun (p : string) (_ : Fs.node) =>
                                  Norm.inside "/srv/app/converted" p = false)
                      (Fs.files Sample.w0)) = true) by (vm_compute; reflexivity).
  apply bool_decide_eq_true_1 in Hall.
  unfold Fs.is_dir.
  destruct (Fs.files Sample.w0 !! Path.join [Sample.dir; "converted"; name]) as [n|] eqn:E;
    [|reflexivity].
  apply Hall in E. cbn beta in E. rewrite Hin in E. discriminate E.
Qed.

Lemma converter_download_witness :
  exists name digest,
    name = digest +:+ ".pdf" /\
    Fs.is_file
      (Fs.files (snd (DocServer.converter_request Sample.dir Sample.iso Sample3.port
                        Sample3.formats Sample3.no_token Sample3.no_url
                        Sample3.plain_decode Sample3.x2t_pdf (Some Sample3.request)
                        Sample.w0)))
      (Path.join [Sample.dir; "converted"; name]) = true /\
    forall w2,
      Fs.files w2
      = Fs.files (snd (DocServer.converter_request Sample.dir Sample.iso Sample3.port
                         Sample3.formats Sample3.no_token Sample3.no_url
                         Sample3.plain_decode Sample3.x2t_pdf (Some Sample3.request)
                         Sample.w0)) ->
      exists hs,
        fst (Routes.converted Sample.dir name w2)
        = Fs.Ok (Routes.Reply 200 hs
                   (Routes.SendFile (Path.join [Sample.dir; "converted"; name]))).
Proof.
  assert (E : fst (DocServer.converter_request Sample.dir Sample.iso Sample3.port
                     Sample3.formats Sample3.no_token Sample3.no_url
                     Sample3.plain_decode Sample3.x2t_pdf (Some Sample3.request) Sample.w0)
              = DocServer.Responded
                  (DocServer.Answer 200
                     (DocServer.Converted
                        ("http://localhost:" +:+ Server.decimal Sample3.port +:+ "/converted/"
                         +:+ DocServer.outputFilename_of "k1" "pdf" 100) "pdf")))
    by (vm_compute; reflexivity).
  destruct (converter_result_can_be_downloaded Sample.dir Sample.iso Sample3.port
              Sample3.formats Sample3.no_token Sample3.no_url Sample3.plain_decode
              Sample3.x2t_pdf (Some Sample3.request) Sample.w0 _ "pdf" eq_refl eq_refl
              no_directory_in_sample E)
    as (name & digest & Hn & _ & Hf & H).
  exists name, digest. split; [exact Hn|]. split; [exact Hf|exact H].
Defined.

Lemma converter_descriptor_witness :
  exists j w1 paramsPath,
    DocServer.api_converter Sample.dir Sample.iso Sample3.port Sample3.formats
      Sample3.no_token Sample3.no_url Sample3.plain_decode (Some Sample3.request) Sample.w0
    = (Fs.Ok (DocServer.Launched j), w1) /\
    DocServer.jargs j = [paramsPath] /\
    Fs.is_file (Fs.files w1) paramsPath = true /\
    Fs.exists_node
      (Fs.files (snd (DocServer.converter_request Sample.dir Sample.iso Sample3.port
                        Sample3.formats Sample3.no_token Sample3.no_url
                        Sample3.plain_decode Sample.x2t_fail (Some Sample3.request)
                        Sample.w0)))
      paramsPath = false.
Proof.
  assert (E : DocServer.api_converter Sample.dir Sample.iso Sample3.port Sample3.formats
                Sample3.no_token Sample3.no_url Sample3.plain_decode (Some Sample3.request)
                Sample.w0
              = (Fs.Ok (DocServer.Launched
                          (DocServer.converter_job Sample.dir Sample3.port "k1" "pdf" 100)),
                 snd (DocServer.api_converter Sample.dir Sample.iso Sample3.port
                        Sample3.formats Sample3.no_token Sample3.no_url
                        Sample3.plain_decode (Some Sample3.request) Sample.w0)))
    by (vm_compute; reflexivity).
  destruct (converter_removes_its_descriptor Sample.dir Sample.iso Sample3.port
              Sample3.formats Sample3.no_token Sample3.no_url Sample3.plain_decode
              Sample.x2t_fail (Some Sample3.request) Sample.w0 _ _ E)
    as (pp & Hj & Hf & Hg).
  { intros e. discriminate. }
  eexists _, _, pp. split; [exact E|]. split; [exact Hj|]. split; [exact Hf|exact Hg].
Defined.
